(** * Server_status client: lifecycle, queue, heartbeat and credential model

    A shallow embedding of the client side of the fleet-telemetry agent
    (src/client/*.py) together with the properties claimed for it.

    Conventions used throughout.
    - Python [int] is [Z]; [str] is [string] (a string stands for its UTF-8
      bytes, so [str.encode('utf-8')] is the identity on the model).
    - Values that come out of [json.loads] / [resp.json()] are [Json.json];
      floating point numbers are not modelled.
    - A Python dictionary keyed by strings whose order is irrelevant is a
      [gmap string _]; JSON objects nested inside values are association
      lists, looked up left to right.
    - Code that touches files, the clock, the UUID generator or raises is
      written in the state-and-exception monad [Py.M], over the process
      environment [Os.Env] or over [StateManager.World], the environment
      together with the fields of the one [StateManager] object.
    - Library functions outside the repository are either written out
      ([hashlib], [hmac], [base64], the comparison of [datetime] values) or
      taken as parameters ([json.dumps], [json.loads],
      [datetime.fromisoformat], [datetime.isoformat], [socket.gethostname],
      the [Sender] a [HeartbeatManager] is built with).
    - Part I holds the definitions, one module per source file; Part II holds
      the lemmas and theorems of the claimed properties, Part III further
      properties of the same code. *)

From Stdlib Require Import ZArith List String Ascii Bool Lia DecimalString.
From stdpp Require Import base gmap strings list sorting.

Local Set Warnings "-register-all".
Local Open Scope string_scope.
Local Open Scope list_scope.
Local Open Scope Z_scope.

(* ===================================================================== *)
(** * Part I: definitions                                                *)
(* ===================================================================== *)

(** ** JSON values and the Python operations the client applies to them *)

Module Json.

Inductive json : Type :=
| JNull
| JBool (b : bool)
| JNum (n : Z)
| JStr (s : string)
| JArr (l : list json)
| JObj (kvs : list (string * json)).

(** Truth value of a Python object ([if v:], [not v]). *)
Definition truthy (v : json) : bool :=
  match v with
  | JNull => false
  | JBool b => b
  | JNum n => negb (n =? 0)
  | JStr s => negb (String.eqb s "")
  | JArr l => match l with [] => false | _ => true end
  | JObj kvs => match kvs with [] => false | _ => true end
  end.

(** Truth value of the result of [d.get(k)], where a missing key gives
    [None]. *)
Definition truthy_opt (o : option json) : bool :=
  match o with Some v => truthy v | None => false end.

(** [d.get(k)] on an object given as an association list. *)
Fixpoint dict_get (k : string) (d : list (string * json)) : option json :=
  match d with
  | [] => None
  | (k', v) :: d' => if String.eqb k k' then Some v else dict_get k d'
  end.

(** [k in d] for a dictionary. *)
Definition dict_has (k : string) (d : list (string * json)) : bool :=
  match dict_get k d with Some _ => true | None => false end.

(** [v == s] where [s] is a [str]: only an equal string compares equal. *)
Definition eq_str (v : json) (s : string) : bool :=
  match v with JStr t => String.eqb t s | _ => false end.

Definition opt_eq_str (o : option json) (s : string) : bool :=
  match o with Some v => eq_str v s | None => false end.

(** [s in t] for two strings: substring test. *)
Definition is_substring (s t : string) : bool :=
  match index 0 s t with Some _ => true | None => false end.

(** [s in c] for a string [s] and an arbitrary JSON value [c].  [None] is a
    [TypeError] (the value is not a container). *)
Definition contains_str (c : json) (s : string) : option bool :=
  match c with
  | JObj kvs => Some (dict_has s kvs)
  | JArr l => Some (existsb (fun v => eq_str v s) l)
  | JStr t => Some (is_substring s t)
  | _ => None
  end.

(** [v <= s] and [s <= v] for a [str] [s]: defined between strings only
    (lexicographic by code point), a [TypeError] otherwise. *)
Definition le_str_r (v : json) (s : string) : option bool :=
  match v with JStr t => Some (String.leb t s) | _ => None end.

Definition le_str_l (s : string) (v : json) : option bool :=
  match v with JStr t => Some (String.leb s t) | _ => None end.

(** [v + 1]: defined on numbers and booleans. *)
Definition add_one (v : json) : option Z :=
  match v with
  | JNum n => Some (n + 1)
  | JBool b => Some (Z.b2z b + 1)
  | _ => None
  end.

(** [v.copy()]: dictionaries and lists have the method; [None] is the
    [AttributeError] of a value that does not. *)
Definition copy (v : json) : option json :=
  match v with
  | JObj _ | JArr _ => Some v
  | _ => None
  end.

(** [str(n)] and the [{n}] of an f-string, for an [int]. *)
Definition str_int (n : Z) : string := NilZero.string_of_int (Z.to_int n).

End Json.

(** ** timing_config.py *)

Module TimingConfig.

Definition HTTP_TIMEOUT : Z := 30.
Definition REGISTER_TIMEOUT : Z := 30.
Definition REGISTER_REJECTED_RETRY_INTERVAL : Z := 30 * 60.
Definition ERROR_STATE_RETRY_INTERVAL : Z := 5.
Definition REGISTER_FAILED_RETRY_INTERVAL : Z := 30.
Definition SERVER_INACTIVE_RETRY_INTERVAL : Z := 60.
Definition CONFIG_INCOMPLETE_RETRY_INTERVAL : Z := 30.
Definition CACHE_CLEANUP_INTERVAL : Z := 24 * 60 * 60.

(** The table mixes integer keys with the string key ["default"], so its
    key type is the sum of both. *)
Definition SLEEP_RETRY_INTERVALS : gmap (Z + string) Z :=
  <[inl 0 := 0]> (<[inl 1 := 60]> (<[inl 2 := 120]>
    (<[inr "default" := 300]> ∅))).

(** [d[k]] on the table; the [KeyError] of a missing key is [None]. *)
Definition subscript (k : Z + string) : option Z := SLEEP_RETRY_INTERVALS !! k.

(** [SLEEP_RETRY_INTERVALS.get(retry_count, SLEEP_RETRY_INTERVALS["default"])].
    The default is evaluated first, as an argument of [get]. *)
Definition get_sleep_retry_interval (retry_count : Z) : option Z :=
  match subscript (inr "default") with
  | None => None
  | Some dflt => Some (default dflt (SLEEP_RETRY_INTERVALS !! inl retry_count))
  end.

End TimingConfig.

(** ** cache.py: the durable queue (SQLite table [metrics]) *)

Module Cache.

(** One row of
    [metrics(id INTEGER PRIMARY KEY AUTOINCREMENT, timestamp INTEGER NOT NULL,
             data TEXT NOT NULL, sent INTEGER DEFAULT 0)]. *)
Record Row : Type := mkRow {
  id : Z;
  timestamp : Z;
  data : string;
  sent : Z
}.

(** The database file: the table (in storage order) and the
    [sqlite_sequence] entry kept for the AUTOINCREMENT column, i.e. the
    largest row id ever handed out. *)
Record Db : Type := mkDb {
  rows : list Row;
  seq : Z
}.

(** Largest row id SQLite can assign (signed 64 bit). *)
Definition MAX_ROWID : Z := 2 ^ 63 - 1.

(** [_ensure_db] on a file that does not exist yet: an empty table. *)
Definition _ensure_db : Db := {| rows := []; seq := 0 |}.

Definition max_id (l : list Row) : Z := foldr (fun r m => Z.max (id r) m) 0 l.

(** AUTOINCREMENT: one more than the largest id that ever existed in the
    table; when that is already [MAX_ROWID] the INSERT fails (SQLITE_FULL). *)
Definition next_rowid (db : Db) : option Z :=
  let top := Z.max (seq db) (max_id (rows db)) in
  if top <? MAX_ROWID then Some (top + 1) else None.

(** [ORDER BY id]: stable insertion sort on the id column. *)
Fixpoint insert_row (r : Row) (l : list Row) : list Row :=
  match l with
  | [] => [r]
  | x :: l' => if id r <=? id x then r :: l else x :: insert_row r l'
  end.

Definition order_by_id (l : list Row) : list Row := foldr insert_row [] l.

(** The order [ORDER BY id] establishes. *)
Definition id_le (a b : Row) : Prop := id a ≤ id b.

(** [LIMIT n]: a negative limit means no limit in SQLite. *)
Definition sql_limit {A : Type} (n : Z) (l : list A) : list A :=
  if n <? 0 then l else firstn (Z.to_nat n) l.

Definition is_unsent (r : Row) : bool := sent r =? 0.

(** [SELECT id, timestamp, data FROM metrics WHERE sent = 0 ORDER BY id LIMIT ?] *)
Definition select_unsent (limit : Z) (db : Db) : list Row :=
  sql_limit limit (order_by_id (filter (fun r => is_unsent r = true) (rows db))).

Definition set_sent (r : Row) : Row :=
  {| id := id r; timestamp := timestamp r; data := data r; sent := 1 |}.

(** [UPDATE metrics SET sent = 1 WHERE id = ?] *)
Definition update_sent (db : Db) (i : Z) : Db :=
  {| rows := map (fun r => if id r =? i then set_sent r else r) (rows db);
     seq := seq db |}.

(** [mark_sent(ids)]: nothing at all on an empty list, otherwise one UPDATE
    per id. *)
Definition mark_sent (ids : list Z) (db : Db) : Db :=
  match ids with
  | [] => db
  | _ => foldl update_sent db ids
  end.

(** [prune(max_age_seconds)] at time [now]:
    [DELETE FROM metrics WHERE timestamp < now - max_age_seconds]. *)
Definition prune (now max_age_seconds : Z) (db : Db) : Db :=
  let threshold := now - max_age_seconds in
  {| rows := filter (fun r => (timestamp r <? threshold) = false) (rows db);
     seq := seq db |}.

Section Payload.

(** The sample stored in a row and its JSON text: [dumps] is [json.dumps],
    [loads] is [json.loads] ([None] when the text does not parse). *)
Variable Payload : Type.
Variable dumps : Payload → string.
Variable loads : string → option Payload.

(** The dictionaries returned by [get_unsent]. *)
Record Unsent : Type := mkUnsent {
  u_id : Z;
  u_timestamp : Z;
  u_data : Payload
}.

(** [save(data)] at time [now]:
    [INSERT INTO metrics (timestamp, data, sent) VALUES (now, dumps data, 0)].
    [None] is the [sqlite3] error of an exhausted id space. *)
Definition save (now : Z) (d : Payload) (db : Db) : option Db :=
  match next_rowid db with
  | None => None
  | Some i =>
      Some {| rows := rows db ++ [ {| id := i; timestamp := now;
                                      data := dumps d; sent := 0 |} ];
              seq := i |}
  end.

Definition decode_row (r : Row) : option Unsent :=
  match loads (data r) with
  | Some p => Some {| u_id := id r; u_timestamp := timestamp r; u_data := p |}
  | None => None
  end.

(** [get_unsent(limit)]; [None] when [json.loads] raises on a selected row. *)
Definition get_unsent (limit : Z) (db : Db) : option (list Unsent) :=
  mapM decode_row (select_unsent limit db).

End Payload.

Arguments u_id {Payload} _.
Arguments u_timestamp {Payload} _.
Arguments u_data {Payload} _.
Arguments mkUnsent {Payload} _ _ _.
Arguments save {Payload} dumps now d db.
Arguments decode_row {Payload} loads r.
Arguments get_unsent {Payload} loads limit db.

(** The shape every table built by the methods has: ids strictly ascending
    in storage order, positive, and none above the [sqlite_sequence]
    entry. *)
Definition well_formed (db : Db) : Prop :=
  StronglySorted Z.lt (map id (rows db)) ∧
  Forall (fun r => 0 < id r ≤ seq db) (rows db).

(** The rows still to be delivered, in storage order. *)
Definition unsent_rows (db : Db) : list Row :=
  filter (fun r => is_unsent r = true) (rows db).

End Cache.

(** ** The standard-library primitives behind the credential:
       SHA-256 (FIPS 180-4), HMAC (RFC 2104) and URL-safe Base64 (RFC 4648) *)

Module Hashlib.

(** Bytes are integers in [0, 256); words are integers in [0, 2^32). *)
Definition w32 (x : Z) : Z := x mod 2 ^ 32.
Definition add32 (x y : Z) : Z := w32 (x + y).
Definition rotr (n x : Z) : Z :=
  Z.lor (Z.shiftr x n) (w32 (Z.shiftl x (32 - n))).
Definition not32 (x : Z) : Z := Z.lxor x 0xffffffff.

Definition Ch (x y z : Z) : Z := Z.lxor (Z.land x y) (Z.land (not32 x) z).
Definition Maj (x y z : Z) : Z :=
  Z.lxor (Z.lxor (Z.land x y) (Z.land x z)) (Z.land y z).
Definition Sigma0 (x : Z) : Z :=
  Z.lxor (Z.lxor (rotr 2 x) (rotr 13 x)) (rotr 22 x).
Definition Sigma1 (x : Z) : Z :=
  Z.lxor (Z.lxor (rotr 6 x) (rotr 11 x)) (rotr 25 x).
Definition sigma0 (x : Z) : Z :=
  Z.lxor (Z.lxor (rotr 7 x) (rotr 18 x)) (Z.shiftr x 3).
Definition sigma1 (x : Z) : Z :=
  Z.lxor (Z.lxor (rotr 17 x) (rotr 19 x)) (Z.shiftr x 10).

(** The round constants are the first 32 bits of the fractional parts of
    the cube roots of the first 64 primes, the initial chaining value those
    of the square roots of the first 8 primes (FIPS 180-4, 4.2.2 and
    5.3.3). *)
Definition is_prime (n : nat) : bool :=
  (2 <=? n)%nat
  && forallb (fun d => negb (n mod d =? 0)%nat) (seq 2 (n - 2)).

Definition first_primes (k : nat) : list Z :=
  map Z.of_nat (firstn k (List.filter is_prime (seq 2 400))).

(** Integer cube root below [2^36], one bit at a time. *)
Definition iroot3 (n : Z) : Z :=
  foldl (fun r k => let c := r + 2 ^ Z.of_nat k in
                    if c * c * c <=? n then c else r)
        0 (rev (seq 0 36)).

Definition frac32_cbrt (p : Z) : Z := iroot3 (p * 2 ^ 96) mod 2 ^ 32.
Definition frac32_sqrt (p : Z) : Z := Z.sqrt (p * 2 ^ 64) mod 2 ^ 32.

Definition K256 : list Z :=
  Eval vm_compute in map frac32_cbrt (first_primes 64).

(** The eight working registers / chaining values. *)
Record regs : Type := mkRegs {
  ra : Z; rb : Z; rc : Z; rd : Z; re : Z; rf : Z; rg : Z; rh : Z
}.

Definition regs_of_list (l : list Z) : regs :=
  match l with
  | [a; b; c; d; e; f; g; h] => mkRegs a b c d e f g h
  | _ => mkRegs 0 0 0 0 0 0 0 0
  end.

Definition H256 : regs :=
  Eval vm_compute in regs_of_list (map frac32_sqrt (first_primes 8)).

Definition be32 (x : Z) : list Z :=
  [Z.shiftr x 24 mod 256; Z.shiftr x 16 mod 256; Z.shiftr x 8 mod 256;
   x mod 256].

Definition be64 (x : Z) : list Z :=
  be32 (Z.shiftr x 32 mod 2 ^ 32) ++ be32 (x mod 2 ^ 32).

(** Padding: a 1 bit, zeros up to 56 modulo 64 bytes, the bit length. *)
Definition pad (msg : list Z) : list Z :=
  let len := Z.of_nat (length msg) in
  msg ++ [0x80] ++ repeat 0 (Z.to_nat ((55 - len) mod 64)) ++ be64 (8 * len).

(** Big-endian words of a byte string. *)
Fixpoint words (bytes : list Z) : list Z :=
  match bytes with
  | b0 :: b1 :: b2 :: b3 :: rest =>
      (b0 * 2 ^ 24 + b1 * 2 ^ 16 + b2 * 2 ^ 8 + b3) :: words rest
  | _ => []
  end.

(** The message schedule: [n] more words appended to [w]. *)
Fixpoint extend (n : nat) (w : list Z) : list Z :=
  match n with
  | O => w
  | S n' =>
      let t := length w in
      let at_ (k : nat) := nth (t - k) w 0 in
      extend n' (w ++ [add32 (add32 (sigma1 (at_ 2%nat)) (at_ 7%nat))
                             (add32 (sigma0 (at_ 15%nat)) (at_ 16%nat))])
  end.

Definition round (r : regs) (kw : Z * Z) : regs :=
  let t1 := add32 (add32 (add32 (rh r) (Sigma1 (re r)))
                         (add32 (Ch (re r) (rf r) (rg r)) (fst kw))) (snd kw) in
  let t2 := add32 (Sigma0 (ra r)) (Maj (ra r) (rb r) (rc r)) in
  mkRegs (add32 t1 t2) (ra r) (rb r) (rc r) (add32 (rd r) t1)
         (re r) (rf r) (rg r).

(** One 16-word block folded into the chaining value. *)
Definition compress (h : regs) (block : list Z) : regs :=
  let r := foldl round h (combine K256 (extend 48 block)) in
  mkRegs (add32 (ra h) (ra r)) (add32 (rb h) (rb r)) (add32 (rc h) (rc r))
         (add32 (rd h) (rd r)) (add32 (re h) (re r)) (add32 (rf h) (rf r))
         (add32 (rg h) (rg r)) (add32 (rh h) (rh r)).

(** All 16-word blocks of a word list, left to right; the recursion is
    bounded by the number of blocks. *)
Fixpoint blocks (n : nat) (h : regs) (ws : list Z) : regs :=
  match n with
  | O => h
  | S n' => blocks n' (compress h (firstn 16 ws)) (skipn 16 ws)
  end.

Definition digest_bytes (h : regs) : list Z :=
  be32 (ra h) ++ be32 (rb h) ++ be32 (rc h) ++ be32 (rd h) ++
  be32 (re h) ++ be32 (rf h) ++ be32 (rg h) ++ be32 (rh h).

(** [hashlib.sha256(msg).digest()] *)
Definition sha256 (msg : list Z) : list Z :=
  let ws := words (pad msg) in
  digest_bytes (blocks (length ws / 16) H256 ws).

(** [hmac.new(key, msg, hashlib.sha256).digest()] *)
Definition hmac_sha256 (key msg : list Z) : list Z :=
  let key' := if (64 <? length key)%nat then sha256 key else key in
  let block := key' ++ repeat 0 (64 - length key') in
  let ipad := map (Z.lxor 0x36) block in
  let opad := map (Z.lxor 0x5c) block in
  sha256 (opad ++ sha256 (ipad ++ msg)).

Definition urlsafe_alphabet : list ascii :=
  list_ascii_of_string
    "ABCDEFGHIJKLMNOPQRSTUVWXYZabcdefghijklmnopqrstuvwxyz0123456789-_".

Definition b64char (n : Z) : ascii := nth (Z.to_nat n) urlsafe_alphabet "A"%char.

(** [base64.urlsafe_b64encode(bytes).decode('utf-8')] *)
Fixpoint urlsafe_b64encode (bytes : list Z) : string :=
  match bytes with
  | [] => ""
  | [x] =>
      String (b64char (x / 4)) (String (b64char (x mod 4 * 16)) "==")
  | [x; y] =>
      String (b64char (x / 4))
        (String (b64char (x mod 4 * 16 + y / 16))
           (String (b64char (y mod 16 * 4)) "="))
  | x :: y :: z :: rest =>
      String (b64char (x / 4))
        (String (b64char (x mod 4 * 16 + y / 16))
           (String (b64char (y mod 16 * 4 + z / 64))
              (String (b64char (z mod 64)) (urlsafe_b64encode rest))))
  end.

(** [s.rstrip('=')] *)
Fixpoint rstrip_eq (s : string) : string :=
  match s with
  | EmptyString => EmptyString
  | String c s' =>
      match rstrip_eq s' with
      | EmptyString => if Ascii.eqb c "=" then EmptyString else String c EmptyString
      | r => String c r
      end
  end.

(** [s.encode('utf-8')]: the bytes of a string. *)
Definition encode (s : string) : list Z :=
  map (fun c => Z.of_N (N_of_ascii c)) (list_ascii_of_string s).

(** Lower-case hexadecimal rendering, for test vectors. *)
Definition hexchar (n : Z) : ascii :=
  nth (Z.to_nat n) (list_ascii_of_string "0123456789abcdef") "0"%char.

Definition hexdigest (bytes : list Z) : string :=
  string_of_list_ascii
    (flat_map (fun b => [hexchar (b / 16); hexchar (b mod 16)]) bytes).

End Hashlib.

(** ** A state-and-exception monad for the effectful code *)

Module Py.

(** The exceptions the modelled code can meet.  [KeyboardInterrupt] is the
    only one that is not an [Exception] and so escapes [except Exception]. *)
Inductive exn : Type :=
| OSError | TypeError | ValueError | AttributeError | KeyError | NameError
| KeyboardInterrupt.

Definition is_Exception (e : exn) : bool :=
  match e with KeyboardInterrupt => false | _ => true end.

Inductive Result (A : Type) : Type :=
| Ok (a : A)
| Raise (e : exn).
Arguments Ok {A} a.
Arguments Raise {A} e.

(** A computation over a store [S]: it ends normally or by raising, and in
    both cases leaves a store behind. *)
Definition M (S A : Type) : Type := S → Result A * S.

Definition ret {S A} (a : A) : M S A := fun s => (Ok a, s).

Definition bind {S A B} (m : M S A) (k : A → M S B) : M S B :=
  fun s => match m s with
           | (Ok a, s') => k a s'
           | (Raise e, s') => (Raise e, s')
           end.

Definition raise {S A} (e : exn) : M S A := fun s => (Raise e, s).

Definition gets {S A} (f : S → A) : M S A := fun s => (Ok (f s), s).

Definition modify {S} (f : S → S) : M S unit := fun s => (Ok tt, f s).

(** [try: body / except Exception: handler] *)
Definition try_except {S A} (body : M S A) (handler : exn → M S A) : M S A :=
  fun s => match body s with
           | (Ok a, s') => (Ok a, s')
           | (Raise e, s') =>
               if is_Exception e then handler e s' else (Raise e, s')
           end.

(** The store a computation leaves behind, and its outcome. *)
Definition exec {S A} (m : M S A) (s : S) : S := snd (m s).
Definition outcome {S A} (m : M S A) (s : S) : Result A := fst (m s).

(** Running a computation on a component of a larger store. *)
Definition zoom {S T A} (get : T → S) (set : S → T → T) (m : M S A) : M T A :=
  fun t => let (r, s') := m (get t) in (r, set s' t).

(** A computation that raises nothing but [Exception]s. *)
Definition only_Exceptions {S A} (m : M S A) : Prop :=
  ∀ s e s', m s = (Raise e, s') → is_Exception e = true.

(** A computation whose every run, normal or not, relates the store it
    starts from to the store it leaves by [R]. *)
Definition respects {S A} (R : S → S → Prop) (m : M S A) : Prop :=
  ∀ s r s', m s = (r, s') → R s s'.

End Py.

Notation "'let!' x ':=' m 'in' k" := (Py.bind m (fun x => k))
  (at level 10, x name, m at level 100, k at level 200).
Notation "m '>>' k" := (Py.bind m (fun _ => k))
  (at level 65, right associativity).

(** ** The process environment: files, clock, UUID generator, globals *)

Module Os.
Import Json Py.

Record Env : Type := mkEnv {
  (** text of every file that exists, by path *)
  files : gmap string string;
  (** paths on which writing and removing fail with [OSError] *)
  faulty : gset string;
  (** [int(time.time())] *)
  clock : Z;
  (** the values [uuid.uuid4()] produces, and how many were taken *)
  uuid_source : nat → string;
  uuid_count : nat;
  (** [config.RUNTIME_CONFIG] *)
  RUNTIME_CONFIG : gmap string json;
  (** [config.SERVER_SECRET_KEY], from the environment at import time *)
  SERVER_SECRET_KEY : string
}.

Definition set_files (f : gmap string string) (e : Env) : Env :=
  mkEnv f (faulty e) (clock e) (uuid_source e) (uuid_count e)
        (RUNTIME_CONFIG e) (SERVER_SECRET_KEY e).
Definition set_clock (t : Z) (e : Env) : Env :=
  mkEnv (files e) (faulty e) t (uuid_source e) (uuid_count e)
        (RUNTIME_CONFIG e) (SERVER_SECRET_KEY e).
Definition set_uuid_count (n : nat) (e : Env) : Env :=
  mkEnv (files e) (faulty e) (clock e) (uuid_source e) n
        (RUNTIME_CONFIG e) (SERVER_SECRET_KEY e).
Definition set_RUNTIME_CONFIG (c : gmap string json) (e : Env) : Env :=
  mkEnv (files e) (faulty e) (clock e) (uuid_source e) (uuid_count e)
        c (SERVER_SECRET_KEY e).

(** [Path(p).exists()] *)
Definition exists_ (p : string) : M Env bool :=
  gets (fun e => bool_decide (is_Some (files e !! p))).

(** [Path(p).read_text()] *)
Definition read_text (p : string) : M Env string :=
  fun e => match files e !! p with
           | Some s => (Ok s, e)
           | None => (Raise OSError, e)
           end.

(** [Path(p).write_text(s)], also [open(p, 'w')] followed by one write *)
Definition write_text (p s : string) : M Env unit :=
  fun e => if bool_decide (p ∈ faulty e) then (Raise OSError, e)
           else (Ok tt, set_files (<[p := s]> (files e)) e).

(** [Path(p).unlink()] *)
Definition unlink (p : string) : M Env unit :=
  fun e => if bool_decide (p ∈ faulty e) then (Raise OSError, e)
           else match files e !! p with
                | Some _ => (Ok tt, set_files (delete p (files e)) e)
                | None => (Raise OSError, e)
                end.

(** [int(time.time())] *)
Definition time : M Env Z := gets clock.

(** [time.sleep(d)] without interruption *)
Definition sleep (d : Z) : M Env unit :=
  modify (fun e => set_clock (clock e + d) e).

(** [str(uuid.uuid4())] *)
Definition uuid4 : M Env string :=
  fun e => (Ok (uuid_source e (uuid_count e)), set_uuid_count (S (uuid_count e)) e).

(** Python's [str.isspace] on ASCII and [str.strip()]; the white space
    beyond ASCII is not stripped by the model. *)
Definition isspace (c : ascii) : bool :=
  let n := N_of_ascii c in
  ((9 <=? n) && (n <=? 13) || (28 <=? n) && (n <=? 32))%N.

Fixpoint lstrip (s : string) : string :=
  match s with
  | EmptyString => EmptyString
  | String c s' => if isspace c then lstrip s' else s
  end.

Fixpoint rstrip (s : string) : string :=
  match s with
  | EmptyString => EmptyString
  | String c s' =>
      match rstrip s' with
      | EmptyString => if isspace c then EmptyString else String c EmptyString
      | r => String c r
      end
  end.

Definition strip (s : string) : string := rstrip (lstrip s).

End Os.

(** ** identity.py *)

Module Identity.
Import Py Os Hashlib.

Definition _ID_FILE : string := "client_id.txt".

(** [generate_token(uuid_str)], with the module constant
    [SERVER_SECRET_KEY] made explicit. *)
Definition generate_token (SERVER_SECRET_KEY uuid_str : string) : string :=
  let secret := encode SERVER_SECRET_KEY in
  let h := hmac_sha256 secret (encode uuid_str) in
  let token := rstrip_eq (urlsafe_b64encode h) in
  token.

(** A credential "rendered as a URL-safe, unpadded text token": the 43
    characters that encode a 32-byte digest. *)
Definition is_urlsafe (c : ascii) : bool :=
  existsb (Ascii.eqb c) urlsafe_alphabet.

Definition well_formed_token (t : string) : Prop :=
  String.length t = 43%nat ∧
  forallb is_urlsafe (list_ascii_of_string t) = true.

(** [get_client_id()] *)
Definition get_client_id : M Env string :=
  let generate :=
    let! cid := uuid4 in
    write_text _ID_FILE cid >>
    ret cid in
  let! present := exists_ _ID_FILE in
  if present then
    let! text := read_text _ID_FILE in
    let content := strip text in
    if negb (String.eqb content "") then ret content else generate
  else generate.

(** [get_auth_token()] *)
Definition get_auth_token : M Env string :=
  let! cid := get_client_id in
  let! key := gets SERVER_SECRET_KEY in
  ret (generate_token key cid).

End Identity.

(** ** config.py: the constants other modules import by name *)

Module ConfigConstants.

Definition DB_PATH : string := "client_cache.db".
Definition SEND_BATCH_SIZE : Z := 20.
Definition AUTO_RESET_ERROR_STATE_ON_STARTUP : bool := true.
Definition AUTO_RESET_REGISTERING_STATE_ON_STARTUP : bool := true.

End ConfigConstants.

(** ** state_manager.py *)

Module StateManager.
Import Json Py Os.

Inductive ClientState : Type :=
| UNREGISTERED | REGISTERING | REGISTERED | DELETED | REINITIALIZED
| SLEEP_RETRY | ERROR.

#[global] Instance ClientState_eq_dec : EqDecision ClientState.
Proof. solve_decision. Defined.

(** [ClientState.value] *)
Definition value (s : ClientState) : string :=
  match s with
  | UNREGISTERED => "unregistered"
  | REGISTERING => "registering"
  | REGISTERED => "registered"
  | DELETED => "deleted"
  | REINITIALIZED => "reinitialized"
  | SLEEP_RETRY => "sleep_retry"
  | ERROR => "error"
  end.

(** The fields of a [StateManager] object. *)
Record StateManager : Type := mkStateManager {
  state : ClientState;
  error_start_time : Z;
  error_retry_count : Z
}.

Definition state_file : string := "client_state.json".
Definition delete_marker_file : string := ".client_delete_marker".
Definition client_id_file : string := "client_id.txt".
Definition reinit_file : string := "reinit_info.json".
Definition reactivation_file : string := "reactivation_info.json".

(** The one [StateManager] of the process next to its environment. *)
Record World : Type := mkWorld {
  self : StateManager;
  os : Env
}.

Definition on_os {A} (m : M Env A) : M World A :=
  zoom os (fun e w => mkWorld (self w) e) m.

Definition on_self (f : StateManager → StateManager) : M World unit :=
  modify (fun w => mkWorld (f (self w)) (os w)).

Definition get_state : M World ClientState := gets (fun w => state (self w)).

Section Methods.

(** [json.dumps] and [json.loads] ([None]: the text is not JSON). *)
Variable dumps : json → string.
Variable loads : string → option json.

(** [_save_state] *)
Definition _save_state : M World unit :=
  try_except
    (let! st := get_state in
     let! t := on_os time in
     let data := JObj [("state", JStr (value st)); ("timestamp", JNum t)] in
     on_os (write_text state_file (dumps data)))
    (fun _ => ret tt).

(** [set_state(new_state)] *)
Definition set_state (new_state : ClientState) : M World unit :=
  let! old_state := get_state in
  if bool_decide (old_state ≠ new_state) then
    on_self (fun m => mkStateManager new_state (error_start_time m)
                                     (error_retry_count m)) >>
    (if bool_decide (new_state = ERROR) then
       if bool_decide (old_state ≠ ERROR) then
         let! t := on_os time in
         on_self (fun m => mkStateManager (state m) t 0)
       else
         on_self (fun m => mkStateManager (state m) (error_start_time m)
                                          (error_retry_count m + 1))
     else
       if bool_decide (old_state = ERROR) then
         on_self (fun m => mkStateManager (state m) 0 0)
       else ret tt) >>
    _save_state
  else ret tt.

(** [check_delete_marker] *)
Definition check_delete_marker : M World bool :=
  on_os (exists_ delete_marker_file).

(** [should_enter_sleep_retry_mode] and [enter_sleep_retry_mode] *)
Definition should_enter_sleep_retry_mode : M World bool :=
  let! st := get_state in
  ret (bool_decide (st ∈ [REINITIALIZED; SLEEP_RETRY])).

Definition enter_sleep_retry_mode : M World unit := set_state SLEEP_RETRY.

(** [_regenerate_client_id] *)
Definition _regenerate_client_id : M World unit :=
  on_os
    (let! present := exists_ client_id_file in
     (if present then
        let! old_id := read_text client_id_file in
        unlink client_id_file
      else ret tt) >>
     let! new_id := uuid4 in
     write_text client_id_file new_id).

Definition auth_keys : list string := ["auth_token"; "server_id"; "report_url"].

(** [_clear_auth_info] *)
Definition _clear_auth_info : M World unit :=
  on_os (modify (fun e =>
    set_RUNTIME_CONFIG
      (foldl (fun rc key =>
                if bool_decide (is_Some (rc !! key)) then delete key rc else rc)
             (RUNTIME_CONFIG e) auth_keys) e)).

(** [_reset_device_config]: only logs. *)
Definition _reset_device_config : M World unit := ret tt.

(** [_get_reinit_count] *)
Definition _get_reinit_count : M World json :=
  try_except
    (let! present := on_os (exists_ reinit_file) in
     if present then
       let! text := on_os (read_text reinit_file) in
       match loads text with
       | None => raise ValueError
       | Some (JObj data) => ret (default (JNum 0) (dict_get "reinit_count" data))
       | Some _ => raise AttributeError
       end
     else ret (JNum 0))
    (fun _ => ret (JNum 0)).

(** [_save_reinit_timestamp]: the dictionary is built before the [try], so
    a count that cannot be incremented raises out of the method. *)
Definition _save_reinit_timestamp : M World unit :=
  let! t := on_os time in
  let! count := _get_reinit_count in
  match add_one count with
  | None => raise TypeError
  | Some n =>
      let reinit_data :=
        JObj [("reinit_timestamp", JNum t); ("reinit_count", JNum n)] in
      try_except (on_os (write_text reinit_file (dumps reinit_data)))
                 (fun _ => ret tt)
  end.

(** [reinitialize_device] *)
Definition reinitialize_device : M World unit :=
  try_except
    (_regenerate_client_id >>
     _clear_auth_info >>
     _reset_device_config >>
     set_state REINITIALIZED >>
     _save_reinit_timestamp)
    (fun _ => set_state ERROR).

(** [handle_device_deleted_response] *)
Definition handle_device_deleted_response : M World unit :=
  set_state DELETED >>
  reinitialize_device.

(** [_record_reactivation] *)
Definition _record_reactivation : M World unit :=
  try_except
    (let! t := on_os time in
     let! count := _get_reinit_count in
     let reactivation_data :=
       JObj [("reactivation_timestamp", JNum t);
             ("previous_reinit_count", count)] in
     on_os (write_text reactivation_file (dumps reactivation_data)))
    (fun _ => ret tt).

(** [handle_register_response(response_data)] *)
Definition handle_register_response (response_data : list (string * json))
  : M World string :=
  let status := default (JStr "unknown") (dict_get "status" response_data) in
  if eq_str status "pending" then ret "continue_sleep"
  else if eq_str status "accepted" then
    set_state REGISTERED >> _record_reactivation >> ret "resume_normal"
  else if eq_str status "rejected" then ret "continue_sleep"
  else if eq_str status "deleted" then
    reinitialize_device >> ret "reinitialize"
  else ret "continue_sleep".

Definition MAX_ERROR_DURATION : Z := 300.
Definition MAX_ERROR_RETRIES : Z := 10.

(** [_attempt_error_recovery] *)
Definition _attempt_error_recovery : M World unit :=
  try_except
    (let! marker := check_delete_marker in
     if marker then reinitialize_device
     else set_state UNREGISTERED)
    (fun _ =>
       let! t := on_os time in
       on_self (fun m => mkStateManager (state m) t (error_retry_count m))).

(** [_should_auto_recover_from_error] *)
Definition _should_auto_recover_from_error : M World bool :=
  let! st := get_state in
  if bool_decide (st ≠ ERROR) then ret false
  else
    let! current_time := on_os time in
    let! started := gets (fun w => error_start_time (self w)) in
    let error_duration := current_time - started in
    if MAX_ERROR_DURATION <=? error_duration then
      _attempt_error_recovery >> ret true
    else
      let! retries := gets (fun w => error_retry_count (self w)) in
      if MAX_ERROR_RETRIES <=? retries then
        _attempt_error_recovery >> ret true
      else ret false.

(** [should_stop_registration] and [should_stop_reporting] *)
Definition should_stop_registration : M World bool :=
  let! st := get_state in
  if bool_decide (st = ERROR) then
    let! recover := _should_auto_recover_from_error in
    ret (negb recover)
  else ret false.

Definition should_stop_reporting : M World bool := should_stop_registration.

(** [force_reset_error_state] *)
Definition force_reset_error_state : M World unit :=
  let! st := get_state in
  if bool_decide (st = ERROR) then set_state UNREGISTERED else ret tt.

(** [ClientState(state_str)]: the member with that value; [None] is the
    [ValueError] of a value no member has. *)
Definition of_value (v : json) : option ClientState :=
  match v with
  | JStr s =>
      find (fun st => String.eqb (value st) s)
           [UNREGISTERED; REGISTERING; REGISTERED; DELETED; REINITIALIZED;
            SLEEP_RETRY; ERROR]
  | _ => None
  end.

(** [_load_state] *)
Definition _load_state : M World unit :=
  let unregistered :=
    on_self (fun m => mkStateManager UNREGISTERED (error_start_time m)
                                     (error_retry_count m)) in
  try_except
    (let! present := on_os (exists_ state_file) in
     if present then
       let! text := on_os (read_text state_file) in
       match loads text with
       | None => raise ValueError
       | Some (JObj data) =>
           let state_str :=
             default (JStr "unregistered") (dict_get "state" data) in
           match of_value state_str with
           | None => raise ValueError
           | Some loaded_state =>
               let should_reset :=
                 if bool_decide (loaded_state = ERROR) then
                   ConfigConstants.AUTO_RESET_ERROR_STATE_ON_STARTUP
                 else if bool_decide (loaded_state = REGISTERING) then
                   ConfigConstants.AUTO_RESET_REGISTERING_STATE_ON_STARTUP
                 else false in
               if should_reset then
                 on_self (fun _ => mkStateManager UNREGISTERED 0 0) >>
                 _save_state
               else
                 on_self (fun m => mkStateManager loaded_state
                                     (error_start_time m) (error_retry_count m))
           end
       | Some _ => raise AttributeError
       end
     else unregistered)
    (fun _ => unregistered).

(** [StateManager()]: the constructor, run on the world whose manager it
    builds. *)
Definition __init__ : M World unit :=
  on_self (fun _ => mkStateManager UNREGISTERED 0 0) >>
  _load_state.

(** [create_delete_marker] and [remove_delete_marker] *)
Definition create_delete_marker : M World unit :=
  try_except
    (let! t := on_os time in
     on_os (write_text delete_marker_file ("deleted_at_" +:+ str_int t)))
    (fun _ => ret tt).

Definition remove_delete_marker : M World unit :=
  try_except
    (let! present := on_os (exists_ delete_marker_file) in
     if present then on_os (unlink delete_marker_file) else ret tt)
    (fun _ => ret tt).

(** [if p.exists(): p.unlink()], the statement [reset_client] repeats for
    each of its three files. *)
Definition remove_if_exists (p : string) : M World unit :=
  let! present := on_os (exists_ p) in
  if present then on_os (unlink p) else ret tt.

(** [reset_client]: the state is assigned directly, not through
    [set_state]. *)
Definition reset_client : M World unit :=
  try_except
    (remove_if_exists state_file >>
     remove_if_exists client_id_file >>
     remove_if_exists ConfigConstants.DB_PATH >>
     remove_delete_marker >>
     on_self (fun m => mkStateManager UNREGISTERED (error_start_time m)
                                      (error_retry_count m)))
    (fun _ => ret tt).

(** [sleep_and_retry_register(retry_count)]; [interrupted] tells whether
    Ctrl-C arrives during the sleep. *)
Definition sleep_and_retry_register (retry_count : Z) (interrupted : bool)
  : M World bool :=
  match TimingConfig.get_sleep_retry_interval retry_count with
  | None => raise KeyError
  | Some sleep_interval =>
      if 0 <? sleep_interval then
        if interrupted then ret false
        else on_os (sleep sleep_interval) >> ret true
      else ret true
  end.

(** [get_error_info] *)
Definition get_error_info : M World (list (string * json)) :=
  let! st := get_state in
  if bool_decide (st ≠ ERROR) then ret [("in_error", JBool false)]
  else
    let! current_time := on_os time in
    let! started := gets (fun w => error_start_time (self w)) in
    let error_duration :=
      if 0 <? started then current_time - started else 0 in
    let! retries := gets (fun w => error_retry_count (self w)) in
    ret [("in_error", JBool true);
         ("error_start_time", JNum started);
         ("error_duration", JNum error_duration);
         ("error_retry_count", JNum retries);
         ("auto_recovery_in", JNum (Z.max 0 (300 - error_duration)));
         ("can_manual_reset", JBool true)].

(** The module-level helpers build a manager of their own, so they run on
    the world of that manager.  [check_and_handle_deletion] calls
    [manager.handle_deletion()], a method the class does not define. *)
Definition create_delete_marker_helper : M World unit :=
  __init__ >>
  create_delete_marker.

Definition check_and_handle_deletion : M World bool :=
  __init__ >>
  let! marker := check_delete_marker in
  if marker then
    (raise AttributeError : M World unit) >>
    ret true
  else ret false.

End Methods.

(** *** Closed forms of the stores the methods leave behind *)

Section Closed.
Variable dumps : json → string.
Variable loads : string → option json.

(** The state record [_save_state] writes. *)
Definition state_record (st : ClientState) (t : Z) : json :=
  JObj [("state", JStr (value st)); ("timestamp", JNum t)].

(** The environment after [_save_state] for state [st]. *)
Definition persisted (st : ClientState) (e : Env) : Env :=
  if bool_decide (state_file ∈ faulty e) then e
  else set_files (<[state_file := dumps (state_record st (clock e))]> (files e)) e.

(** The manager's fields after a transition into [s] at time [t]. *)
Definition entered (m : StateManager) (s : ClientState) (t : Z) : StateManager :=
  if bool_decide (s = ERROR) then mkStateManager s t 0
  else if bool_decide (state m = ERROR) then mkStateManager s 0 0
  else mkStateManager s (error_start_time m) (error_retry_count m).

(** The environment after [_regenerate_client_id] succeeded. *)
Definition rotated (e : Env) : Env :=
  set_uuid_count (S (uuid_count e))
    (set_files (<[client_id_file := uuid_source e (uuid_count e)]> (files e)) e).

(** [RUNTIME_CONFIG] after [_clear_auth_info]. *)
Definition cleared (rc : gmap string json) : gmap string json :=
  delete "report_url" (delete "server_id" (delete "auth_token" rc)).

(** What [_get_reinit_count] reads from the files [fs]. *)
Definition reinit_count_of (fs : gmap string string) : json :=
  match fs !! reinit_file with
  | Some text =>
      match loads text with
      | Some (JObj data) => default (JNum 0) (dict_get "reinit_count" data)
      | _ => JNum 0
      end
  | None => JNum 0
  end.

(** The record [_save_reinit_timestamp] writes. *)
Definition reinit_record (t n : Z) : json :=
  JObj [("reinit_timestamp", JNum t); ("reinit_count", JNum n)].

(** The environment after [_save_reinit_timestamp] wrote count [n]. *)
Definition counted (n : Z) (e : Env) : Env :=
  if bool_decide (reinit_file ∈ faulty e) then e
  else set_files (<[reinit_file := dumps (reinit_record (clock e) n)]> (files e)) e.

(** The files the lifecycle methods write or remove. *)
Definition lifecycle_files : list string :=
  [client_id_file; state_file; reinit_file; reactivation_file].

(** [e'] differs from [e] at most in the files [paths], the keys [keys] of
    [RUNTIME_CONFIG] and the number of UUIDs drawn. *)
Definition env_frame (paths keys : list string) (e e' : Env) : Prop :=
  faulty e' = faulty e ∧
  clock e' = clock e ∧
  uuid_source e' = uuid_source e ∧
  SERVER_SECRET_KEY e' = SERVER_SECRET_KEY e ∧
  (∀ p, p ∉ paths → files e' !! p = files e !! p) ∧
  (∀ k, k ∉ keys → RUNTIME_CONFIG e' !! k = RUNTIME_CONFIG e !! k).

Definition frame (paths keys : list string) (w w' : World) : Prop :=
  env_frame paths keys (os w) (os w').

(** A file that exists and can be neither written nor removed. *)
Definition blocked (p : string) (e : Env) : Prop :=
  is_Some (files e !! p) ∧ p ∈ faulty e.

(** The world without the file [p]. *)
Definition without (p : string) (w : World) : World :=
  mkWorld (self w) (set_files (delete p (files (os w))) (os w)).

(** A property of the manager's fields that holds after a run whenever it
    held before. *)
Definition keeps (P : StateManager → Prop) (w w' : World) : Prop :=
  P (self w) → P (self w').

End Closed.

End StateManager.

(** ** sender.py: what a report response means for the lifecycle *)

Module Sender.
Import Json Py Os StateManager.

(** Whether [send_immediate] / [send] call the deletion callback for a
    response with HTTP status [status_code] and JSON body [body] ([None]: the
    body is not JSON).  A body that is not a dictionary raises in both
    methods before any callback. *)
Definition deletion_signal (status_code : Z) (body : option json) : bool :=
  if (200 <=? status_code) && (status_code <? 300) then
    match body with
    | Some (JObj response_data) =>
        opt_eq_str (dict_get "status" response_data) "deleted"
    | _ => false
    end
  else if status_code =? 403 then
    match body with
    | Some (JObj error_data) =>
        opt_eq_str (dict_get "error_code" error_data) "DEVICE_DELETED"
    | _ => false
    end
  else false.

(** The lifecycle effect of a report response on a [Sender] built with
    [deletion_callback].  The configuration updates of an accepted response
    are not part of this model. *)
Definition on_report_response (deletion_callback : M World unit)
    (status_code : Z) (body : option json) : M World unit :=
  if deletion_signal status_code body then deletion_callback else ret tt.
End Sender.

(** ** The part of Python's [datetime] the client relies on *)

Module Datetime.

(** A wall-clock reading: the proleptic Gregorian ordinal of the date
    ([date.toordinal()], day 1 is Monday 0001-01-01) and the time of day. *)
Record naive : Type := mkNaive {
  ordinal : Z;
  hour : Z;
  minute : Z;
  second : Z;
  microsecond : Z
}.

(** A [datetime] object: without time zone, or with a UTC offset in
    seconds. *)
Inductive datetime : Type :=
| Naive (t : naive)
| Aware (t : naive) (utcoffset : Z).

Definition micros (t : naive) : Z :=
  (ordinal t * 86400 + hour t * 3600 + minute t * 60 + second t) * 1000000
  + microsecond t.

(** [a < b].  Two naive values compare by wall-clock reading, two aware
    values by instant; mixing them is a [TypeError] ([None]). *)
Definition lt (a b : datetime) : option bool :=
  match a, b with
  | Naive x, Naive y => Some (micros x <? micros y)
  | Aware x ox, Aware y oy =>
      Some (micros x - ox * 1000000 <? micros y - oy * 1000000)
  | _, _ => None
  end.

(** [a - b] in microseconds, defined like the comparison. *)
Definition sub (a b : datetime) : option Z :=
  match a, b with
  | Naive x, Naive y => Some (micros x - micros y)
  | Aware x ox, Aware y oy =>
      Some ((micros x - ox * 1000000) - (micros y - oy * 1000000))
  | _, _ => None
  end.

(** [t.weekday()]: Monday is 0, Sunday is 6. *)
Definition weekday (t : naive) : Z := (ordinal t + 6) mod 7.

Definition digit (d : Z) : ascii := ascii_of_N (48 + Z.to_N d).

(** [str(n)] for a single-digit number. *)
Definition str_digit (d : Z) : string := String (digit d) "".

(** Two decimal digits with a leading zero, as [%H] and [%M] print them. *)
Definition two_digits (n : Z) : string :=
  String (digit (n / 10)) (String (digit (n mod 10)) "").

(** [t.strftime('%H:%M')] *)
Definition strftime_HM (t : naive) : string :=
  two_digits (hour t) +:+ ":" +:+ two_digits (minute t).

(** What the two clock calls of the client return at one instant:
    [datetime.now()] and [datetime.now(timezone.utc)]. *)
Record Clock : Type := mkClock {
  local_now : naive;
  utc_now : naive
}.

Definition now (c : Clock) : datetime := Naive (local_now c).
Definition now_utc (c : Clock) : datetime := Aware (utc_now c) 0.

End Datetime.

(** ** config.py *)

Module Config.
Import Json.

Section Defaults.

(** [BASE_URL], read from the environment variable [SERVER_URL]. *)
Variable BASE_URL : string.

(** [DEFAULT_CONFIG].  No statement of the client rebinds one of its
    top-level keys. *)
Definition DEFAULT_monitor_items : json :=
  JObj [("cpu", JObj [("enabled", JBool true); ("collect_temp", JBool true);
                      ("collect_power", JBool true)]);
        ("memory", JObj [("enabled", JBool true)]);
        ("disk", JObj [("enabled", JBool true); ("paths", JArr [])]);
        ("gpu", JObj [("enabled", JBool true); ("collect_temp", JBool true);
                      ("collect_power", JBool true)])].

Definition DEFAULT_monitor_config : json :=
  JObj [("mode", JStr "CONTINUOUS"); ("schedule", JObj []);
        ("countdown", JObj [])].

Definition DEFAULT_CONFIG : gmap string json :=
  <["status" := JStr "accepted"]> (
  <["server_id" := JNull]> (
  <["is_active" := JBool true]> (
  <["report_interval" := JNum 30]> (
  <["monitor_items" := DEFAULT_monitor_items]> (
  <["monitor_config" := DEFAULT_monitor_config]> (
  <["report_url" := JStr (BASE_URL +:+ "/api/agent/report")]> ∅)))))).

End Defaults.

(** [RUNTIME_CONFIG.get("is_active", DEFAULT_CONFIG["is_active"])] *)
Definition is_server_active (RUNTIME_CONFIG : gmap string json) : json :=
  default (JBool true) (RUNTIME_CONFIG !! "is_active").

(** The loop of [is_monitoring_enabled] over [monitor_items.values()]. *)
Definition any_enabled (items : list (string * json)) : bool :=
  existsb (fun kv => match snd kv with
                     | JObj item_config =>
                         truthy (default (JBool false)
                                         (dict_get "enabled" item_config))
                     | _ => false
                     end) items.

(** [is_monitoring_enabled()]: a value of [monitor_items] that is not a
    dictionary has no [values()], and the handler answers [True]. *)
Definition is_monitoring_enabled (RUNTIME_CONFIG : gmap string json) : bool :=
  match default DEFAULT_monitor_items (RUNTIME_CONFIG !! "monitor_items") with
  | JObj items => any_enabled items
  | _ => true
  end.

End Config.

(** ** monitor_config.py: the monitoring-window evaluator *)

Module MonitorConfig.
Import Json Datetime.

(** The fields of a [MonitorConfig] object, as taken from the server's
    JSON. *)
Record MonitorConfig : Type := mkMonitorConfig {
  mode : json;
  schedule : json;
  countdown : json
}.

(** [__init__] and [update_config]: the three fields are replaced wholesale
    from [config_data]. *)
Definition update_config (config_data : list (string * json)) : MonitorConfig :=
  {| mode := default (JStr "CONTINUOUS") (dict_get "mode" config_data);
     schedule := default (JObj []) (dict_get "schedule" config_data);
     countdown := default (JObj []) (dict_get "countdown" config_data) |}.

(** [s.endswith('Z')] *)
Fixpoint endswith_Z (s : string) : bool :=
  match s with
  | EmptyString => false
  | String c EmptyString => Ascii.eqb c "Z"
  | String _ s' => endswith_Z s'
  end.

(** [s.replace('Z', '+00:00')] *)
Fixpoint replace_Z (s : string) : string :=
  match s with
  | EmptyString => EmptyString
  | String c s' =>
      if Ascii.eqb c "Z" then "+00:00" +:+ replace_Z s'
      else String c (replace_Z s')
  end.

(** [_check_scheduled_time] at wall-clock reading [t].  [None] stands for an
    exception leaving the method. *)
Definition _check_scheduled_time (self : MonitorConfig) (t : naive)
  : option bool :=
  if negb (truthy (schedule self)) then Some true
  else
    match schedule self with
    | JObj sched =>
        let current_weekday := str_digit (weekday t + 1) in
        let current_time := strftime_HM t in
        let days := default (JArr []) (dict_get "days" sched) in
        let go_on :=
          let start_time := dict_get "start_time" sched in
          let end_time := dict_get "end_time" sched in
          if truthy_opt start_time && truthy_opt end_time then
            match le_str_r (default JNull start_time) current_time with
            | None => None
            | Some false => Some false
            | Some true =>
                match le_str_l current_time (default JNull end_time) with
                | None => None
                | Some b => Some b
                end
            end
          else Some true in
        if truthy days then
          match contains_str days current_weekday with
          | None => None
          | Some false => Some false
          | Some true => go_on
          end
        else go_on
    | _ => None
    end.

Section Countdown.

(** [datetime.fromisoformat]; [None] is its [ValueError]. *)
Variable fromisoformat : string → option datetime.

(** The [try] block of [_check_countdown_time]: parse the end time and
    compare it with the matching clock.  [None] is any exception in it. *)
Definition countdown_try (end_time_str : json) (c : Clock) : option bool :=
  match end_time_str with
  | JStr s =>
      if endswith_Z s then
        match fromisoformat (replace_Z s) with
        | Some end_time => lt (now_utc c) end_time
        | None => None
        end
      else
        match fromisoformat s with
        | Some end_time => lt (now c) end_time
        | None => None
        end
  | _ => None
  end.

(** [_check_countdown_time]; only the [get] on a countdown that is not a
    dictionary can raise out of it. *)
Definition _check_countdown_time (self : MonitorConfig) (c : Clock)
  : option bool :=
  if negb (truthy (countdown self)) then Some false
  else
    match countdown self with
    | JObj cd =>
        let end_time_str := dict_get "end_time" cd in
        if negb (truthy_opt end_time_str) then Some false
        else Some (default false (countdown_try (default JNull end_time_str) c))
    | _ => None
    end.

(** [is_monitoring_time]: any exception of the two checks means
    "monitor". *)
Definition is_monitoring_time (self : MonitorConfig) (c : Clock) : bool :=
  if eq_str (mode self) "CONTINUOUS" then true
  else if eq_str (mode self) "SCHEDULED" then
    default true (_check_scheduled_time self (local_now c))
  else if eq_str (mode self) "COUNTDOWN" then
    default true (_check_countdown_time self c)
  else true.

End Countdown.

(** A [MonitorConfig] object: its three fields and the moment of its last
    update. *)
Record MonitorConfigObject : Type := mkMonitorConfigObject {
  fields : MonitorConfig;
  last_update : naive
}.

Section StatusInfo.

Variable fromisoformat : string → option datetime.
(** [t.isoformat()] for a naive reading. *)
Variable isoformat : naive → string.
(** [int(d.total_seconds())] for a difference [d] of so many
    microseconds. *)
Variable whole_seconds : Z → Z.

(** The [try] block of [get_status_info]: the seconds left to the end time;
    any exception in it gives 0. *)
Definition remaining_seconds (end_time_str : json) (c : Clock) : Z :=
  match end_time_str with
  | JStr s =>
      let parsed :=
        if endswith_Z s then (fromisoformat (replace_Z s), now_utc c)
        else (fromisoformat s, now c) in
      match parsed with
      | (Some end_time, current_time) =>
          match lt current_time end_time with
          | Some true =>
              match sub end_time current_time with
              | Some remaining => whole_seconds remaining
              | None => 0
              end
          | _ => 0
          end
      | (None, _) => 0
      end
  | _ => 0
  end.

(** [get_status_info]; [c_check] is the clock as [is_monitoring_time] reads
    it, [c] the clock as the method reads it afterwards.  [None] is the
    [AttributeError] of a schedule or countdown without [copy] or [get]. *)
Definition get_status_info (self : MonitorConfigObject) (c_check c : Clock)
  : option (list (string * json)) :=
  let cfg := fields self in
  let info :=
    [("mode", mode cfg);
     ("is_monitoring_time", JBool (is_monitoring_time fromisoformat cfg c_check));
     ("last_update", JStr (isoformat (last_update self)))] in
  if eq_str (mode cfg) "SCHEDULED" then
    match copy (schedule cfg) with
    | None => None
    | Some schedule_copy =>
        let info := info ++ [("schedule", schedule_copy)] in
        if truthy (schedule cfg) then
          Some (info ++
                [("current_weekday",
                  JStr (str_digit (weekday (local_now c) + 1)));
                 ("current_time", JStr (strftime_HM (local_now c)))])
        else Some info
    end
  else if eq_str (mode cfg) "COUNTDOWN" then
    match copy (countdown cfg) with
    | None => None
    | Some countdown_copy =>
        let info := info ++ [("countdown", countdown_copy)] in
        match countdown cfg with
        | JObj cd =>
            let end_time_str := dict_get "end_time" cd in
            if truthy_opt end_time_str then
              Some (info ++
                    [("remaining_seconds",
                      JNum (remaining_seconds (default JNull end_time_str) c))])
            else Some info
        | _ => None
        end
    end
  else Some info.

End StatusInfo.

(** *** The window as the specification words it *)

(** A time of day, hours and minutes. *)
Definition time_of_day : Type := Z * Z.

Definition valid_time (a : time_of_day) : Prop :=
  0 ≤ fst a < 24 ∧ 0 ≤ snd a < 60.

Definition minutes (a : time_of_day) : Z := fst a * 60 + snd a.

Definition hhmm (a : time_of_day) : string :=
  two_digits (fst a) +:+ ":" +:+ two_digits (snd a).

(** A schedule dictionary [sched] that carries the weekday codes [days]
    (none when the key is absent) and the range [range] (unset when either
    end is missing or empty). *)
Definition schedule_of (sched : list (string * json)) (days : list string)
    (range : option (time_of_day * time_of_day)) : Prop :=
  ((dict_get "days" sched = None ∧ days = []) ∨
   dict_get "days" sched = Some (JArr (map JStr days))) ∧
  match range with
  | Some (a, b) =>
      valid_time a ∧ valid_time b ∧
      dict_get "start_time" sched = Some (JStr (hhmm a)) ∧
      dict_get "end_time" sched = Some (JStr (hhmm b))
  | None =>
      truthy_opt (dict_get "start_time" sched)
      && truthy_opt (dict_get "end_time" sched) = false
  end.

(** "Today's weekday code is in [days], or [days] is empty, and the current
    local time lies within the range, or the range is unset." *)
Definition in_schedule (days : list string)
    (range : option (time_of_day * time_of_day)) (t : naive) : Prop :=
  (days = [] ∨ str_digit (weekday t + 1) ∈ days) ∧
  match range with
  | Some (a, b) => minutes a ≤ minutes (hour t, minute t) ≤ minutes b
  | None => True
  end.

(** "The current time is strictly before the end time." *)
Definition strictly_before (a b : datetime) : Prop := lt a b = Some true.

(** The text handed to the parser for an end time [s]: a UTC-tagged time
    (trailing [Z]) is rewritten to an explicit zero offset. *)
Definition normalized (s : string) : string :=
  if endswith_Z s then replace_Z s else s.

(** The current time an end time [s] is compared with: the UTC clock for a
    UTC-tagged time, the local clock otherwise. *)
Definition clock_for (s : string) (c : Clock) : datetime :=
  if endswith_Z s then now_utc c else now c.

(** Scenario E: Monday to Friday, 09:00 to 18:00. *)
Definition office_hours : MonitorConfig :=
  {| mode := JStr "SCHEDULED";
     schedule := JObj [("days", JArr [JStr "1"; JStr "2"; JStr "3"; JStr "4";
                                      JStr "5"]);
                       ("start_time", JStr "09:00");
                       ("end_time", JStr "18:00")];
     countdown := JObj [] |}.

(** Saturday 2000-01-01 and Tuesday 2000-01-04, both at 10:00 local time
    (UTC+8 for definiteness). *)
Definition saturday_10 : Clock :=
  {| local_now := mkNaive 730120 10 0 0 0; utc_now := mkNaive 730120 2 0 0 0 |}.
Definition tuesday_10 : Clock :=
  {| local_now := mkNaive 730123 10 0 0 0; utc_now := mkNaive 730123 2 0 0 0 |}.

End MonitorConfig.

(** ** heartbeat.py *)

Module Heartbeat.
Import Json Datetime.

Definition REASON_SERVER_INACTIVE : string := "服务器已禁用监控".
Definition REASON_NOTHING_ENABLED : string := "所有监控项均已禁用".
Definition REASON_OUTSIDE_WINDOW : string := "当前时间不在监控范围内".

Section ShouldSend.
Variable fromisoformat : string → option datetime.

(** [HeartbeatManager.should_send_heartbeat], reading the global
    [RUNTIME_CONFIG], the manager's [monitor_config] and the clock. *)
Definition should_send_heartbeat (RUNTIME_CONFIG : gmap string json)
    (monitor_config : MonitorConfig.MonitorConfig) (c : Clock)
  : bool * string :=
  if negb (truthy (Config.is_server_active RUNTIME_CONFIG)) then
    (true, REASON_SERVER_INACTIVE)
  else if negb (Config.is_monitoring_enabled RUNTIME_CONFIG) then
    (true, REASON_NOTHING_ENABLED)
  else if negb (MonitorConfig.is_monitoring_time fromisoformat monitor_config c) then
    (true, REASON_OUTSIDE_WINDOW)
  else (false, "").

End ShouldSend.

(** [should_force_heartbeat(last_activity_time, max_silence_duration)] at
    time [now]. *)
Definition should_force_heartbeat (now last_activity_time : Z)
    (max_silence_duration : Z) : bool :=
  max_silence_duration <=? now - last_activity_time.

(** The fields of a [HeartbeatManager] that change. *)
Record HeartbeatManager : Type := mkHeartbeatManager {
  last_heartbeat_time : Z;
  heartbeat_count : Z
}.

(** What the sender can reach: the [MonitorConfig] object it updates, and
    the state manager and environment behind its deletion callback. *)
Record Reach : Type := mkReach {
  monitor_config : MonitorConfig.MonitorConfigObject;
  world : StateManager.World
}.

(** The heartbeat manager next to what its collaborators can reach. *)
Record Process : Type := mkProcess {
  manager : HeartbeatManager;
  reach : Reach
}.

Section Manager.
Import Py.

Variable fromisoformat : string → option datetime.
Variable isoformat : naive → string.
Variable whole_seconds : Z → Z.
(** [socket.gethostname()] *)
Variable hostname : string.
(** [self.sender.send_immediate], with everything it may do to the
    configuration, the state manager and the files. *)
Variable send_immediate : json → M Reach bool.

Definition on_manager (f : HeartbeatManager → HeartbeatManager)
  : M Process unit :=
  modify (fun p => mkProcess (f (manager p)) (reach p)).

Definition on_reach {A} (m : M Reach A) : M Process A :=
  zoom reach (fun r p => mkProcess (manager p) r) m.

Definition on_env {A} (m : M Os.Env A) : M Process A :=
  on_reach (zoom world (fun w r => mkReach (monitor_config r) w)
                 (StateManager.on_os m)).

(** [create_heartbeat_data(reason)]; the two clock readings are those of
    [get_status_info]. *)
Definition create_heartbeat_data (reason : string) (c_check c : Clock)
  : M Process (list (string * json)) :=
  on_manager (fun m => mkHeartbeatManager (last_heartbeat_time m)
                                          (heartbeat_count m + 1)) >>
  let! timestamp := on_env Os.time in
  let! client_id := on_env Identity.get_client_id in
  let! sequence := gets (fun p => heartbeat_count (manager p)) in
  let! status_object := gets (fun p => monitor_config (reach p)) in
  match MonitorConfig.get_status_info fromisoformat isoformat whole_seconds
          status_object c_check c with
  | None => raise AttributeError
  | Some monitor_status =>
      let! RUNTIME_CONFIG := on_env (gets Os.RUNTIME_CONFIG) in
      let! last := gets (fun p => last_heartbeat_time (manager p)) in
      ret [("timestamp", JNum timestamp);
           ("client_id", JStr client_id);
           ("hostname", JStr hostname);
           ("heartbeat", JBool true);
           ("heartbeat_sequence", JNum sequence);
           ("reason", JStr reason);
           ("monitor_status", JObj monitor_status);
           ("server_active", Config.is_server_active RUNTIME_CONFIG);
           ("monitoring_enabled",
            JBool (Config.is_monitoring_enabled RUNTIME_CONFIG));
           ("last_heartbeat_time", JNum last)]
  end.

(** [send_heartbeat(reason)] *)
Definition send_heartbeat (reason : string) (c_check c : Clock)
  : M Process bool :=
  try_except
    (let! heartbeat_data := create_heartbeat_data reason c_check c in
     let! success := on_reach (send_immediate (JObj heartbeat_data)) in
     if success then
       let! now := on_env Os.time in
       on_manager (fun m => mkHeartbeatManager now (heartbeat_count m)) >>
       ret true
     else ret false)
    (fun _ => ret false).

(** [get_heartbeat_stats] *)
Definition get_heartbeat_stats : M Process (list (string * json)) :=
  let! total := gets (fun p => heartbeat_count (manager p)) in
  let! last := gets (fun p => last_heartbeat_time (manager p)) in
  let! current_time := on_env Os.time in
  let! again := on_env Os.time in
  ret [("total_heartbeats", JNum total);
       ("last_heartbeat_time", JNum last);
       ("current_time", JNum current_time);
       ("time_since_last_heartbeat",
        JNum (if 0 <? last then again - last else 0))].

End Manager.

(** [create_minimal_heartbeat(reason)] *)
Definition create_minimal_heartbeat (hostname reason : string)
  : Py.M Os.Env (list (string * json)) :=
  let! timestamp := Os.time in
  let! client_id := Identity.get_client_id in
  Py.ret [("timestamp", JNum timestamp);
          ("client_id", JStr client_id);
          ("hostname", JStr hostname);
          ("heartbeat", JBool true);
          ("reason", JStr reason);
          ("minimal", JBool true)].

End Heartbeat.

(** ** main.py: registration *)

Module Main.
Import Json Py Os StateManager.

(** What one [requests.post] to the register endpoint does: raise a
    [RequestException], or deliver a status code and a body ([None]: the body
    is not JSON). *)
Inductive http_result : Type :=
| ConnError
| Response (status_code : Z) (body : option json).

(** One pass of the retry loop as the outside world decides it: the result
    of the request, and whether Ctrl-C arrives during the wait that follows
    a request that has to be retried. *)
Record attempt : Type := mkAttempt {
  result : http_result;
  interrupted : bool
}.

(** How the body of the loop leaves the [try]: by [return], or by falling
    through to the retry logic. *)
Inductive flow : Type :=
| Return (config : option (list (string * json)))
| Fallthrough.

(** What [register_client] has done when the modelled requests are used up:
    returned, or still waiting in its loop. *)
Inductive register_outcome : Type :=
| Returned (config : option (list (string * json)))
| Retrying.

Definition required_fields : list string :=
  ["server_id"; "auth_token"; "report_url"; "report_interval";
   "monitor_items"; "is_active"].

Definition required_monitors : list string := ["cpu"; "memory"; "disk"; "gpu"].

(** [[m for m in required if m not in c]]; [None] is the [TypeError] of a
    [c] that is not a container. *)
Fixpoint missing_in (c : json) (required : list string)
  : option (list string) :=
  match required with
  | [] => Some []
  | m :: required' =>
      match contains_str c m, missing_in c required' with
      | Some true, Some l => Some l
      | Some false, Some l => Some (m :: l)
      | _, _ => None
      end
  end.

Definition deleted_reply : list (string * json) :=
  [("status", JStr "deleted"); ("action", JStr "reinitialize")].

Section Register.

Variable dumps : json → string.
Variable loads : string → option json.

(** [on_device_deleted], the deletion callback [main] hands to the
    [Sender]. *)
Definition on_device_deleted : M World unit :=
  handle_device_deleted_response dumps loads.

(** The branch [resp.status_code == 200]. *)
Definition on_200 (my_token : string) (body : option json) : M World flow :=
  match body with
  | None => ret (Return None)
  | Some (JObj config) =>
      let status := dict_get "status" config in
      if opt_eq_str status "pending" then ret Fallthrough
      else if opt_eq_str status "rejected" then
        let reason := default (JStr "未知原因") (dict_get "message" config) in
        ret (Return (Some [("status", JStr "rejected"); ("message", reason)]))
      else if opt_eq_str status "deleted" then
        handle_device_deleted_response dumps loads >>
        ret (Return (Some deleted_reply))
      else if opt_eq_str status "accepted" then
        let server_token := dict_get "auth_token" config in
        if negb (truthy_opt server_token) then ret (Return None)
        else if negb (opt_eq_str server_token my_token) then ret (Return None)
        else
          match missing_in (JObj config) required_fields with
          | Some [] =>
              let monitor_items :=
                default (JObj []) (dict_get "monitor_items" config) in
              match missing_in monitor_items required_monitors with
              | None => raise TypeError
              | Some (_ :: _) => ret (Return None)
              | Some [] =>
                  let item k := default JNull (dict_get k config) in
                  let full_config :=
                    [("status", JStr "accepted");
                     ("server_id", item "server_id");
                     ("report_url", item "report_url");
                     ("report_interval", item "report_interval");
                     ("monitor_items", item "monitor_items");
                     ("is_active", item "is_active");
                     ("auth_token", default JNull server_token);
                     ("message",
                      default (JStr "注册成功") (dict_get "message" config))] in
                  ret (Return (Some full_config))
              end
          | _ => ret (Return None)
          end
      else ret (Return None)
  | Some _ => ret (Return None)
  end.

(** The branch [resp.status_code == 403].  Its handler names
    [json.JSONDecodeError] although [main.py] never imports [json], so any
    exception inside the [try] ends in a [NameError]. *)
Definition on_403 (body : option json) : M World flow :=
  match body with
  | Some (JObj error_data) =>
      if opt_eq_str (dict_get "error_code" error_data) "DEVICE_DELETED" then
        handle_device_deleted_response dumps loads >>
        ret (Return (Some deleted_reply))
      else ret (Return None)
  | _ => raise NameError
  end.

(** The body of the [try] in the loop of [register_client] for one
    request. *)
Definition on_response (my_token : string) (r : http_result) : M World flow :=
  match r with
  | ConnError => ret Fallthrough
  | Response status_code body =>
      if status_code =? 200 then on_200 my_token body
      else if status_code =? 403 then on_403 body
      else ret (Return None)
  end.

(** The [while True] loop of [register_client], one iteration per modelled
    request; [attempt_no] is the counter before the iteration. *)
Fixpoint register_loop (max_retries retry_interval : Z) (my_token : string)
    (attempt_no : Z) (requests : list attempt) : M World register_outcome :=
  match requests with
  | [] => ret Retrying
  | a :: requests' =>
      let attempt_no := attempt_no + 1 in
      let! fl := on_response my_token (result a) in
      match fl with
      | Return config => ret (Returned config)
      | Fallthrough =>
          if (0 <? max_retries) && (max_retries <=? attempt_no) then
            ret (Returned None)
          else if interrupted a then ret (Returned None)
          else
            on_os (sleep retry_interval) >>
            register_loop max_retries retry_interval my_token attempt_no
                          requests'
      end
  end.

(** [register_client(max_retries, retry_interval, state_manager)].  The
    host name and operating-system description only go into the payload. *)
Definition register_client (max_retries retry_interval : Z)
    (requests : list attempt) : M World register_outcome :=
  let! client_id := on_os Identity.get_client_id in
  let! my_token := on_os Identity.get_auth_token in
  register_loop max_retries retry_interval my_token 0 requests.

(** How one pass through the registration part of [main]'s loop ends. *)
Inductive step : Type :=
| Continue
| Accepted (config : list (string * json))
| InRegisterClient
| Skipped.

(** [main], from [if state_manager.get_state() != ClientState.REGISTERED]
    to [state_manager.set_state(ClientState.REGISTERED)]; the waits of
    [main] itself are not interrupted. *)
Definition registration_attempt (requests : list attempt) : M World step :=
  let! st := get_state in
  if bool_decide (st ≠ REGISTERED) then
    let! r := register_client 0 30 requests in
    match r with
    | Retrying => ret InRegisterClient
    | Returned None | Returned (Some []) =>
        set_state dumps ERROR >>
        on_os (sleep TimingConfig.REGISTER_FAILED_RETRY_INTERVAL) >>
        ret Continue
    | Returned (Some config) =>
        let status := dict_get "status" config in
        if opt_eq_str status "pending" then ret Continue
        else if opt_eq_str status "rejected" then
          on_os (sleep TimingConfig.REGISTER_REJECTED_RETRY_INTERVAL) >>
          ret Continue
        else if opt_eq_str status "deleted" then ret Continue
        else if opt_eq_str status "accepted" then
          set_state dumps REGISTERED >>
          ret (Accepted config)
        else ret Continue
    end
  else ret Skipped.

End Register.

Section Loop.

Variable dumps : json → string.
Variable loads : string → option json.

(** How a pass of [main]'s outer loop goes on after its first lines. *)
Inductive head : Type :=
| Waited
| SleepRetry
| Register.

(** [main], from [while True:] to the test of
    [should_enter_sleep_retry_mode]: the error-state check with its 5 second
    wait, the switch to [REGISTERING], and the entry into the sleep-retry
    mode.  The diagnostics of [get_error_info] only go to the log. *)
Definition loop_head : M World head :=
  let! stop := should_stop_registration dumps loads in
  if stop then
    let! current_state := get_state in
    (if bool_decide (current_state = ERROR) then
       let! error_info := get_error_info in ret tt
     else ret tt) >>
    on_os (sleep TimingConfig.ERROR_STATE_RETRY_INTERVAL) >>
    ret Waited
  else
    set_state dumps REGISTERING >>
    let! sleepy := should_enter_sleep_retry_mode in
    if sleepy then
      enter_sleep_retry_mode dumps >>
      ret SleepRetry
    else ret Register.

(** The calls the client makes on its state manager, and the waits between
    them. *)
Inductive call : Type :=
| Call_set_state (new_state : ClientState)
| Call_handle_device_deleted_response
| Call_reinitialize_device
| Call_should_stop_registration
| Call_should_stop_reporting
| Call_force_reset_error_state
| Call_handle_register_response (response_data : list (string * json))
| Call_enter_sleep_retry_mode
| Call_create_delete_marker
| Call_remove_delete_marker
| Call_reset_client
| Call_get_error_info
| Call_register_client (max_retries retry_interval : Z)
                       (requests : list attempt)
| Call_loop_head
| Call_sleep (d : Z).

Definition discard {A} (m : M World A) : M World unit := m >> ret tt.

Definition perform (c : call) : M World unit :=
  match c with
  | Call_set_state new_state => set_state dumps new_state
  | Call_handle_device_deleted_response =>
      handle_device_deleted_response dumps loads
  | Call_reinitialize_device => reinitialize_device dumps loads
  | Call_should_stop_registration =>
      discard (should_stop_registration dumps loads)
  | Call_should_stop_reporting => discard (should_stop_reporting dumps loads)
  | Call_force_reset_error_state => force_reset_error_state dumps
  | Call_handle_register_response response_data =>
      discard (handle_register_response dumps loads response_data)
  | Call_enter_sleep_retry_mode => enter_sleep_retry_mode dumps
  | Call_create_delete_marker => create_delete_marker
  | Call_remove_delete_marker => remove_delete_marker
  | Call_reset_client => reset_client
  | Call_get_error_info => discard get_error_info
  | Call_register_client max_retries retry_interval requests =>
      discard (register_client dumps loads max_retries retry_interval requests)
  | Call_loop_head => discard loop_head
  | Call_sleep d => on_os (sleep d)
  end.

(** The world after a sequence of calls, each one started where the
    previous one ended, normally or not. *)
Definition run (calls : list call) (w : World) : World :=
  foldl (fun w c => exec (perform c) w) w calls.

End Loop.

(** *** The registration outcome as the specification words it *)

(** "The register response status is accepted and the server-returned
    credential equals the locally derived credential", with every required
    field and monitor item present. *)
Definition accepted_with (my_token : string) (r : http_result) : Prop :=
  ∃ config,
    r = Response 200 (Some (JObj config)) ∧
    dict_get "status" config = Some (JStr "accepted") ∧
    dict_get "auth_token" config = Some (JStr my_token) ∧
    (∀ f, f ∈ required_fields → is_Some (dict_get f config)) ∧
    ∀ items, dict_get "monitor_items" config = Some items →
             ∀ m, m ∈ required_monitors → contains_str items m = Some true.

(** What a dictionary returned by [register_client] can be, for a client
    whose credential is [tok]: a rejection, a deletion with its change of
    state, or an acceptance that carries the same credential. *)
Definition returned_config (tok : string) (w w' : World)
    (cfg : list (string * json)) : Prop :=
  (dict_get "status" cfg = Some (JStr "rejected") ∧ self w' = self w) ∨
  (dict_get "status" cfg = Some (JStr "deleted") ∧
   (state (self w') = REINITIALIZED ∨ state (self w') = ERROR)) ∨
  (dict_get "status" cfg = Some (JStr "accepted") ∧ self w' = self w ∧
   dict_get "auth_token" cfg = Some (JStr tok)).

(** The world after [d] seconds of waiting. *)
Definition waited (d : Z) (w : World) : World :=
  mkWorld (self w) (set_clock (clock (os w) + d) (os w)).

(** A request that [register_client] repeats after its 30 second wait: a
    transport failure or a pending answer. *)
Definition retried (a : attempt) : Prop :=
  interrupted a = false ∧
  (result a = ConnError ∨
   ∃ config, result a = Response 200 (Some (JObj config)) ∧
             dict_get "status" config = Some (JStr "pending")).

End Main.

(** ** A sample process for concrete runs *)

Module Sample.
Import Json Py Os StateManager.

(** Values for [uuid.uuid4()]. *)
Definition sample_uuids (n : nat) : string :=
  nth n ["7c9e6679-7425-40de-944b-e07fc1f90ae7";
         "16fd2706-8baf-433b-82eb-8c7fada847da"]
        "3f2504e0-4f89-41d3-9a0c-0305e82c3301".

(** An identifier on disk, a registered device, every file writable. *)
Definition sample_env : Env :=
  {| files := {[ client_id_file := "0f8fad5b-d9cb-469f-a165-70867728950e" ]};
     faulty := ∅;
     clock := 1700000000;
     uuid_source := sample_uuids;
     uuid_count := 0;
     RUNTIME_CONFIG :=
       <["auth_token" := JStr "token"]> (<["server_id" := JNum 7]>
         (Config.DEFAULT_CONFIG "http://localhost:8045"));
     SERVER_SECRET_KEY := "why_20250730_secure_key" |}.

Definition sample_world (st : ClientState) (started retries : Z) : World :=
  {| self := mkStateManager st started retries; os := sample_env |}.

(** The same process on a disk where the identifier file cannot be
    replaced. *)
Definition locked_world (st : ClientState) : World :=
  {| self := mkStateManager st 0 0;
     os := mkEnv (files sample_env) {[ client_id_file ]} (clock sample_env)
                 sample_uuids 0 (RUNTIME_CONFIG sample_env)
                 (SERVER_SECRET_KEY sample_env) |}.

(** The credential of the sample device and a complete accepted answer. *)
Definition sample_token : string :=
  Identity.generate_token "why_20250730_secure_key"
                          "0f8fad5b-d9cb-469f-a165-70867728950e".

Definition sample_accept : Main.http_result :=
  Main.Response 200 (Some (JObj
    [("status", JStr "accepted"); ("server_id", JNum 7);
     ("auth_token", JStr sample_token);
     ("report_url", JStr "http://localhost:8045/api/agent/report");
     ("report_interval", JNum 45);
     ("monitor_items", Config.DEFAULT_monitor_items);
     ("is_active", JBool true)])).

(** The same answer with an empty [monitor_items], and one transport
    failure followed by an undisturbed wait. *)
Definition sample_accept_no_monitors : Main.http_result :=
  Main.Response 200 (Some (JObj
    [("status", JStr "accepted"); ("server_id", JNum 7);
     ("auth_token", JStr sample_token);
     ("report_url", JStr "http://localhost:8045/api/agent/report");
     ("report_interval", JNum 45);
     ("monitor_items", JObj []);
     ("is_active", JBool true)])).

Definition transport_failure : Main.attempt :=
  Main.mkAttempt Main.ConnError false.

(** The sample process with [SERVER_SECRET_KEY] unset, and the accepted
    answer of a service whose secret is unset as well. *)
Definition unset_secret_world : World :=
  {| self := mkStateManager REGISTERING 0 0;
     os := mkEnv (files sample_env) ∅ (clock sample_env) sample_uuids 0
                 (RUNTIME_CONFIG sample_env) "" |}.

Definition unset_secret_accept : Main.http_result :=
  Main.Response 200 (Some (JObj
    [("status", JStr "accepted"); ("server_id", JNum 7);
     ("auth_token",
      JStr (Identity.generate_token "" "0f8fad5b-d9cb-469f-a165-70867728950e"));
     ("report_url", JStr "http://localhost:8045/api/agent/report");
     ("report_interval", JNum 45);
     ("monitor_items", Config.DEFAULT_monitor_items);
     ("is_active", JBool true)])).

(** Any codec serves for the runs below; this one prints every document as
    the empty object and reads every file as the empty object. *)
Definition sample_dumps (j : json) : string := "{}".
Definition sample_loads (s : string) : option json := Some (JObj []).

(** A codec that keeps the first entry of a record when it is a string: it
    prints the record as that string alone and reads a text back as a record
    whose [state] is that text. *)
Definition state_dumps (j : json) : string :=
  match j with
  | JObj ((_, JStr s) :: _) => s
  | _ => ""
  end.
Definition state_loads (s : string) : option json :=
  Some (JObj [("state", JStr s)]).

(** A queue of three records, none delivered yet. *)
Definition sample_queue : Cache.Db :=
  {| Cache.rows := [Cache.mkRow 1 100 "a" 0; Cache.mkRow 2 101 "b" 0;
                    Cache.mkRow 3 102 "c" 0];
     Cache.seq := 3 |}.

(** An overnight schedule, 22:00 to 06:00 on every day. *)
Definition overnight : list (string * json) :=
  [("start_time", JStr "22:00"); ("end_time", JStr "06:00")].

End Sample.

(* ===================================================================== *)
(** * Part II: lemmas and theorems                                       *)
(* ===================================================================== *)

(** ** Sleep-retry schedule *)

Section SleepRetry.
Import TimingConfig.

Lemma sleep_retry_default : subscript (inr "default") = Some 300.
Proof. reflexivity. Qed.

Lemma sleep_retry_other (n : Z) :
  n ≠ 0 → n ≠ 1 → n ≠ 2 → SLEEP_RETRY_INTERVALS !! (inl n : Z + string) = None.
Proof.
  intros H0 H1 H2. unfold SLEEP_RETRY_INTERVALS.
  rewrite !lookup_insert_ne by congruence.
  apply lookup_empty.
Qed.

(** C6: the sleep-retry schedule is the fixed table 0, 60, 120 and then 300
    for every attempt index from 3 on; the lookup never fails. *)
Theorem C6_sleep_retry_schedule :
  get_sleep_retry_interval 0 = Some 0 ∧
  get_sleep_retry_interval 1 = Some 60 ∧
  get_sleep_retry_interval 2 = Some 120 ∧
  ∀ n : Z, 3 ≤ n → get_sleep_retry_interval n = Some 300.
Proof.
  repeat split; try reflexivity.
  intros n Hn. unfold get_sleep_retry_interval.
  rewrite sleep_retry_default, sleep_retry_other by lia.
  reflexivity.
Qed.

(** The tenth retry waits five minutes. *)
Lemma C6_sleep_retry_schedule_witness :
  3 ≤ 9 ∧ get_sleep_retry_interval 9 = Some 300.
Proof.
  assert (H : 3 ≤ 9) by lia.
  split; [exact H|].
  exact (proj2 (proj2 (proj2 C6_sleep_retry_schedule)) 9 H).
Defined.

End SleepRetry.

(** ** The durable queue *)

Section CacheFacts.
Import Cache.

Lemma insert_row_perm r l : insert_row r l ≡ₚ r :: l.
Proof.
  induction l as [|x l IH]; simpl; [done|].
  destruct (id r <=? id x); [done|].
  rewrite IH. apply perm_swap.
Qed.

Lemma order_by_id_perm l : order_by_id l ≡ₚ l.
Proof.
  induction l as [|x l IH]; simpl; [done|].
  rewrite insert_row_perm. by rewrite IH.
Qed.

Lemma insert_row_sorted r l :
  StronglySorted id_le l → StronglySorted id_le (insert_row r l).
Proof.
  induction 1 as [|x l Hs IH Hx]; simpl.
  - repeat constructor.
  - destruct (Z.leb_spec (id r) (id x)) as [Hle|Hgt].
    + constructor; [by constructor|].
      constructor; [done|].
      eapply Forall_impl; [exact Hx|]. unfold id_le. intros; lia.
    + constructor; [done|].
      rewrite insert_row_perm. constructor; [unfold id_le; lia | done].
Qed.

Lemma order_by_id_sorted l : StronglySorted id_le (order_by_id l).
Proof.
  induction l as [|x l IH]; simpl; [constructor|].
  by apply insert_row_sorted.
Qed.

Lemma order_by_id_of_sorted l : StronglySorted id_le l → order_by_id l = l.
Proof.
  induction 1 as [|x l Hs IH Hx]; simpl; [done|].
  rewrite IH. destruct l as [|y l']; [done|]. simpl.
  apply Forall_cons in Hx as [Hxy _]. unfold id_le in Hxy.
  destruct (Z.leb_spec (id x) (id y)); [done | lia].
Qed.

(** With pairwise distinct ids a weakly ascending list is strictly
    ascending. *)
Lemma sorted_nodup_strict l :
  StronglySorted id_le l → NoDup (map id l) → StronglySorted Z.lt (map id l).
Proof.
  induction 1 as [|x l Hs IH Hx]; simpl; intros Hnd; [constructor|].
  apply NoDup_cons in Hnd as [Hnin Hnd].
  constructor; [by apply IH|].
  apply Forall_fmap, Forall_forall. intros y Hy. simpl.
  rewrite Forall_forall in Hx. specialize (Hx y Hy). unfold id_le in Hx.
  assert (id y ≠ id x).
  { intros E. apply Hnin. rewrite <- E. by apply list_elem_of_fmap_2. }
  lia.
Qed.

Lemma StronglySorted_take {A} (R : A → A → Prop) n l :
  StronglySorted R l → StronglySorted R (take n l).
Proof.
  intros Hs. revert n. induction Hs as [|x l Hs IH Hx]; intros [|n]; simpl;
    try constructor; [apply IH|].
  eapply Forall_forall. intros y Hy. rewrite Forall_forall in Hx.
  apply Hx. eapply subseteq_take, Hy.
Qed.

Lemma sql_limit_sublist {A} n (l : list A) : sql_limit n l ⊆ l.
Proof.
  unfold sql_limit. destruct (n <? 0); [done|]. apply subseteq_take.
Qed.

Lemma sql_limit_sorted {A} (R : A → A → Prop) n l :
  StronglySorted R l → StronglySorted R (sql_limit n l).
Proof.
  unfold sql_limit. destruct (n <? 0); [done|]. apply StronglySorted_take.
Qed.

Lemma sql_limit_map {A B} (f : A → B) n l :
  sql_limit n (map f l) = map f (sql_limit n l).
Proof.
  unfold sql_limit. destruct (n <? 0); [done|]. by rewrite <- fmap_take.
Qed.

Lemma max_id_ge l r : r ∈ l → id r ≤ max_id l.
Proof.
  induction 1 as [x l|x y l Hin IH]; simpl; lia.
Qed.

Lemma next_rowid_fresh db i r :
  next_rowid db = Some i → r ∈ rows db → id r < i.
Proof.
  unfold next_rowid. intros Hn Hr.
  destruct (_ <? MAX_ROWID); [|done]. injection Hn as <-.
  pose proof (max_id_ge _ _ Hr). lia.
Qed.

Lemma select_unsent_elem limit db r :
  r ∈ select_unsent limit db → r ∈ rows db ∧ sent r = 0.
Proof.
  unfold select_unsent. intros Hr.
  apply sql_limit_sublist in Hr. rewrite order_by_id_perm in Hr.
  apply list_elem_of_filter in Hr as [Hu Hr]. split; [done|].
  unfold is_unsent in Hu. lia.
Qed.

Lemma nodup_ids_filter (P : Row → Prop) `{!∀ r, Decision (P r)} l :
  NoDup (map id l) → NoDup (map id (filter P l)).
Proof.
  induction l as [|x l IH]; simpl; [done|].
  intros [Hnin Hnd]%NoDup_cons. rewrite filter_cons.
  destruct (decide (P x)); [|by apply IH].
  simpl. apply NoDup_cons. split; [|by apply IH].
  intros (y & Hy & Hin)%list_elem_of_fmap.
  apply list_elem_of_filter in Hin as [_ Hin].
  apply Hnin. rewrite Hy. by apply list_elem_of_fmap_2.
Qed.

Lemma select_unsent_ascending limit db :
  NoDup (map id (rows db)) →
  StronglySorted Z.lt (map id (select_unsent limit db)).
Proof.
  intros Hnd. unfold select_unsent. rewrite <- sql_limit_map.
  apply sql_limit_sorted, sorted_nodup_strict; [apply order_by_id_sorted|].
  rewrite order_by_id_perm. by apply nodup_ids_filter.
Qed.

Lemma select_unsent_oldest limit db r :
  NoDup (map id (rows db)) →
  r ∈ rows db → sent r = 0 → id r ∉ map id (select_unsent limit db) →
  ∀ x, x ∈ select_unsent limit db → id x < id r.
Proof.
  intros Hnd Hr Hs Hnot x Hx.
  set (L := order_by_id (filter (λ r, is_unsent r = true) (rows db))).
  assert (HL : StronglySorted Z.lt (map id L)).
  { apply sorted_nodup_strict; [apply order_by_id_sorted|].
    unfold L. rewrite order_by_id_perm. by apply nodup_ids_filter. }
  assert (HrL : r ∈ L).
  { unfold L. rewrite order_by_id_perm. apply list_elem_of_filter.
    split; [|done]. unfold is_unsent. lia. }
  unfold select_unsent, sql_limit in *. fold L in Hnot, Hx.
  destruct (limit <? 0).
  - exfalso. apply Hnot. by apply list_elem_of_fmap_2.
  - rewrite <- (take_drop (Z.to_nat limit) L) in HL, HrL.
    rewrite fmap_app in HL.
    apply elem_of_app in HrL as [HrL|HrL].
    + exfalso. apply Hnot. by apply list_elem_of_fmap_2.
    + eapply StronglySorted_app_1_elem_of; [exact HL| |];
        by apply list_elem_of_fmap_2.
Qed.

Lemma select_unsent_length limit db :
  0 ≤ limit →
  length (select_unsent limit db)
  = Nat.min (Z.to_nat limit)
            (length (filter (λ r, is_unsent r = true) (rows db))).
Proof.
  intros Hl. unfold select_unsent, sql_limit.
  destruct (Z.ltb_spec limit 0); [lia|].
  rewrite length_take. by rewrite order_by_id_perm.
Qed.

Lemma rows_foldl_update_sent ids db :
  rows (foldl update_sent db ids)
  = map (λ r, if bool_decide (id r ∈ ids) then set_sent r else r) (rows db).
Proof.
  revert db. induction ids as [|i ids IH]; intros db; simpl.
  - induction (rows db) as [|r l IHl]; simpl; [done|]. by rewrite <- IHl.
  - rewrite IH. simpl. rewrite map_map. apply map_ext. intros r.
    destruct (Z.eqb_spec (id r) i) as [->|Hne]; simpl.
    + rewrite (bool_decide_eq_true_2 (i ∈ i :: ids)) by apply list_elem_of_here.
      by destruct (bool_decide _).
    + destruct (decide (id r ∈ ids)) as [Hin|Hnin].
      * rewrite !bool_decide_eq_true_2; [done| |done]. by apply list_elem_of_further.
      * rewrite !bool_decide_eq_false_2; [done| |done].
        intros [?|?]%elem_of_cons; done.
Qed.

Lemma rows_mark_sent ids db :
  rows (mark_sent ids db)
  = map (λ r, if bool_decide (id r ∈ ids) then set_sent r else r) (rows db).
Proof.
  destruct ids as [|i ids]; [|apply rows_foldl_update_sent].
  exact (rows_foldl_update_sent [] db).
Qed.

Lemma seq_mark_sent ids db : seq (mark_sent ids db) = seq db.
Proof.
  assert (H : ∀ d, seq (foldl update_sent d ids) = seq d).
  { induction ids as [|i ids IH]; intros d; simpl; [done|]. by rewrite IH. }
  destruct ids; [done | apply H].
Qed.

Lemma max_id_nonneg l : 0 ≤ max_id l.
Proof. induction l; simpl; lia. Qed.

Lemma max_id_snoc l r : max_id (l ++ [r]) = Z.max (max_id l) (id r).
Proof.
  induction l as [|x l IH]; simpl; [lia|]. rewrite IH. lia.
Qed.

Lemma filter_all_sent (f : Row → Row) l :
  (∀ r, r ∈ l → is_unsent (f r) = false) →
  filter (λ r, is_unsent r = true) (map f l) = [].
Proof.
  induction l as [|x l IH]; intros H; simpl; [done|].
  rewrite filter_cons_False.
  - apply IH. intros r Hr. apply H. by apply list_elem_of_further.
  - rewrite H; [done | apply list_elem_of_here].
Qed.

Section CachePayload.
Context {Payload : Type} (dumps : Payload → string)
        (loads : string → option Payload).
Hypothesis loads_dumps : ∀ p, loads (dumps p) = Some p.

Lemma save_spec now d db db' :
  save dumps now d db = Some db' →
  ∃ i, rows db' = rows db ++ [mkRow i now (dumps d) 0] ∧ seq db' = i ∧
       (∀ r, r ∈ rows db → id r < i) ∧ seq db < i.
Proof.
  unfold save. destruct (next_rowid db) as [i|] eqn:Hn; [|done].
  intros [= <-]. exists i. simpl. repeat split; try done.
  - intros r. by apply next_rowid_fresh.
  - unfold next_rowid in Hn. destruct (_ <? _); [|done].
    injection Hn as <-. lia.
Qed.

Lemma save_unique_ids now d db db' :
  NoDup (map id (rows db)) → save dumps now d db = Some db' →
  NoDup (map id (rows db')).
Proof.
  intros Hnd (i & -> & _ & Hfresh & _)%save_spec.
  rewrite map_app. simpl. apply NoDup_app. repeat split; [done| |].
  - intros x (r & -> & Hr)%list_elem_of_fmap [E|E]%elem_of_cons.
    + specialize (Hfresh r Hr). lia.
    + by apply not_elem_of_nil in E.
  - apply NoDup_singleton.
Qed.

Lemma save_succeeds now d db :
  Z.max (seq db) (max_id (rows db)) < MAX_ROWID →
  save dumps now d db
  = Some {| rows := rows db ++ [mkRow (Z.max (seq db) (max_id (rows db)) + 1)
                                      now (dumps d) 0];
            seq := Z.max (seq db) (max_id (rows db)) + 1 |}.
Proof.
  intros H. unfold save, next_rowid.
  destruct (Z.ltb_spec (Z.max (seq db) (max_id (rows db))) MAX_ROWID); [done|lia].
Qed.

Lemma get_unsent_total limit db :
  (∀ r, r ∈ rows db → sent r = 0 → is_Some (loads (data r))) →
  is_Some (get_unsent loads limit db).
Proof.
  intros Hdec. unfold get_unsent.
  assert (H : ∀ l, (∀ r, r ∈ l → is_Some (loads (data r))) →
                   is_Some (mapM (decode_row loads) l)).
  { induction l as [|x l IH]; intros Hl; [by eexists|].
    destruct (Hl x) as [p Hp]; [apply list_elem_of_here|].
    destruct IH as [k Hk]; [intros; apply Hl; by apply list_elem_of_further|].
    exists (mkUnsent (id x) (timestamp x) p :: k).
    apply mapM_Some_2. constructor.
    - unfold decode_row. by rewrite Hp.
    - by apply mapM_Some_1. }
  apply H. intros r [Hr Hs]%select_unsent_elem. by apply Hdec.
Qed.

Lemma get_unsent_ids limit db res :
  get_unsent loads limit db = Some res →
  map u_id res = map id (select_unsent limit db).
Proof.
  unfold get_unsent. intros H%mapM_Some_1.
  induction H as [|r u l k Hru _ IH]; simpl; [done|]. f_equal; [|done].
  unfold decode_row in Hru. destruct (loads (data r)); [|done].
  by injection Hru as <-.
Qed.

Lemma get_unsent_elem limit db res u :
  get_unsent loads limit db = Some res → u ∈ res →
  ∃ r, r ∈ rows db ∧ sent r = 0 ∧ id r = u_id u ∧
       timestamp r = u_timestamp u ∧ loads (data r) = Some (u_data u).
Proof.
  unfold get_unsent. intros H%mapM_Some_1 Hu.
  destruct (list_elem_of_lookup_1 _ _ Hu) as [i Hi].
  destruct (Forall2_lookup_r _ _ _ _ _ H Hi) as (r & Hr & Hdec).
  apply list_elem_of_lookup_2 in Hr. apply select_unsent_elem in Hr as [Hr Hs].
  exists r. unfold decode_row in Hdec.
  destruct (loads (data r)) as [p|]; [|done]. by injection Hdec as <-.
Qed.

Lemma filter_unsent_nil l :
  (∀ r, r ∈ l → sent r ≠ 0) → filter (λ r, is_unsent r = true) l = [].
Proof.
  intros H. rewrite <- (map_id l). apply filter_all_sent.
  intros r Hr. specialize (H r Hr). unfold is_unsent. simpl. lia.
Qed.

Lemma fifo_scenario db ta tb tc a b c :
  (∀ r, r ∈ rows db → sent r ≠ 0) →
  Z.max (seq db) (max_id (rows db)) + 3 ≤ MAX_ROWID →
  let n := Z.max (seq db) (max_id (rows db)) in
  ∃ db1 db2 db3,
    save dumps ta a db = Some db1 ∧
    save dumps tb b db1 = Some db2 ∧
    save dumps tc c db2 = Some db3 ∧
    get_unsent loads 2 db3
      = Some [mkUnsent (n + 1) ta a; mkUnsent (n + 2) tb b] ∧
    get_unsent loads 10 (mark_sent [n + 1; n + 2] db3)
      = Some [mkUnsent (n + 3) tc c].
Proof.
  intros Hsent Hroom n.
  pose proof (max_id_nonneg (rows db)) as Hnn.
  set (ra := mkRow (n + 1) ta (dumps a) 0).
  set (rb := mkRow (n + 2) tb (dumps b) 0).
  set (rc := mkRow (n + 3) tc (dumps c) 0).
  set (db1 := mkDb (rows db ++ [ra]) (n + 1)).
  set (db2 := mkDb ((rows db ++ [ra]) ++ [rb]) (n + 2)).
  set (db3 := mkDb (((rows db ++ [ra]) ++ [rb]) ++ [rc]) (n + 3)).
  assert (H1 : Z.max (seq db1) (max_id (rows db1)) = n + 1).
  { simpl. rewrite max_id_snoc. simpl. fold n. lia. }
  assert (H2 : Z.max (seq db2) (max_id (rows db2)) = n + 2).
  { simpl. rewrite !max_id_snoc. simpl. fold n. lia. }
  exists db1, db2, db3. repeat split.
  - rewrite save_succeeds by (fold n; lia). done.
  - rewrite save_succeeds by (rewrite H1; lia). rewrite H1.
    replace (n + 1 + 1) with (n + 2) by lia. done.
  - rewrite save_succeeds by (rewrite H2; lia). rewrite H2.
    replace (n + 2 + 1) with (n + 3) by lia. done.
  - assert (Hf : filter (λ r, is_unsent r = true) (rows db3) = [ra; rb; rc]).
    { simpl rows. by rewrite !filter_app, (filter_unsent_nil _ Hsent). }
    unfold get_unsent, select_unsent. rewrite Hf.
    rewrite (order_by_id_of_sorted [ra; rb; rc]).
    + unfold sql_limit. simpl. unfold decode_row. simpl.
      by rewrite !loads_dumps.
    + repeat constructor; unfold id_le; simpl; lia.
  - assert (Hf : filter (λ r, is_unsent r = true)
                   (rows (mark_sent [n + 1; n + 2] db3)) = [rc]).
    { rewrite rows_mark_sent. simpl rows. rewrite !map_app, !filter_app.
      rewrite filter_all_sent.
      2:{ intros r Hr. specialize (Hsent r Hr). unfold is_unsent.
          destruct (bool_decide _); simpl; lia. }
      simpl.
      rewrite (bool_decide_eq_true_2 (n + 1 ∈ [n + 1; n + 2])) by set_solver.
      rewrite (bool_decide_eq_true_2 (n + 2 ∈ [n + 1; n + 2])) by set_solver.
      rewrite (bool_decide_eq_false_2 (n + 3 ∈ [n + 1; n + 2])).
      2:{ rewrite !elem_of_cons, elem_of_nil. lia. }
      done. }
    unfold get_unsent, select_unsent. rewrite Hf.
    unfold sql_limit. simpl. unfold decode_row. simpl.
    by rewrite loads_dumps.
Qed.

End CachePayload.

(** C4: the durable queue is FIFO by record id.  [save] appends one new
    unsent record whose id is larger than every id in the table;
    [get_unsent limit] returns, in strictly ascending id order, the [limit]
    unsent records with the smallest ids, whatever sent records the table
    also holds; [mark_sent] sets the sent flag of exactly the rows whose id
    is listed and does nothing on the empty list; and after three saves
    [get_unsent 2] gives the first two payloads in order and, once those two
    ids are marked sent, [get_unsent 10] gives exactly the third. *)
Theorem C4_queue_fifo {Payload : Type} (dumps : Payload → string)
    (loads : string → option Payload) (db : Db)
    (Hroundtrip : ∀ p, loads (dumps p) = Some p)
    (Hprimary_key : NoDup (map id (rows db))) :
  (∀ now d db', save dumps now d db = Some db' →
     ∃ i, rows db' = rows db ++ [mkRow i now (dumps d) 0] ∧
          (∀ r, r ∈ rows db → id r < i) ∧
          NoDup (map id (rows db'))) ∧
  (∀ limit,
     ((∀ r, r ∈ rows db → sent r = 0 → is_Some (loads (data r))) →
      is_Some (get_unsent loads limit db)) ∧
     ∀ res, get_unsent loads limit db = Some res →
       StronglySorted Z.lt (map u_id res) ∧
       (∀ u, u ∈ res →
          ∃ r, r ∈ rows db ∧ sent r = 0 ∧ id r = u_id u ∧
               timestamp r = u_timestamp u ∧ loads (data r) = Some (u_data u)) ∧
       (0 ≤ limit →
          length res
          = Nat.min (Z.to_nat limit)
                    (length (filter (λ r, is_unsent r = true) (rows db)))) ∧
       (∀ r, r ∈ rows db → sent r = 0 → id r ∉ map u_id res →
          ∀ u, u ∈ res → u_id u < id r) ∧
       (∀ db2, filter (λ r, is_unsent r = true) (rows db2)
               = filter (λ r, is_unsent r = true) (rows db) →
          get_unsent loads limit db2 = Some res)) ∧
  (mark_sent [] db = db ∧
   ∀ ids, seq (mark_sent ids db) = seq db ∧
          rows (mark_sent ids db)
          = map (λ r, if bool_decide (id r ∈ ids) then set_sent r else r)
                (rows db)) ∧
  (∀ ta tb tc a b c,
     (∀ r, r ∈ rows db → sent r ≠ 0) →
     Z.max (seq db) (max_id (rows db)) + 3 ≤ MAX_ROWID →
     let n := Z.max (seq db) (max_id (rows db)) in
     ∃ db1 db2 db3,
       save dumps ta a db = Some db1 ∧
       save dumps tb b db1 = Some db2 ∧
       save dumps tc c db2 = Some db3 ∧
       get_unsent loads 2 db3
         = Some [mkUnsent (n + 1) ta a; mkUnsent (n + 2) tb b] ∧
       get_unsent loads 10 (mark_sent [n + 1; n + 2] db3)
         = Some [mkUnsent (n + 3) tc c]).
Proof.
  split; [|split; [|split]].
  - intros now d db' Hsave.
    destruct (save_spec dumps now d db db' Hsave) as (i & Hrows & _ & Hfresh & _).
    exists i. repeat split; [done..|]. by eapply save_unique_ids.
  - intros limit. split; [apply get_unsent_total|].
    intros res Hres. pose proof (get_unsent_ids loads _ _ _ Hres) as Hids.
    split; [|split; [|split; [|split]]].
    + rewrite Hids. by apply select_unsent_ascending.
    + intros u Hu. by eapply get_unsent_elem.
    + intros Hl. rewrite <- select_unsent_length by done.
      rewrite <- (length_map u_id), Hids. apply length_map.
    + intros r Hr Hs Hnot u Hu. rewrite Hids in Hnot.
      assert (Hin : u_id u ∈ map id (select_unsent limit db)).
      { rewrite <- Hids. by apply list_elem_of_fmap_2. }
      apply list_elem_of_fmap in Hin as (x & -> & Hx).
      by eapply select_unsent_oldest.
    + intros db2 Heq. rewrite <- Hres. unfold get_unsent, select_unsent.
      by rewrite Heq.
  - split; [done|]. intros ids. split; [apply seq_mark_sent|apply rows_mark_sent].
  - intros ta tb tc a b c Hsent Hroom. by apply fifo_scenario.
Qed.

(** The queue of a fresh database, with strings as payloads that are their
    own JSON text. *)
Lemma C4_queue_fifo_witness :
  (∀ p : string, Some (Datatypes.id p) = Some p) ∧
  NoDup (map id (rows _ensure_db)) ∧
  ∃ db3,
    get_unsent Some 2 db3 = Some [mkUnsent 1 100 "a"; mkUnsent 2 101 "b"] ∧
    get_unsent Some 10 (mark_sent [1; 2] db3) = Some [mkUnsent 3 102 "c"].
Proof.
  split; [reflexivity|]. split; [constructor|].
  destruct (C4_queue_fifo Datatypes.id Some _ensure_db
              (λ p, eq_refl) (NoDup_nil_2 (A:=Z)))
    as (_ & _ & _ & Hscen).
  destruct (Hscen 100 101 102 "a" "b" "c") as (db1 & db2 & db3 & _ & _ & _ & H2 & H10).
  - intros r Hr. simpl in Hr. by apply elem_of_nil in Hr.
  - vm_compute. discriminate.
  - exists db3. split; [exact H2 | exact H10].
Defined.

(** C5: [prune] removes exactly the records whose timestamp is older than
    the age threshold [now - max_age_seconds], whatever their sent flag: an
    unsent record older than [max_age_seconds] is removed, and every record
    at or after the threshold is kept (in its place). *)
Theorem C5_prune_by_age (now max_age_seconds : Z) (db : Db) :
  (∀ r, r ∈ rows (prune now max_age_seconds db)
        ↔ r ∈ rows db ∧ now - max_age_seconds ≤ timestamp r) ∧
  (∀ r, r ∈ rows db → sent r = 0 → max_age_seconds < now - timestamp r →
        r ∉ rows (prune now max_age_seconds db)) ∧
  (∀ r, r ∈ rows db → now - timestamp r ≤ max_age_seconds →
        r ∈ rows (prune now max_age_seconds db)) ∧
  rows (prune now max_age_seconds db) `sublist_of` rows db ∧
  seq (prune now max_age_seconds db) = seq db.
Proof.
  assert (Hiff : ∀ r, r ∈ rows (prune now max_age_seconds db)
                      ↔ r ∈ rows db ∧ now - max_age_seconds ≤ timestamp r).
  { intros r. unfold prune. simpl. rewrite list_elem_of_filter.
    rewrite Z.ltb_ge. tauto. }
  split; [exact Hiff|]. split; [|split; [|split]].
  - intros r Hr _ Hold [_ Hkeep]%Hiff. lia.
  - intros r Hr Hnew. apply Hiff. split; [done | lia].
  - apply sublist_filter.
  - done.
Qed.

(** An unsent record older than a day, in a table pruned at 24 hours. *)
Lemma C5_prune_by_age_witness :
  let old := mkRow 1 10 "old" 0 in
  let db := {| rows := [old; mkRow 2 13600 "edge" 1; mkRow 3 99999 "new" 0];
               seq := 3 |} in
  (old ∈ rows db) ∧ (sent old = 0) ∧ (86400 < 100000 - timestamp old) ∧
  (old ∉ rows (prune 100000 86400 db)).
Proof.
  intros old db.
  assert (H1 : old ∈ rows db) by apply list_elem_of_here.
  assert (H2 : sent old = 0) by reflexivity.
  assert (H3 : 86400 < 100000 - timestamp old) by (simpl; lia).
  repeat (split; [assumption|]).
  exact (proj1 (proj2 (C5_prune_by_age 100000 86400 db)) old H1 H2 H3).
Defined.

Example prune_drops_old_unsent :
  rows (prune 100000 86400
          {| rows := [mkRow 1 10 "old" 0; mkRow 2 13600 "edge" 1;
                      mkRow 3 99999 "new" 0];
             seq := 3 |})
  = [mkRow 2 13600 "edge" 1; mkRow 3 99999 "new" 0].
Proof. reflexivity. Qed.

End CacheFacts.

(** ** The monitoring window *)

Section WindowFacts.
Import Json Datetime MonitorConfig.

Lemma compare_app s1 s2 t1 t2 :
  String.length s1 = String.length s2 →
  String.compare (s1 +:+ t1) (s2 +:+ t2)
  = match String.compare s1 s2 with
    | Eq => String.compare t1 t2
    | c => c
    end.
Proof.
  revert s2. induction s1 as [|c1 s1 IH]; intros [|c2 s2]; simpl; try done.
  intros [= Hlen]. destruct (Ascii.compare c1 c2); auto.
Qed.

(** Two-digit renderings compare like the numbers they stand for. *)
Lemma two_digits_compare n m :
  0 ≤ n < 60 → 0 ≤ m < 60 →
  String.compare (two_digits n) (two_digits m) = (n ?= m).
Proof.
  intros Hn Hm.
  set (range := map Z.of_nat (seq 0 60)).
  set (same := λ x y : comparison,
         match x, y with Eq, Eq | Lt, Lt | Gt, Gt => true | _, _ => false end).
  assert (Hall : forallb (λ a, forallb (λ b,
            same (String.compare (two_digits a) (two_digits b)) (a ?= b))
            range) range = true) by (vm_compute; reflexivity).
  assert (Hin : ∀ k, 0 ≤ k < 60 → In k range).
  { intros k Hk. unfold range. apply in_map_iff. exists (Z.to_nat k).
    split; [lia|]. apply in_seq. lia. }
  rewrite forallb_forall in Hall. specialize (Hall n (Hin n Hn)).
  rewrite forallb_forall in Hall. specialize (Hall m (Hin m Hm)).
  unfold same in Hall.
  destruct (String.compare _ _), (n ?= m); done.
Qed.

Lemma hhmm_compare a b :
  valid_time a → valid_time b →
  String.compare (hhmm a) (hhmm b) = (minutes a ?= minutes b).
Proof.
  intros [Ha1 Ha2] [Hb1 Hb2]. unfold hhmm, minutes.
  rewrite compare_app by done.
  rewrite two_digits_compare by lia.
  destruct (Z.compare_spec (fst a) (fst b)) as [E|L|G].
  - change (String.compare (":" +:+ ?x) (":" +:+ ?y)) with (String.compare x y).
    rewrite two_digits_compare by lia. rewrite E.
    destruct (Z.compare_spec (snd a) (snd b));
      symmetry; [apply Z.compare_eq_iff | apply Z.compare_lt_iff
                | apply Z.compare_gt_iff]; lia.
  - symmetry. apply Z.compare_lt_iff. lia.
  - symmetry. apply Z.compare_gt_iff. lia.
Qed.

Lemma hhmm_leb a b :
  valid_time a → valid_time b →
  String.leb (hhmm a) (hhmm b) = (minutes a <=? minutes b).
Proof.
  intros Ha Hb. unfold String.leb, Z.leb. by rewrite hhmm_compare.
Qed.

Lemma existsb_eq_str s (ds : list string) :
  existsb (λ v, eq_str v s) (map JStr ds) = true ↔ s ∈ ds.
Proof.
  rewrite existsb_exists. split.
  - intros (v & Hv & Heq). apply in_map_iff in Hv as (d & <- & Hd).
    simpl in Heq. apply String.eqb_eq in Heq as ->. by apply list_elem_of_In.
  - intros Hs. exists (JStr s). split.
    + apply in_map. by apply list_elem_of_In.
    + simpl. apply String.eqb_refl.
Qed.

Lemma hhmm_truthy a : truthy (JStr (hhmm a)) = true.
Proof. reflexivity. Qed.

Lemma scheduled_iff (self : MonitorConfig) sched days range t :
  schedule self = JObj sched →
  schedule_of sched days range →
  valid_time (hour t, minute t) →
  ∃ b, _check_scheduled_time self t = Some b ∧
       (b = true ↔ in_schedule days range t).
Proof.
  intros Hself [Hdays Hrange] Ht. unfold _check_scheduled_time.
  rewrite Hself. destruct sched as [|kv sched'].
  { simpl. exists true. split; [done|]. split; [|done]. intros _.
    simpl in Hdays. destruct Hdays as [[_ ->]|]; [|done].
    split; [by left|]. destruct range as [[a b]|]; [|done].
    simpl in Hrange. by destruct Hrange as (_ & _ & ? & _). }
  assert (Htr : truthy (JObj (kv :: sched')) = true) by done.
  remember (kv :: sched') as sched. rewrite Htr. cbn [negb].
  set (go := if truthy_opt (dict_get "start_time" sched)
                 && truthy_opt (dict_get "end_time" sched)
              then _ else Some true).
  assert (Hgo : ∃ g, go = Some g ∧
    (g = true ↔ match range with
                | Some (a, b) => minutes a ≤ minutes (hour t, minute t) ≤ minutes b
                | None => True
                end)).
  { unfold go. destruct range as [[a b]|].
    - destruct Hrange as (Ha & Hb & -> & ->). simpl.
      change (strftime_HM t) with (hhmm (hour t, minute t)).
      rewrite !hhmm_leb by done.
      destruct (Z.leb_spec (minutes a) (minutes (hour t, minute t))).
      + eexists. split; [done|]. rewrite Z.leb_le. lia.
      + exists false. split; [done|]. split; [done|lia].
    - rewrite Hrange. exists true. by split. }
  clearbody go. destruct Hgo as (g & -> & Hgiff).
  assert (Hfree : days = [] → ∃ b, Some g = Some b ∧ (b = true ↔ in_schedule days range t)).
  { intros ->. exists g. split; [done|]. rewrite Hgiff. unfold in_schedule.
    split; [intros; split; [by left|done] | by intros [_ ?]]. }
  destruct Hdays as [[Hnone ->]|Hsome].
  - rewrite Hnone. simpl. by apply Hfree.
  - rewrite Hsome. simpl default.
    destruct days as [|d ds]; [by apply Hfree|].
    change (truthy (JArr (map JStr (d :: ds)))) with true.
    unfold contains_str.
    destruct (existsb _ _) eqn:Hex.
    + apply existsb_eq_str in Hex. exists g. split; [done|].
      rewrite Hgiff. unfold in_schedule.
      split; [intros; split; [by right|done] | by intros [_ ?]].
    + exists false. split; [done|]. split; [done|].
      intros [[?|Hin] _]; [done|].
      apply existsb_eq_str in Hin. congruence.
Qed.

Section CountdownFacts.
Variable fromisoformat : string → option datetime.

Lemma truthy_JStr s : truthy (JStr s) = true ↔ s ≠ "".
Proof.
  simpl. rewrite negb_true_iff. split.
  - intros H ->. by rewrite String.eqb_refl in H.
  - intros H. by apply String.eqb_neq.
Qed.

Lemma countdown_try_iff v c :
  default false (countdown_try fromisoformat v c) = true ↔
  ∃ s e, v = JStr s ∧ fromisoformat (normalized s) = Some e ∧
         strictly_before (clock_for s c) e.
Proof.
  unfold countdown_try, normalized, clock_for, strictly_before. split.
  - destruct v as [| | |s| |]; try done.
    destruct (endswith_Z s) eqn:Hz;
      (destruct (fromisoformat _) as [e|] eqn:He; [|done]);
      intros H; exists s, e; rewrite Hz; (split; [done|]); (split; [exact He|]);
      destruct (lt _ e) as [[]|]; done.
  - intros (s & e & -> & He & Hlt).
    destruct (endswith_Z s); rewrite He, Hlt; done.
Qed.

Lemma countdown_iff (self : MonitorConfig) cd c :
  countdown self = JObj cd →
  ∃ b, _check_countdown_time fromisoformat self c = Some b ∧
       (b = true ↔
        ∃ s e, dict_get "end_time" cd = Some (JStr s) ∧ s ≠ "" ∧
               fromisoformat (normalized s) = Some e ∧
               strictly_before (clock_for s c) e).
Proof.
  intros Hself. unfold _check_countdown_time. rewrite Hself.
  destruct cd as [|kv cd'].
  { exists false. split; [done|]. split; [done|]. by intros (s & e & ? & _). }
  assert (Htr : truthy (JObj (kv :: cd')) = true) by done.
  remember (kv :: cd') as cd. rewrite Htr. cbn [negb].
  destruct (dict_get "end_time" cd) as [v|] eqn:Hget; simpl truthy_opt.
  2:{ exists false. split; [done|]. split; [done|]. by intros (s & e & ? & _). }
  change (default JNull (Some v)) with v.
  destruct (truthy v) eqn:Hv; cbn [negb].
  - eexists. split; [reflexivity|]. rewrite countdown_try_iff. split.
    + intros (s & e & -> & He & Hlt). exists s, e.
      repeat split; try done. by apply truthy_JStr.
    + intros (s & e & [= ->] & _ & He & Hlt). by exists s, e.
  - exists false. split; [done|]. split; [done|].
    intros (s & e & [= ->] & Hne & _). apply truthy_JStr in Hne. congruence.
Qed.

End CountdownFacts.



End WindowFacts.

(** ** The heartbeat decision *)

Section HeartbeatFacts.
Import Json Datetime Heartbeat.

Lemma DEFAULT_CONFIG_is_active base :
  Config.DEFAULT_CONFIG base !! "is_active" = Some (JBool true).
Proof. reflexivity. Qed.

Lemma DEFAULT_CONFIG_monitor_items base :
  Config.DEFAULT_CONFIG base !! "monitor_items"
  = Some Config.DEFAULT_monitor_items.
Proof. reflexivity. Qed.

(** No family is enabled exactly when no entry of [monitor_items] is a
    dictionary with a true [enabled] flag. *)
Lemma any_enabled_false items :
  Config.any_enabled items = false ↔
  ∀ k cfg, (k, JObj cfg) ∈ items → truthy_opt (dict_get "enabled" cfg) = false.
Proof.
  unfold Config.any_enabled. induction items as [|[k v] items IH]; simpl.
  - split; [|done]. intros _ k cfg H. by apply elem_of_nil in H.
  - rewrite orb_false_iff, IH. split.
    + intros [Hv Hrest] k' cfg [[= -> <-]|Hin]%elem_of_cons.
      * simpl in Hv. by destruct (dict_get "enabled" cfg).
      * by eapply Hrest.
    + intros H. split.
      * destruct v as [| | | | |cfg]; try done.
        specialize (H k cfg (list_elem_of_here _ _)).
        by destruct (dict_get "enabled" cfg).
      * intros k' cfg Hin. apply (H k'). by apply list_elem_of_further.
Qed.

(** C7: [should_send_heartbeat] answers (true, reason) for the first of
    these that holds, in this order: the server-active flag is false, no
    metric family is enabled, the window evaluator reports the present
    instant outside the window; otherwise it answers (false, "").  A false
    server-active flag therefore wins whatever the families and the window
    say. *)
Theorem C7_heartbeat_priority (fromisoformat : string → option datetime)
    (RUNTIME_CONFIG : gmap string json)
    (monitor_config : MonitorConfig.MonitorConfig) (c : Clock) :
  let active := truthy (Config.is_server_active RUNTIME_CONFIG) in
  let enabled := Config.is_monitoring_enabled RUNTIME_CONFIG in
  let in_window :=
    MonitorConfig.is_monitoring_time fromisoformat monitor_config c in
  let answer :=
    should_send_heartbeat fromisoformat RUNTIME_CONFIG monitor_config c in
  (active = false → answer = (true, REASON_SERVER_INACTIVE)) ∧
  (active = true → enabled = false →
     answer = (true, REASON_NOTHING_ENABLED)) ∧
  (active = true → enabled = true → in_window = false →
     answer = (true, REASON_OUTSIDE_WINDOW)) ∧
  (active = true → enabled = true → in_window = true →
     answer = (false, "")) ∧
  (fst answer = true ↔ active = false ∨ enabled = false ∨ in_window = false) ∧
  (RUNTIME_CONFIG !! "is_active" = Some (JBool false) →
     answer = (true, REASON_SERVER_INACTIVE)) ∧
  (∀ items, RUNTIME_CONFIG !! "monitor_items" = Some (JObj items) →
     (enabled = false ↔
      ∀ k cfg, (k, JObj cfg) ∈ items →
               truthy_opt (dict_get "enabled" cfg) = false)).
Proof.
  intros active enabled in_window answer.
  unfold answer, should_send_heartbeat.
  fold active enabled in_window.
  repeat split.
  - by intros ->.
  - by intros -> ->.
  - by intros -> -> ->.
  - by intros -> -> ->.
  - destruct active, enabled, in_window; simpl; auto.
  - destruct active, enabled, in_window; simpl; intros [|[|]]; done.
  - intros Hflag. unfold active, Config.is_server_active. by rewrite Hflag.
  - unfold enabled, Config.is_monitoring_enabled. rewrite H. simpl.
    apply any_enabled_false.
  - unfold enabled, Config.is_monitoring_enabled. rewrite H. simpl.
    apply any_enabled_false.
Qed.

(** Scenario D: the defaults (every family enabled, continuous mode) with
    the server-active flag switched off. *)
Lemma C7_heartbeat_priority_witness :
  let RUNTIME_CONFIG :=
    <["is_active" := JBool false]> (Config.DEFAULT_CONFIG "http://localhost:8045") in
  let monitor_config :=
    MonitorConfig.update_config [("mode", JStr "CONTINUOUS")] in
  RUNTIME_CONFIG !! "is_active" = Some (JBool false) ∧
  Config.is_monitoring_enabled RUNTIME_CONFIG = true ∧
  MonitorConfig.is_monitoring_time (λ _, None) monitor_config
    MonitorConfig.tuesday_10 = true ∧
  should_send_heartbeat (λ _, None) RUNTIME_CONFIG monitor_config
    MonitorConfig.tuesday_10 = (true, REASON_SERVER_INACTIVE).
Proof.
  intros RUNTIME_CONFIG monitor_config.
  assert (H : RUNTIME_CONFIG !! "is_active" = Some (JBool false))
    by reflexivity.
  split; [exact H|]. split; [reflexivity|]. split; [reflexivity|].
  exact (proj1 (proj2 (proj2 (proj2 (proj2 (proj2
    (C7_heartbeat_priority (λ _, None) RUNTIME_CONFIG monitor_config
       MonitorConfig.tuesday_10)))))) H).
Defined.

End HeartbeatFacts.

(** ** The lifecycle state manager *)

Section LifecycleFacts.
Import Json Py Os StateManager.

Variable dumps : json → string.
Variable loads : string → option json.

Lemma set_state_same w s :
  state (self w) = s → set_state dumps s w = (Ok tt, w).
Proof.
  intros <-. unfold set_state, bind, get_state, gets.
  rewrite bool_decide_eq_false_2; [done|]. by intros H.
Qed.

Lemma save_state_run w :
  _save_state dumps w = (Ok tt, mkWorld (self w) (persisted dumps (state (self w)) (os w))).
Proof.
  unfold _save_state, try_except, bind, get_state, gets, on_os, zoom, time,
    write_text, persisted, state_record. simpl.
  destruct w as [m e]. simpl.
  destruct (bool_decide (state_file ∈ faulty e)); reflexivity.
Qed.

Lemma set_state_run w s :
  state (self w) ≠ s →
  set_state dumps s w
  = (Ok tt, mkWorld (entered (self w) s (clock (os w))) (persisted dumps s (os w))).
Proof.
  intros Hne. unfold set_state. unfold bind at 1. unfold get_state at 1, gets.
  rewrite bool_decide_eq_true_2 by done.
  unfold bind at 1. unfold on_self at 1, modify.
  unfold bind at 1. unfold entered.
  destruct w as [[st t0 n0] e]. simpl in *.
  destruct s; simpl;
    try (destruct st; simpl; try done; rewrite save_state_run; reflexivity).
  all: destruct st; try done; simpl;
    unfold bind, on_os, zoom, time, gets, on_self, modify; simpl;
    rewrite save_state_run; reflexivity.
Qed.

Lemma regenerate_run w :
  client_id_file ∉ faulty (os w) →
  _regenerate_client_id w = (Ok tt, mkWorld (self w) (rotated (os w))).
Proof.
  intros Hok. destruct w as [m e]. simpl in Hok.
  unfold _regenerate_client_id, on_os, zoom. simpl.
  unfold bind at 1. unfold exists_ at 1, gets.
  unfold bind at 1.
  assert (Hrot : ∀ fs,
     <[client_id_file := uuid_source e (uuid_count e)]> fs
     = <[client_id_file := uuid_source e (uuid_count e)]> (files e) →
     (let! new_id := uuid4 in write_text client_id_file new_id)
       (set_files fs e)
     = (Ok tt, rotated e)).
  { intros fs Hfs. unfold bind, uuid4, write_text, rotated. simpl.
    rewrite bool_decide_eq_false_2 by done. simpl.
    unfold set_files, set_uuid_count. simpl. by rewrite Hfs. }
  destruct (files e !! client_id_file) as [old|] eqn:Hold.
  - rewrite bool_decide_eq_true_2 by (by eexists).
    unfold bind at 1. unfold read_text at 1. rewrite Hold.
    unfold unlink. rewrite bool_decide_eq_false_2 by done. rewrite Hold.
    rewrite Hrot; [done|]. apply insert_delete_eq.
  - rewrite bool_decide_eq_false_2 by (by intros [? ?]).
    unfold ret.
    replace e with (set_files (files e) e) at 1 by (by destruct e).
    rewrite Hrot; done.
Qed.

Lemma clear_auth_run w :
  _clear_auth_info w
  = (Ok tt, mkWorld (self w)
              (set_RUNTIME_CONFIG (cleared (RUNTIME_CONFIG (os w))) (os w))).
Proof.
  destruct w as [m e]. unfold _clear_auth_info, on_os, zoom, modify. simpl.
  do 3 f_equal. unfold cleared, auth_keys. simpl.
  set (rc := RUNTIME_CONFIG e).
  assert (Hstep : ∀ (r : gmap string json) k,
            (if bool_decide (is_Some (r !! k)) then delete k r else r)
            = delete k r).
  { intros r k. case_bool_decide as Hk; [done|].
    symmetry. apply delete_id. by apply eq_None_not_Some. }
  by rewrite !Hstep.
Qed.

Lemma cleared_lookup rc k :
  cleared rc !! k = if bool_decide (k ∈ auth_keys) then None else rc !! k.
Proof.
  unfold cleared, auth_keys. case_bool_decide as Hk.
  - rewrite !elem_of_cons, elem_of_nil in Hk.
    destruct Hk as [->|[->|[->|[]]]]; by simplify_map_eq.
  - rewrite !not_elem_of_cons in Hk. destruct Hk as (? & ? & ? & _).
    by rewrite !lookup_delete_ne.
Qed.

Lemma get_reinit_count_run w :
  _get_reinit_count loads w = (Ok (reinit_count_of loads (files (os w))), w).
Proof.
  destruct w as [m e].
  unfold _get_reinit_count, try_except, bind, on_os, zoom, exists_, gets,
    read_text, reinit_count_of. simpl.
  destruct (files e !! reinit_file) as [text|] eqn:Hf.
  - rewrite bool_decide_eq_true_2 by (by eexists). simpl. rewrite Hf.
    destruct (loads text) as [[| | | | |data]|]; reflexivity.
  - rewrite bool_decide_eq_false_2 by (by intros [? ?]). reflexivity.
Qed.

Lemma save_reinit_run w n :
  add_one (reinit_count_of loads (files (os w))) = Some n →
  _save_reinit_timestamp dumps loads w
  = (Ok tt, mkWorld (self w) (counted dumps n (os w))).
Proof.
  intros Hn. unfold _save_reinit_timestamp.
  unfold bind at 1. unfold on_os at 1, zoom, time, gets.
  unfold bind at 1. rewrite get_reinit_count_run. simpl. rewrite Hn.
  destruct w as [m e]. unfold try_except, on_os, zoom, write_text, counted,
    reinit_record. simpl.
  destruct (bool_decide (reinit_file ∈ faulty e)); reflexivity.
Qed.

Lemma save_reinit_raises w :
  add_one (reinit_count_of loads (files (os w))) = None →
  _save_reinit_timestamp dumps loads w = (Raise TypeError, w).
Proof.
  intros Hn. unfold _save_reinit_timestamp.
  unfold bind at 1. unfold on_os at 1, zoom, time, gets.
  unfold bind at 1. rewrite get_reinit_count_run. simpl. rewrite Hn.
  by destruct w.
Qed.


Lemma state_entered m s t : state (entered m s t) = s.
Proof. unfold entered. by repeat case_bool_decide. Qed.

(** Projections of the environment through the closed forms. *)
Lemma persisted_facts st e :
  RUNTIME_CONFIG (persisted dumps st e) = RUNTIME_CONFIG e ∧
  faulty (persisted dumps st e) = faulty e ∧
  clock (persisted dumps st e) = clock e ∧
  uuid_source (persisted dumps st e) = uuid_source e ∧
  uuid_count (persisted dumps st e) = uuid_count e ∧
  ∀ p, p ≠ state_file → files (persisted dumps st e) !! p = files e !! p.
Proof.
  unfold persisted. case_bool_decide; simpl; repeat split; try done.
  intros p Hp. by rewrite lookup_insert_ne.
Qed.

Lemma counted_facts n e :
  RUNTIME_CONFIG (counted dumps n e) = RUNTIME_CONFIG e ∧
  (∀ p, p ≠ reinit_file → files (counted dumps n e) !! p = files e !! p) ∧
  (reinit_file ∉ faulty e →
   files (counted dumps n e) !! reinit_file
   = Some (dumps (reinit_record (clock e) n))).
Proof.
  unfold counted. case_bool_decide; simpl; repeat split; try done.
  - intros p Hp. by rewrite lookup_insert_ne.
  - intros _. by rewrite lookup_insert_eq.
Qed.

Lemma reinit_count_of_frame (fs fs' : gmap string string) :
  fs' !! reinit_file = fs !! reinit_file →
  reinit_count_of loads fs' = reinit_count_of loads fs.
Proof. unfold reinit_count_of. by intros ->. Qed.

(** The whole procedure when the identifier can be replaced and the stored
    counter can be incremented. *)
Lemma reinitialize_run w n :
  state (self w) ≠ REINITIALIZED →
  client_id_file ∉ faulty (os w) →
  add_one (reinit_count_of loads (files (os w))) = Some n →
  reinitialize_device dumps loads w
  = (Ok tt,
     mkWorld (entered (self w) REINITIALIZED (clock (os w)))
       (counted dumps n
          (persisted dumps REINITIALIZED
             (set_RUNTIME_CONFIG (cleared (RUNTIME_CONFIG (os w)))
                (rotated (os w)))))).
Proof.
  intros Hst Hid Hn. unfold reinitialize_device, try_except.
  unfold bind at 1. rewrite regenerate_run by done.
  unfold bind at 1. rewrite clear_auth_run.
  unfold bind at 1. unfold _reset_device_config at 1, ret at 1.
  unfold bind at 1. rewrite set_state_run by done.
  rewrite save_reinit_run with (n := n); [done|].
  cbn [os self]. rewrite <- Hn. f_equal. apply reinit_count_of_frame.
  destruct (persisted_facts REINITIALIZED
              (set_RUNTIME_CONFIG (cleared (RUNTIME_CONFIG (os (mkWorld (self w) (rotated (os w))))))
                 (os (mkWorld (self w) (rotated (os w))))))
    as (_ & _ & _ & _ & _ & Hfiles).
  rewrite Hfiles by done. simpl. by rewrite lookup_insert_ne.
Qed.


Lemma only_ret {S A} (a : A) : only_Exceptions (ret (S:=S) a).
Proof. by intros s e s' [=]. Qed.

Lemma only_gets {S A} (f : S → A) : only_Exceptions (gets f).
Proof. by intros s e s' [=]. Qed.

Lemma only_modify {S} (f : S → S) : only_Exceptions (modify f).
Proof. by intros s e s' [=]. Qed.

Lemma only_raise {S A} e : is_Exception e = true → only_Exceptions (raise (S:=S) (A:=A) e).
Proof. by intros He s e' s' [= <- _]. Qed.

Lemma only_bind {S A B} (m : M S A) (k : A → M S B) :
  only_Exceptions m → (∀ a, only_Exceptions (k a)) → only_Exceptions (bind m k).
Proof.
  intros Hm Hk s e s'. unfold bind.
  destruct (m s) as [[a|e0] s0] eqn:Hms.
  - apply Hk.
  - intros [= <- <-]. by eapply Hm.
Qed.

Lemma only_try {S A} (m : M S A) (h : exn → M S A) :
  only_Exceptions m → (∀ e, only_Exceptions (h e)) → only_Exceptions (try_except m h).
Proof.
  intros Hm Hh s e s'. unfold try_except.
  destruct (m s) as [[a|e0] s0] eqn:Hms; [done|].
  destruct (is_Exception e0) eqn:He0; [apply Hh|].
  apply Hm in Hms. congruence.
Qed.

Lemma only_zoom {S T A} (g : T → S) (p : S → T → T) (m : M S A) :
  only_Exceptions m → only_Exceptions (zoom g p m).
Proof.
  intros Hm t e t'. unfold zoom.
  destruct (m (g t)) as [r s0] eqn:Hms. intros [= -> <-]. by eapply Hm.
Qed.

Lemma only_read_text p : only_Exceptions (read_text p).
Proof.
  intros s e s'. unfold read_text. destruct (files s !! p); by intros [= <- _].
Qed.

Lemma only_write_text p t : only_Exceptions (write_text p t).
Proof.
  intros s e s'. unfold write_text. case_bool_decide; by intros [= <- _].
Qed.

Lemma only_unlink p : only_Exceptions (unlink p).
Proof.
  intros s e s'. unfold unlink. case_bool_decide; [by intros [= <- _]|].
  destruct (files s !! p); by intros [= <- _].
Qed.

Lemma only_uuid4 : only_Exceptions uuid4.
Proof. by intros s e s' [=]. Qed.

Lemma set_state_ok w s : ∃ w', set_state dumps s w = (Ok tt, w').
Proof.
  destruct (decide (state (self w) = s)) as [H|H].
  - eexists. by apply set_state_same.
  - eexists. by apply set_state_run.
Qed.

Lemma only_set_state s : only_Exceptions (set_state dumps s).
Proof.
  intros w e w' H. destruct (set_state_ok w s) as [w0 H0]. congruence.
Qed.

Lemma only_save_reinit : only_Exceptions (_save_reinit_timestamp dumps loads).
Proof.
  intros w e w' H.
  destruct (add_one (reinit_count_of loads (files (os w)))) as [n|] eqn:Hn.
  - rewrite (save_reinit_run _ _ Hn) in H. done.
  - rewrite (save_reinit_raises _ Hn) in H. by injection H as <- _.
Qed.

Lemma only_regenerate : only_Exceptions _regenerate_client_id.
Proof.
  apply only_zoom, only_bind; [apply only_gets|]. intros present.
  apply only_bind.
  - destruct present; [|apply only_ret].
    apply only_bind; [apply only_read_text|]. intros _. apply only_unlink.
  - intros _. apply only_bind; [apply only_uuid4|]. intros. apply only_write_text.
Qed.

(** [reinitialize_device] always returns normally. *)
Lemma reinitialize_ok w : ∃ w', reinitialize_device dumps loads w = (Ok tt, w').
Proof.
  unfold reinitialize_device, try_except.
  match goal with |- context [?body w] => destruct (body w) as [[[]|e] w0] eqn:Hb end.
  - by eexists.
  - assert (He : is_Exception e = true).
    { revert Hb. apply only_bind; [apply only_regenerate|]. intros _.
      apply only_bind.
      { intros s e0 s'. by rewrite clear_auth_run. }
      intros _. apply only_bind; [apply only_ret|]. intros _.
      apply only_bind; [apply only_set_state|]. intros _.
      apply only_save_reinit. }
    rewrite He. apply set_state_ok.
Qed.

(** [_attempt_error_recovery] from [ERROR]. *)
Lemma attempt_recovery_plain w :
  state (self w) = ERROR →
  files (os w) !! delete_marker_file = None →
  _attempt_error_recovery dumps loads w
  = (Ok tt, mkWorld (mkStateManager UNREGISTERED 0 0)
              (persisted dumps UNREGISTERED (os w))).
Proof.
  intros Hst Hmarker. unfold _attempt_error_recovery, try_except.
  unfold bind, check_delete_marker, on_os, zoom, exists_, gets.
  rewrite bool_decide_eq_false_2 by (rewrite Hmarker; by intros [? ?]).
  replace (mkWorld (self w) (os w)) with w by (by destruct w).
  rewrite set_state_run by (by rewrite Hst).
  unfold entered. rewrite Hst. done.
Qed.

Lemma attempt_recovery_marker w :
  is_Some (files (os w) !! delete_marker_file) →
  _attempt_error_recovery dumps loads w = reinitialize_device dumps loads w.
Proof.
  intros Hmarker. unfold _attempt_error_recovery, try_except.
  unfold bind, check_delete_marker, on_os, zoom, exists_, gets.
  rewrite bool_decide_eq_true_2 by done.
  replace (mkWorld (self w) (os w)) with w by (by destruct w).
  by destruct (reinitialize_ok w) as [w' ->].
Qed.

Lemma should_auto_recover_run w :
  state (self w) = ERROR →
  _should_auto_recover_from_error dumps loads w
  = if (MAX_ERROR_DURATION <=? clock (os w) - error_start_time (self w))
       || (MAX_ERROR_RETRIES <=? error_retry_count (self w))
    then (Ok true, exec (_attempt_error_recovery dumps loads) w)
    else (Ok false, w).
Proof.
  intros Hst. unfold _should_auto_recover_from_error.
  unfold bind at 1. unfold get_state at 1, gets at 1.
  rewrite bool_decide_eq_false_2 by (rewrite Hst; by intros H).
  unfold bind at 1. unfold on_os at 1, zoom, time, gets at 1.
  replace (mkWorld (self w) (os w)) with w by (by destruct w).
  unfold bind at 1. unfold gets at 1.
  assert (Hrec : (_attempt_error_recovery dumps loads >> ret true) w
                 = (Ok true, exec (_attempt_error_recovery dumps loads) w)).
  { unfold bind, exec.
    destruct (decide (is_Some (files (os w) !! delete_marker_file))) as [Hm|Hm].
    - rewrite attempt_recovery_marker by done.
      by destruct (reinitialize_ok w) as [w' ->].
    - rewrite attempt_recovery_plain; [done..|]. by apply eq_None_not_Some. }
  destruct (MAX_ERROR_DURATION <=? _); simpl; [exact Hrec|].
  unfold bind at 1. unfold gets at 1.
  destruct (MAX_ERROR_RETRIES <=? _); [exact Hrec | done].
Qed.


Lemma deletion_signal_iff code body :
  Sender.deletion_signal code body = true ↔
  ∃ d, body = Some (JObj d) ∧
       ((200 ≤ code < 300 ∧ dict_get "status" d = Some (JStr "deleted")) ∨
        (code = 403 ∧ dict_get "error_code" d = Some (JStr "DEVICE_DELETED"))).
Proof.
  assert (Heq : ∀ o s, opt_eq_str o s = true ↔ o = Some (JStr s)).
  { intros [[| | |t| |]|] s0; simpl; split; try done.
    - by intros ->%String.eqb_eq.
    - intros [= ->]. apply String.eqb_refl.  }
  unfold Sender.deletion_signal.
  destruct ((200 <=? code) && (code <? 300)) eqn:Hok.
  - apply andb_true_iff in Hok as [?%Z.leb_le ?%Z.ltb_lt].
    destruct body as [[| | | | |d]|].
    6:{ rewrite Heq. split.
        - intros H1. exists d. split; [done|]. left. split; [lia|done].
        - intros (d' & [= <-] & [[_ ?]|[? _]]); [done|lia]. }
    all: split; [done|]; by intros (d' & [=] & _).
  - assert (Hout : ¬ 200 ≤ code < 300).
    { apply andb_false_iff in Hok as [?%Z.leb_gt|?%Z.ltb_ge]; lia. }
    destruct (Z.eqb_spec code 403) as [->|Hne].
    + destruct body as [[| | | | |d]|].
      6:{ rewrite Heq. split.
          - intros H1. exists d. split; [done|]. by right.
          - intros (d' & [= <-] & [[? _]|[_ ?]]); [lia|done]. }
      all: split; [done|]; by intros (d' & [=] & _).
    + split; [done|]. intros (d & _ & [[? _]|[? _]]); [lia|done].
Qed.



(** C10: [set_state s] in state [s] changes nothing at all: the state, the
    error start time, the error retry count and every file are as before
    (so no state file is written), however often it is repeated; in
    particular repeated [set_state ERROR] in ERROR never increments the
    retry count. *)
Theorem C10_set_state_same_is_noop (w : World) (s : ClientState)
    (Hsame : state (self w) = s) :
  set_state dumps s w = (Ok tt, w) ∧
  (∀ n, Nat.iter n (exec (set_state dumps s)) w = w) ∧
  (s = ERROR →
   ∀ n, error_retry_count (self (Nat.iter n (exec (set_state dumps ERROR)) w))
        = error_retry_count (self w)).
Proof.
  assert (Hiter : ∀ n, Nat.iter n (exec (set_state dumps s)) w = w).
  { induction n as [|n IH]; simpl; [done|]. rewrite IH.
    unfold exec. by rewrite set_state_same. }
  split; [by apply set_state_same|]. split; [exact Hiter|].
  intros -> n. by rewrite Hiter.
Qed.

End LifecycleFacts.

Section LifecycleRuns.
Import Json Py Os StateManager Sample.



(** Ten calls of [set_state ERROR] on a device already in ERROR. *)
Lemma C10_set_state_same_is_noop_witness :
  let w := sample_world ERROR 1700000000 3 in
  (state (self w) = ERROR) ∧
  (Nat.iter 10 (exec (set_state sample_dumps ERROR)) w = w).
Proof.
  intros w. assert (H : state (self w) = ERROR) by reflexivity.
  split; [exact H|].
  exact (proj1 (proj2 (C10_set_state_same_is_noop sample_dumps w ERROR H)) 10%nat).
Defined.

(** When the identifier file cannot be replaced the handler of
    [reinitialize_device] takes over: the state ends in ERROR and the
    identifier stays as it was. *)
Remark deletion_on_locked_disk :
  let w := exec (handle_device_deleted_response sample_dumps sample_loads)
                (locked_world REGISTERED) in
  state (self w) = ERROR ∧
  files (os w) !! client_id_file
  = files (os (locked_world REGISTERED)) !! client_id_file.
Proof. vm_compute. split; reflexivity. Qed.

End LifecycleRuns.

(** ** The credential *)

Section IdentityFacts.
Import Hashlib Identity.


Example sha256_empty :
  hexdigest (sha256 (encode ""))
  = "e3b0c44298fc1c149afbf4c8996fb92427ae41e4649b934ca495991b7852b855".
Proof. vm_compute. reflexivity. Qed.

Example sha256_abc :
  hexdigest (sha256 (encode "abc"))
  = "ba7816bf8f01cfea414140de5dae2223b00361a396177a9cb410ff61f20015ad".
Proof. vm_compute. reflexivity. Qed.

Example hmac_sha256_fox :
  hexdigest (hmac_sha256 (encode "key")
               (encode "The quick brown fox jumps over the lazy dog"))
  = "f7bc83f430538424b13298e6aa6fb143ef4d59a14946175997479dbc2d1a3cd8".
Proof. vm_compute. reflexivity. Qed.

Example hmac_sha256_long_key :
  rstrip_eq (urlsafe_b64encode
    (hmac_sha256 (repeat 107 100)
       (encode "123e4567-e89b-12d3-a456-426614174000")))
  = "l4Gv5BJLlT3ezluvvn2bS8njD2akuyZCr5_4MBtGLa4".
Proof. vm_compute. reflexivity. Qed.

Lemma digest_length h : length (digest_bytes h) = 32%nat.
Proof. reflexivity. Qed.

Lemma sha256_length msg : length (sha256 msg) = 32%nat.
Proof. apply digest_length. Qed.

Lemma hmac_sha256_length key msg : length (hmac_sha256 key msg) = 32%nat.
Proof. apply sha256_length. Qed.

Lemma b64char_not_pad n : Ascii.eqb (b64char n) "=" = false.
Proof.
  unfold b64char. generalize (Z.to_nat n). intros k.
  do 64 (destruct k as [|k]; [reflexivity|]). by destruct k.
Qed.

Lemma b64char_urlsafe n : is_urlsafe (b64char n) = true.
Proof.
  unfold b64char. generalize (Z.to_nat n). intros k.
  do 64 (destruct k as [|k]; [reflexivity|]). by destruct k.
Qed.

Lemma token_of_32_bytes (l : list Z) :
  length l = 32%nat → well_formed_token (rstrip_eq (urlsafe_b64encode l)).
Proof.
  intros Hlen.
  do 32 (destruct l as [|? l]; [discriminate Hlen|]).
  destruct l; [|discriminate Hlen]. clear Hlen.
  cbn [urlsafe_b64encode].
  repeat match goal with
  | |- context [b64char ?x] =>
      let c := fresh "c" in
      pose proof (b64char_not_pad x); pose proof (b64char_urlsafe x);
      generalize dependent (b64char x); intros c ? ?
  end.
  cbn [rstrip_eq]. simpl Ascii.eqb at 1.
  match goal with H : Ascii.eqb ?c "=" = false |- context [Ascii.eqb ?c "="] => rewrite H end.
  split; [reflexivity|].
  cbn [list_ascii_of_string forallb].
  repeat match goal with H : is_urlsafe _ = true |- _ => rewrite H; clear H end.
  reflexivity.
Qed.

Lemma generate_token_nonempty key uuid_str :
  generate_token key uuid_str ≠ "".
Proof.
  intros H.
  destruct (token_of_32_bytes
              (hmac_sha256 (encode key) (encode uuid_str))
              (hmac_sha256_length _ _)) as [Hlen _].
  unfold generate_token in H. rewrite H in Hlen. done.
Qed.


Example generate_token_server_key :
  generate_token "why_20250730_secure_key" "123e4567-e89b-12d3-a456-426614174000"
  = "CLUUMEvXRp_2fhKbjYzrVoPukOl_vtjvibPzT_rshas".
Proof. vm_compute. reflexivity. Qed.

End IdentityFacts.

(** ** Registration *)

Section RegistrationFacts.
Import Json Py Os StateManager Main.

Variable dumps : json → string.
Variable loads : string → option json.

Lemma bind_ok_inv {S A B} (m : M S A) (k : A → M S B) s b s' :
  bind m k s = (Ok b, s') → ∃ a s1, m s = (Ok a, s1) ∧ k a s1 = (Ok b, s').
Proof.
  unfold bind. destruct (m s) as [[a|e] s1]; [|done]. intros H. by exists a, s1.
Qed.

Lemma set_state_state w s w' :
  set_state dumps s w = (Ok tt, w') → state (self w') = s.
Proof.
  destruct (decide (state (self w) = s)) as [H|H].
  - rewrite set_state_same by done. by intros [= <-].
  - rewrite set_state_run by done. intros [= <-]. apply state_entered.
Qed.

Lemma save_reinit_self w r w' :
  _save_reinit_timestamp dumps loads w = (r, w') → self w' = self w.
Proof.
  destruct (add_one (reinit_count_of loads (files (os w)))) as [n|] eqn:Hn.
  - rewrite (save_reinit_run _ _ _ _ Hn). by intros [= _ <-].
  - rewrite (save_reinit_raises _ _ _ Hn). by intros [= _ <-].
Qed.

(** [reinitialize_device] ends in REINITIALIZED or, after a failure, in
    ERROR. *)
Lemma reinitialize_state w :
  ∃ w', reinitialize_device dumps loads w = (Ok tt, w') ∧
        (state (self w') = REINITIALIZED ∨ state (self w') = ERROR).
Proof.
  unfold reinitialize_device, try_except.
  match goal with |- context [?body w] => destruct (body w) as [[[]|e] w0] eqn:Hb end.
  - exists w0. split; [done|]. left.
    apply bind_ok_inv in Hb as (? & w1 & _ & Hb).
    apply bind_ok_inv in Hb as (? & w2 & _ & Hb).
    apply bind_ok_inv in Hb as (? & w3 & _ & Hb).
    apply bind_ok_inv in Hb as ([] & w4 & Hset & Hb).
    apply save_reinit_self in Hb. rewrite Hb. by eapply set_state_state.
  - assert (He : is_Exception e = true).
    { revert Hb. apply only_bind; [apply only_regenerate|]. intros _.
      apply only_bind.
      { intros s e0 s'. by rewrite clear_auth_run. }
      intros _. apply only_bind; [apply only_ret|]. intros _.
      apply only_bind; [apply only_set_state|]. intros _.
      apply only_save_reinit. }
    rewrite He. destruct (set_state_ok dumps w0 ERROR) as [w' Hw'].
    exists w'. split; [done|]. right. by eapply set_state_state.
Qed.

Lemma handle_deleted_state w :
  ∃ w', handle_device_deleted_response dumps loads w = (Ok tt, w') ∧
        (state (self w') = REINITIALIZED ∨ state (self w') = ERROR).
Proof.
  unfold handle_device_deleted_response, bind.
  destruct (set_state_ok dumps w DELETED) as [w1 ->].
  apply reinitialize_state.
Qed.

Lemma get_client_id_present e cid :
  files e !! Identity._ID_FILE = Some cid → strip cid ≠ "" →
  Identity.get_client_id e = (Ok (strip cid), e).
Proof.
  intros Hf Hne. unfold Identity.get_client_id, bind, exists_, gets, read_text.
  rewrite bool_decide_eq_true_2 by (by eexists). rewrite Hf.
  apply String.eqb_neq in Hne. by rewrite Hne.
Qed.

Lemma get_auth_token_present e cid :
  files e !! Identity._ID_FILE = Some cid → strip cid ≠ "" →
  Identity.get_auth_token e
  = (Ok (Identity.generate_token (SERVER_SECRET_KEY e) (strip cid)), e).
Proof.
  intros Hf Hne. unfold Identity.get_auth_token, bind.
  by rewrite (get_client_id_present _ _ Hf Hne).
Qed.

Lemma register_client_present w cid reqs :
  files (os w) !! Identity._ID_FILE = Some cid → strip cid ≠ "" →
  register_client dumps loads 0 30 reqs w
  = register_loop dumps loads 0 30
      (Identity.generate_token (SERVER_SECRET_KEY (os w)) (strip cid)) 0 reqs w.
Proof.
  intros Hf Hne. unfold register_client, bind, on_os, zoom.
  rewrite (get_client_id_present _ _ Hf Hne). cbn [os].
  rewrite (get_auth_token_present _ _ Hf Hne). by destruct w.
Qed.

Lemma opt_eq_str_true o s : opt_eq_str o s = true ↔ o = Some (JStr s).
Proof.
  destruct o as [[| | |t| |]|]; simpl; split; try done.
  all: try (by intros ->%String.eqb_eq).
  all: try (intros [= ->]; apply String.eqb_refl).
Qed.

Lemma missing_in_nil c req :
  missing_in c req = Some [] ↔ ∀ m, m ∈ req → contains_str c m = Some true.
Proof.
  induction req as [|m req IH]; simpl.
  - split; [|done]. intros _ m H. by apply elem_of_nil in H.
  - split.
    + intros H m' [->|Hin]%elem_of_cons.
      * by destruct (contains_str c m) as [[]|], (missing_in c req).
      * apply IH; [|done].
        by destruct (contains_str c m) as [[]|], (missing_in c req) as [[]|].
    + intros H. rewrite (H m) by apply list_elem_of_here.
      assert (Hreq : missing_in c req = Some []).
      { apply IH. intros m' Hm'. apply H. by apply list_elem_of_further. }
      by rewrite Hreq.
Qed.

Lemma contains_str_dict config f :
  contains_str (JObj config) f = Some true ↔ is_Some (dict_get f config).
Proof.
  simpl. unfold dict_has. by destruct (dict_get f config).
Qed.

(** A complete accepted answer with the right credential is returned as the
    configuration, and nothing else happens. *)
Lemma on_response_accepted tok r w :
  tok ≠ "" → accepted_with tok r →
  ∃ cfg, on_response dumps loads tok r w = (Ok (Return (Some cfg)), w) ∧
         dict_get "status" cfg = Some (JStr "accepted").
Proof.
  intros Htok (config & -> & Hstatus & Htoken & Hfields & Hitems).
  unfold on_response. change (200 =? 200) with true. cbv iota. unfold on_200.
  rewrite Hstatus, Htoken.
  change (opt_eq_str (Some (JStr "accepted")) "pending") with false.
  change (opt_eq_str (Some (JStr "accepted")) "rejected") with false.
  change (opt_eq_str (Some (JStr "accepted")) "deleted") with false.
  change (opt_eq_str (Some (JStr "accepted")) "accepted") with true.
  change (truthy_opt (Some (JStr tok))) with (negb (String.eqb tok "")).
  change (opt_eq_str (Some (JStr tok)) tok) with (String.eqb tok tok).
  cbv iota.
  apply String.eqb_neq in Htok. rewrite Htok, String.eqb_refl. cbn [negb].
  assert (H1 : missing_in (JObj config) required_fields = Some []).
  { apply missing_in_nil. intros f Hf. apply contains_str_dict. by apply Hfields. }
  rewrite H1.
  destruct (Hfields "monitor_items") as [items Hget]; [set_solver|].
  rewrite Hget. change (default (JObj []) (Some items)) with items.
  assert (H2 : missing_in items required_monitors = Some []).
  { apply missing_in_nil. by apply Hitems. }
  rewrite H2. eexists. split; reflexivity.
Qed.

(** Every other answer: the loop falls through (transport failure or
    pending), the call raises, or it returns no configuration, a rejection,
    or a deletion after which the state is REINITIALIZED or ERROR. *)
Lemma on_response_other tok r w :
  accepted_with tok r ∨
  ∃ fl w', on_response dumps loads tok r w = (fl, w') ∧
    match fl with
    | Ok Fallthrough =>
        w' = w ∧
        (r = ConnError ∨
         ∃ config, r = Response 200 (Some (JObj config)) ∧
                   dict_get "status" config = Some (JStr "pending"))
    | Ok (Return None) => w' = w
    | Ok (Return (Some cfg)) =>
        (dict_get "status" cfg = Some (JStr "rejected") ∧ w' = w) ∨
        (dict_get "status" cfg = Some (JStr "deleted") ∧
         (state (self w') = REINITIALIZED ∨ state (self w') = ERROR))
    | Raise _ => w' = w
    end.
Proof.
  assert (Hdel : ∃ fl w',
    (handle_device_deleted_response dumps loads >> ret (Return (Some deleted_reply))) w
    = (fl, w') ∧
    match fl with
    | Ok (Return (Some cfg)) =>
        (dict_get "status" cfg = Some (JStr "rejected") ∧ w' = w) ∨
        (dict_get "status" cfg = Some (JStr "deleted") ∧
         (state (self w') = REINITIALIZED ∨ state (self w') = ERROR))
    | _ => False
    end).
  { unfold bind. destruct (handle_deleted_state w) as (w' & -> & Hst).
    eexists _, _. split; [reflexivity|]. by right. }
  destruct r as [|code body]; simpl.
  { right. eexists _, _. split; [reflexivity|]. split; [done|by left]. }
  destruct (Z.eqb_spec code 200) as [->|H200].
  - unfold on_200. destruct body as [[| | | | |config]|];
      try (right; eexists _, _; split; [reflexivity|]; done).
    destruct (opt_eq_str (dict_get "status" config) "pending") eqn:Hp.
    { apply opt_eq_str_true in Hp. right. eexists _, _. split; [reflexivity|].
      split; [done|]. right. by exists config. }
    destruct (opt_eq_str (dict_get "status" config) "rejected") eqn:Hr.
    { right. eexists _, _. split; [reflexivity|]. by left. }
    destruct (opt_eq_str (dict_get "status" config) "deleted") eqn:Hd.
    { destruct Hdel as (fl & w' & -> & Hfl). right. eexists _, _. split; [reflexivity|].
      destruct fl as [[[cfg|]|]|]; done. }
    destruct (opt_eq_str (dict_get "status" config) "accepted") eqn:Ha;
      [|right; eexists _, _; split; [reflexivity|]; done].
    destruct (truthy_opt (dict_get "auth_token" config)) eqn:Ht; cbn [negb];
      [|right; eexists _, _; split; [reflexivity|]; done].
    destruct (opt_eq_str (dict_get "auth_token" config) tok) eqn:Htok; cbn [negb];
      [|right; eexists _, _; split; [reflexivity|]; done].
    destruct (missing_in (JObj config) required_fields) as [[|f fs]|] eqn:Hf;
      try (right; eexists _, _; split; [reflexivity|]; done).
    destruct (missing_in (default (JObj []) (dict_get "monitor_items" config))
                required_monitors) as [[|m ms]|] eqn:Hm;
      try (right; eexists _, _; split; [reflexivity|]; done).
    left. exists config. apply opt_eq_str_true in Ha, Htok.
    rewrite missing_in_nil in Hf. rewrite missing_in_nil in Hm.
    repeat split; try done.
    + intros f Hin. apply contains_str_dict. by apply Hf.
    + intros items Hitems. rewrite Hitems in Hm. exact Hm.
  - destruct (Z.eqb_spec code 403) as [->|H403];
      [|right; eexists _, _; split; [reflexivity|]; done].
    unfold on_403. destruct body as [[| | | | |error_data]|];
      try (right; eexists _, _; split; [reflexivity|]; done).
    destruct (opt_eq_str _ "DEVICE_DELETED");
      [|right; eexists _, _; split; [reflexivity|]; done].
    destruct Hdel as (fl & w' & -> & Hfl). right. eexists _, _. split; [reflexivity|].
    destruct fl as [[[cfg|]|]|]; done.
Qed.


Lemma waited_waited a b w : waited a (waited b w) = waited (b + a) w.
Proof.
  unfold waited. simpl. f_equal. unfold set_clock. simpl. f_equal. lia.
Qed.

Lemma waited_0 w : waited 0 w = w.
Proof.
  unfold waited, set_clock. rewrite Z.add_0_r. by destruct w as [m []].
Qed.

Lemma waited_self d w : self (waited d w) = self w.
Proof. done. Qed.

Lemma on_response_retried tok a w :
  retried a → on_response dumps loads tok (result a) w = (Ok Fallthrough, w).
Proof.
  intros [_ [->|(config & -> & Hst)]]; [done|].
  unfold on_response. change (200 =? 200) with true. cbv iota.
  unfold on_200. rewrite Hst. done.
Qed.

(** Requests that are retried only let time pass. *)
Lemma loop_retried tok prefix reqs : ∀ k w,
  Forall retried prefix →
  ∃ d k', register_loop dumps loads 0 30 tok k (prefix ++ reqs) w
          = register_loop dumps loads 0 30 tok k' reqs (waited d w).
Proof.
  induction prefix as [|a prefix IH]; intros k w Hall.
  - exists 0, k. by rewrite waited_0.
  - apply Forall_cons in Hall as [Ha Hall].
    destruct (IH (k + 1) (waited 30 w) Hall) as (d & k' & Hloop).
    exists (30 + d), k'. rewrite <- waited_waited, <- Hloop.
    cbn [app register_loop]. unfold bind at 1.
    rewrite on_response_retried by done.
    destruct Ha as [-> _]. change ((0 <? 0) && (0 <=? k + 1)) with false.
    cbv iota. unfold bind. done.
Qed.

Lemma loop_retried_all tok prefix : ∀ k w,
  Forall retried prefix →
  ∃ d, register_loop dumps loads 0 30 tok k prefix w = (Ok Retrying, waited d w).
Proof.
  intros k w Hall.
  destruct (loop_retried tok prefix [] k w Hall) as (d & k' & Hloop).
  rewrite app_nil_r in Hloop. exists d. by rewrite Hloop.
Qed.


(** The registration part of [main] once [register_client] has produced
    its outcome. *)
Lemma attempt_after_loop w cid reqs :
  state (self w) = REGISTERING →
  files (os w) !! Identity._ID_FILE = Some cid → strip cid ≠ "" →
  registration_attempt dumps loads reqs w
  = (let! r := register_loop dumps loads 0 30
                 (Identity.generate_token (SERVER_SECRET_KEY (os w)) (strip cid))
                 0 reqs in
     match r with
     | Retrying => ret InRegisterClient
     | Returned None | Returned (Some []) =>
         set_state dumps ERROR >>
         on_os (sleep TimingConfig.REGISTER_FAILED_RETRY_INTERVAL) >>
         ret Continue
     | Returned (Some config) =>
         let status := dict_get "status" config in
         if opt_eq_str status "pending" then ret Continue
         else if opt_eq_str status "rejected" then
           on_os (sleep TimingConfig.REGISTER_REJECTED_RETRY_INTERVAL) >>
           ret Continue
         else if opt_eq_str status "deleted" then ret Continue
         else if opt_eq_str status "accepted" then
           set_state dumps REGISTERED >> ret (Accepted config)
         else ret Continue
     end) w.
Proof.
  intros Hst Hf Hne. unfold registration_attempt.
  unfold bind at 1. unfold get_state at 1, gets.
  rewrite bool_decide_eq_true_2 by (by rewrite Hst).
  unfold bind at 1 3. by rewrite (register_client_present w cid reqs Hf Hne).
Qed.

Lemma failed_registration w :
  ∃ w', (set_state dumps ERROR >>
         on_os (sleep TimingConfig.REGISTER_FAILED_RETRY_INTERVAL) >>
         ret Continue) w = (Ok Continue, w') ∧ state (self w') = ERROR.
Proof.
  unfold bind. destruct (set_state_ok dumps w ERROR) as [w1 Hw1]. rewrite Hw1.
  eexists. split; [reflexivity|]. simpl. by eapply set_state_state.
Qed.

(** The state after the first request that is not retried. *)
Lemma decisive_state w cid prefix a rest :
  state (self w) = REGISTERING →
  files (os w) !! Identity._ID_FILE = Some cid → strip cid ≠ "" →
  Forall retried prefix → ¬ retried a →
  let tok := Identity.generate_token (SERVER_SECRET_KEY (os w)) (strip cid) in
  let w' := exec (registration_attempt dumps loads (prefix ++ a :: rest)) w in
  (accepted_with tok (result a) → state (self w') = REGISTERED) ∧
  (accepted_with tok (result a) ∨
   state (self w') ≠ REGISTERED ∧
   ((∃ body, result a = Response 200 body ∧
             on_200 dumps loads tok body = ret (Return None)) →
    state (self w') = ERROR)).
Proof.
  intros Hst Hf Hne Hprefix Hdec tok w'. unfold w', exec.
  pose proof (attempt_after_loop w cid (prefix ++ a :: rest) Hst Hf Hne) as HX.
  fold tok in HX.
  destruct (loop_retried tok prefix (a :: rest) 0 w Hprefix) as (d & k & Hloop).
  unfold bind at 1 in HX. rewrite Hloop in HX. cbn [register_loop] in HX.
  unfold bind at 1 in HX.
  set (w1 := waited d w) in *.
  assert (Hst1 : state (self w1) = REGISTERING) by done.
  assert (Hfail : ∀ wx, state (self (snd ((set_state dumps ERROR >>
       on_os (sleep TimingConfig.REGISTER_FAILED_RETRY_INTERVAL) >>
       ret Continue) wx))) = ERROR).
  { intros wx. by destruct (failed_registration wx) as (? & -> & ?). }
  split.
  - intros Hacc.
    destruct (on_response_accepted tok (result a) w1 (generate_token_nonempty _ _) Hacc)
      as (cfg & Hresp & Hcfg).
    rewrite Hresp in HX. unfold ret at 1 in HX.
    destruct cfg as [|kv cfg]; [done|].
    rewrite Hcfg in HX.
    change (opt_eq_str (Some (JStr "accepted")) "pending") with false in HX.
    change (opt_eq_str (Some (JStr "accepted")) "rejected") with false in HX.
    change (opt_eq_str (Some (JStr "accepted")) "deleted") with false in HX.
    change (opt_eq_str (Some (JStr "accepted")) "accepted") with true in HX.
    cbv iota in HX. unfold bind in HX.
    destruct (set_state_ok dumps w1 REGISTERED) as [w2 Hw2]. rewrite Hw2 in HX.
    rewrite HX. simpl. by eapply set_state_state.
  - destruct (on_response_other tok (result a) w1)
      as [Hacc|(fl & w2 & Hresp & Hfl)]; [by left|right].
    assert (Hno200 : (∃ body, result a = Response 200 body ∧
               on_200 dumps loads tok body = ret (Return None)) →
            fl = Ok (Return None)).
    { intros (body & Hbody & Hnone).
      unfold on_response in Hresp. rewrite Hbody in Hresp.
      change (200 =? 200) with true in Hresp. cbv iota in Hresp.
      rewrite Hnone in Hresp. by injection Hresp as <- _. }
    rewrite Hresp in HX.
    destruct fl as [[[cfg|]|]|e].
    + (* rejected or deleted *)
      unfold ret at 1 in HX. split; [|by intros ?%Hno200].
      destruct cfg as [|kv cfg]; [by destruct Hfl as [[? _]|[? _]]|].
      destruct Hfl as [[Hcfg ->]|[Hcfg Hstate]]; rewrite Hcfg in HX; rewrite HX; simpl.
      * by rewrite Hst.
      * by destruct Hstate as [-> | ->].
    + (* no configuration *)
      unfold ret at 1 in HX. rewrite HX, Hfail. by split.
    + (* fell through, so the wait was interrupted *)
      destruct Hfl as [-> Hkind].
      change ((0 <? 0) && (0 <=? k + 1)) with false in HX. cbv iota in HX.
      destruct (interrupted a) eqn:Hint.
      * unfold ret at 1 in HX. rewrite HX, Hfail. split; [done|]. by intros ?%Hno200.
      * exfalso. apply Hdec. by split.
    + (* the call raised *)
      subst w2. rewrite HX. simpl. rewrite Hst. split; [done|]. by intros ?%Hno200.
Qed.


Lemma on_200_rejects tok config :
  dict_get "status" config = Some (JStr "accepted") →
  dict_get "auth_token" config ≠ Some (JStr tok) ∨
  (∃ f, f ∈ required_fields ∧ dict_get f config = None) →
  on_200 dumps loads tok (Some (JObj config)) = ret (Return None).
Proof.
  intros Hst Hbad. unfold on_200. rewrite Hst.
  change (opt_eq_str (Some (JStr "accepted")) "pending") with false.
  change (opt_eq_str (Some (JStr "accepted")) "rejected") with false.
  change (opt_eq_str (Some (JStr "accepted")) "deleted") with false.
  change (opt_eq_str (Some (JStr "accepted")) "accepted") with true.
  cbv iota.
  destruct (truthy_opt (dict_get "auth_token" config)); [|done].
  destruct (opt_eq_str (dict_get "auth_token" config) tok) eqn:Htok; [|done].
  cbn [negb].
  destruct (missing_in (JObj config) required_fields) as [[|f fs]|] eqn:Hf;
    try done.
  exfalso. apply opt_eq_str_true in Htok.
  destruct Hbad as [Hbad|(f & Hin & Hnone)]; [done|].
  rewrite missing_in_nil in Hf. specialize (Hf f Hin).
  apply contains_str_dict in Hf. rewrite Hnone in Hf. by destruct Hf.
Qed.


End RegistrationFacts.

Section RegistrationRuns.
Import Json Py Os StateManager Main Sample.




End RegistrationRuns.

(* ===================================================================== *)
(** * Part III: further properties of the modelled code                  *)
(* ===================================================================== *)

(** ** Runs that stay within a relation *)

Section RespectsFacts.
Import Py.
Context {S : Type} (R : S → S → Prop) `{!Reflexive R} `{!Transitive R}.

Lemma respects_ret {A} (a : A) : respects R (ret a).
Proof. intros s r s' [= _ <-]. reflexivity. Qed.

Lemma respects_raise {A} e : respects R (raise (A:=A) e).
Proof. intros s r s' [= _ <-]. reflexivity. Qed.

Lemma respects_gets {A} (f : S → A) : respects R (gets f).
Proof. intros s r s' [= _ <-]. reflexivity. Qed.

Lemma respects_bind {A B} (m : M S A) (k : A → M S B) :
  respects R m → (∀ a, respects R (k a)) → respects R (bind m k).
Proof.
  intros Hm Hk s r s'. unfold bind.
  destruct (m s) as [[a|e] s1] eqn:E; intros H.
  - etrans; [exact (Hm _ _ _ E) | exact (Hk _ _ _ _ H)].
  - injection H as _ <-. exact (Hm _ _ _ E).
Qed.

Lemma respects_try {A} (m : M S A) (h : exn → M S A) :
  respects R m → (∀ e, respects R (h e)) → respects R (try_except m h).
Proof.
  intros Hm Hh s r s'. unfold try_except.
  destruct (m s) as [[a|e] s1] eqn:E; intros H.
  - injection H as _ <-. exact (Hm _ _ _ E).
  - destruct (is_Exception e).
    + etrans; [exact (Hm _ _ _ E) | exact (Hh _ _ _ _ H)].
    + injection H as _ <-. exact (Hm _ _ _ E).
Qed.

Lemma respects_exec {A} (m : M S A) s : respects R m → R s (exec m s).
Proof. intros Hm. unfold exec. destruct (m s) as [r s'] eqn:E. exact (Hm _ _ _ E). Qed.

End RespectsFacts.

(** ** What the lifecycle methods leave alone *)

Section FrameFacts.
Import Json Py Os StateManager.

Lemma env_frame_refl ps ks : Reflexive (env_frame ps ks).
Proof. intros e. by repeat split. Qed.
#[local] Existing Instance env_frame_refl.

Lemma env_frame_trans ps ks : Transitive (env_frame ps ks).
Proof.
  intros a b c (F1 & F2 & F3 & F4 & F5 & F6) (G1 & G2 & G3 & G4 & G5 & G6).
  repeat split; try congruence.
  - intros p Hp. by rewrite G5, F5.
  - intros k Hk. by rewrite G6, F6.
Qed.
#[local] Existing Instance env_frame_trans.

Lemma frame_refl ps ks : Reflexive (frame ps ks).
Proof. intros w. apply env_frame_refl. Qed.
#[local] Existing Instance frame_refl.

Lemma frame_trans ps ks : Transitive (frame ps ks).
Proof. intros a b c. apply env_frame_trans. Qed.
#[local] Existing Instance frame_trans.

Lemma keeps_refl P : Reflexive (keeps P).
Proof. intros w H. exact H. Qed.
#[local] Existing Instance keeps_refl.

Lemma keeps_trans P : Transitive (keeps P).
Proof. intros a b c H1 H2 H. exact (H2 (H1 H)). Qed.
#[local] Existing Instance keeps_trans.

Lemma on_os_inv {A} (m : M Env A) w r w' :
  on_os m w = (r, w') → self w' = self w ∧ m (os w) = (r, os w').
Proof.
  unfold on_os, zoom. destruct (m (os w)) as [r1 e1].
  by intros [= <- <-].
Qed.

Lemma on_self_inv f w r w' :
  on_self f w = (r, w') → w' = mkWorld (f (self w)) (os w).
Proof. by intros [= _ <-]. Qed.

Lemma frame_on_os {A} ps ks (m : M Env A) :
  respects (env_frame ps ks) m → respects (frame ps ks) (on_os m).
Proof.
  intros Hm w r w' H. apply on_os_inv in H as [_ H].
  exact (Hm _ _ _ H).
Qed.

Lemma frame_on_self ps ks f : respects (frame ps ks) (on_self f).
Proof. intros w r w' H. apply on_self_inv in H as ->. apply env_frame_refl. Qed.

Lemma keeps_on_os {A} P (m : M Env A) : respects (keeps P) (on_os m).
Proof. intros w r w' H. apply on_os_inv in H as [E _]. unfold keeps. by rewrite E. Qed.

Lemma keeps_on_self (P : StateManager → Prop) f :
  (∀ m, P m → P (f m)) → respects (keeps P) (on_self f).
Proof. intros Hf w r w' H. apply on_self_inv in H as ->. exact (Hf _). Qed.

Lemma env_frame_exists ps ks p : respects (env_frame ps ks) (exists_ p).
Proof. apply respects_gets, _. Qed.

Lemma env_frame_time ps ks : respects (env_frame ps ks) time.
Proof. apply respects_gets, _. Qed.

Lemma env_frame_read ps ks p : respects (env_frame ps ks) (read_text p).
Proof.
  intros e r e'. unfold read_text.
  destruct (files e !! p); intros [= _ <-]; reflexivity.
Qed.

Lemma env_frame_write ps ks p t :
  p ∈ ps → respects (env_frame ps ks) (write_text p t).
Proof.
  intros Hp e r e'. unfold write_text.
  case_bool_decide; intros [= _ <-]; [reflexivity|].
  repeat split; simpl. intros q Hq.
  apply lookup_insert_ne. by intros ->.
Qed.

Lemma env_frame_unlink ps ks p :
  p ∈ ps → respects (env_frame ps ks) (unlink p).
Proof.
  intros Hp e r e'. unfold unlink.
  case_bool_decide; [intros [= _ <-]; reflexivity|].
  destruct (files e !! p); intros [= _ <-]; [|reflexivity].
  repeat split; simpl. intros q Hq.
  apply lookup_delete_ne. by intros ->.
Qed.

Lemma env_frame_uuid4 ps ks : respects (env_frame ps ks) uuid4.
Proof. by intros e r e' [= _ <-]. Qed.

End FrameFacts.

(** ** The lifecycle: frames, start-up, recovery and the main loop *)

Section LifecycleMore.
Import Json Py Os StateManager Main.

Variable dumps : json → string.
Variable loads : string → option json.

#[local] Existing Instance env_frame_refl.
#[local] Existing Instance env_frame_trans.
#[local] Existing Instance frame_refl.
#[local] Existing Instance frame_trans.
#[local] Existing Instance keeps_refl.
#[local] Existing Instance keeps_trans.

Create HintDb respects_db.

(** A literal that is not a member of a list of literals. *)
Ltac not_listed :=
  let H := fresh in
  intros H;
  repeat (apply elem_of_cons in H as [H|H]; [discriminate H|]);
  by apply elem_of_nil in H.

(** One structural step of a proof that a method stays within a
    relation. *)
Ltac respects_step :=
  first
    [ solve [auto with respects_db nocore]
    | match goal with
      | |- respects _ (ret _) => apply respects_ret; apply _
      | |- respects _ (raise _) => apply respects_raise; apply _
      | |- respects _ (gets _) => apply respects_gets; apply _
      | |- respects _ (try_except _ _) =>
          apply respects_try; [apply _ | | intros ?; cbv beta]
      | |- respects _ (bind _ _) =>
          apply respects_bind; [apply _ | | intros ?; cbv beta]
      | |- respects (frame _ _) (on_self _) => apply frame_on_self
      | |- respects (keeps _) (on_self _) =>
          apply keeps_on_self; intros ? ?; simpl; done
      | |- respects (keeps _) (on_os _) => apply keeps_on_os
      | |- respects (frame _ _) (on_os _) => apply frame_on_os
      | |- respects _ (exists_ _) => apply env_frame_exists
      | |- respects _ time => apply env_frame_time
      | |- respects _ (read_text _) => apply env_frame_read
      | |- respects _ uuid4 => apply env_frame_uuid4
      | |- respects _ (write_text _ _) => apply env_frame_write; set_solver
      | |- respects _ (unlink _) => apply env_frame_unlink; set_solver
      | |- respects _ (if ?b then _ else _) => destruct b
      | |- respects _ (match ?x with _ => _ end) => destruct x
      end ].

Ltac respects_steps :=
  unfold get_state; repeat first [respects_step | progress cbv zeta].

#[local] Abbreviation lifecycle := (frame lifecycle_files auth_keys).

Lemma frame_save_state : respects lifecycle (_save_state dumps).
Proof. unfold _save_state. respects_steps. Qed.
#[local] Hint Resolve frame_save_state : respects_db.

Lemma frame_set_state s : respects lifecycle (set_state dumps s).
Proof. unfold set_state. respects_steps; apply frame_save_state. Qed.
#[local] Hint Resolve frame_set_state : respects_db.

Lemma frame_regenerate : respects lifecycle _regenerate_client_id.
Proof. unfold _regenerate_client_id. respects_steps. Qed.
#[local] Hint Resolve frame_regenerate : respects_db.

Lemma frame_clear_auth : respects lifecycle _clear_auth_info.
Proof.
  intros w r w'. rewrite clear_auth_run. intros [= _ <-].
  repeat split; simpl. intros k Hk.
  rewrite cleared_lookup. by rewrite bool_decide_eq_false_2.
Qed.
#[local] Hint Resolve frame_clear_auth : respects_db.

Lemma frame_get_reinit_count : respects lifecycle (_get_reinit_count loads).
Proof. intros w r w'. rewrite get_reinit_count_run. intros [= _ <-]. reflexivity. Qed.
#[local] Hint Resolve frame_get_reinit_count : respects_db.

Lemma frame_save_reinit :
  respects lifecycle (_save_reinit_timestamp dumps loads).
Proof.
  unfold _save_reinit_timestamp. respects_steps.
Qed.
#[local] Hint Resolve frame_save_reinit : respects_db.

Lemma frame_reinitialize : respects lifecycle (reinitialize_device dumps loads).
Proof.
  unfold reinitialize_device, _reset_device_config. respects_steps.
Qed.
#[local] Hint Resolve frame_reinitialize : respects_db.

Lemma frame_handle_deleted :
  respects lifecycle (handle_device_deleted_response dumps loads).
Proof.
  unfold handle_device_deleted_response. respects_steps.
Qed.
#[local] Hint Resolve frame_handle_deleted : respects_db.

Lemma frame_record_reactivation :
  respects lifecycle (_record_reactivation dumps loads).
Proof.
  unfold _record_reactivation. respects_steps.
Qed.
#[local] Hint Resolve frame_record_reactivation : respects_db.

Lemma frame_handle_register_response d :
  respects lifecycle (handle_register_response dumps loads d).
Proof.
  unfold handle_register_response. respects_steps.
Qed.
#[local] Hint Resolve frame_handle_register_response : respects_db.

Lemma frame_attempt_recovery :
  respects lifecycle (_attempt_error_recovery dumps loads).
Proof.
  unfold _attempt_error_recovery, check_delete_marker. respects_steps.
Qed.
#[local] Hint Resolve frame_attempt_recovery : respects_db.

Lemma frame_should_auto_recover :
  respects lifecycle (_should_auto_recover_from_error dumps loads).
Proof.
  unfold _should_auto_recover_from_error. respects_steps.
Qed.
#[local] Hint Resolve frame_should_auto_recover : respects_db.

Lemma frame_should_stop :
  respects lifecycle (should_stop_registration dumps loads).
Proof.
  unfold should_stop_registration. respects_steps.
Qed.
#[local] Hint Resolve frame_should_stop : respects_db.

(** *** The retry counter *)

#[local] Abbreviation counter_zero := (keeps (λ m, error_retry_count m = 0)).

Lemma keeps_set_state s : respects counter_zero (set_state dumps s).
Proof.
  intros w r w'. destruct (decide (state (self w) = s)) as [E|E].
  - rewrite (set_state_same dumps w s E). by intros [= _ <-].
  - rewrite (set_state_run dumps w s E). intros [= _ <-] H.
    unfold entered. simpl. repeat case_bool_decide; simpl; done.
Qed.
#[local] Hint Resolve keeps_set_state : respects_db.

Lemma frame_force_reset : respects lifecycle (force_reset_error_state dumps).
Proof. unfold force_reset_error_state. respects_steps. Qed.
#[local] Hint Resolve frame_force_reset : respects_db.

Lemma frame_get_error_info : respects lifecycle get_error_info.
Proof. unfold get_error_info. respects_steps. Qed.
#[local] Hint Resolve frame_get_error_info : respects_db.

Lemma frame_load_state : respects lifecycle (_load_state dumps loads).
Proof. unfold _load_state. respects_steps. Qed.
#[local] Hint Resolve frame_load_state : respects_db.

Lemma keeps_save_state : respects counter_zero (_save_state dumps).
Proof. unfold _save_state. respects_steps. Qed.
#[local] Hint Resolve keeps_save_state : respects_db.

Lemma keeps_save_reinit :
  respects counter_zero (_save_reinit_timestamp dumps loads).
Proof. unfold _save_reinit_timestamp, _get_reinit_count. respects_steps. Qed.
#[local] Hint Resolve keeps_save_reinit : respects_db.

Lemma keeps_regenerate : respects counter_zero _regenerate_client_id.
Proof. unfold _regenerate_client_id. respects_steps. Qed.
#[local] Hint Resolve keeps_regenerate : respects_db.

Lemma keeps_clear_auth : respects counter_zero _clear_auth_info.
Proof. unfold _clear_auth_info. respects_steps. Qed.
#[local] Hint Resolve keeps_clear_auth : respects_db.

Lemma keeps_reinitialize :
  respects counter_zero (reinitialize_device dumps loads).
Proof. unfold reinitialize_device, _reset_device_config. respects_steps. Qed.
#[local] Hint Resolve keeps_reinitialize : respects_db.

Lemma keeps_handle_deleted :
  respects counter_zero (handle_device_deleted_response dumps loads).
Proof. unfold handle_device_deleted_response. respects_steps. Qed.
#[local] Hint Resolve keeps_handle_deleted : respects_db.

Lemma keeps_record_reactivation :
  respects counter_zero (_record_reactivation dumps loads).
Proof. unfold _record_reactivation, _get_reinit_count. respects_steps. Qed.
#[local] Hint Resolve keeps_record_reactivation : respects_db.

Lemma keeps_handle_register_response d :
  respects counter_zero (handle_register_response dumps loads d).
Proof. unfold handle_register_response. respects_steps. Qed.
#[local] Hint Resolve keeps_handle_register_response : respects_db.

Lemma keeps_attempt_recovery :
  respects counter_zero (_attempt_error_recovery dumps loads).
Proof. unfold _attempt_error_recovery, check_delete_marker. respects_steps. Qed.
#[local] Hint Resolve keeps_attempt_recovery : respects_db.

Lemma keeps_should_auto_recover :
  respects counter_zero (_should_auto_recover_from_error dumps loads).
Proof. unfold _should_auto_recover_from_error. respects_steps. Qed.
#[local] Hint Resolve keeps_should_auto_recover : respects_db.

Lemma keeps_should_stop :
  respects counter_zero (should_stop_registration dumps loads).
Proof. unfold should_stop_registration. respects_steps. Qed.
#[local] Hint Resolve keeps_should_stop : respects_db.

Lemma keeps_force_reset : respects counter_zero (force_reset_error_state dumps).
Proof. unfold force_reset_error_state. respects_steps. Qed.
#[local] Hint Resolve keeps_force_reset : respects_db.

Lemma keeps_create_marker : respects counter_zero create_delete_marker.
Proof. unfold create_delete_marker. respects_steps. Qed.
#[local] Hint Resolve keeps_create_marker : respects_db.

Lemma keeps_remove_marker : respects counter_zero remove_delete_marker.
Proof. unfold remove_delete_marker. respects_steps. Qed.
#[local] Hint Resolve keeps_remove_marker : respects_db.

Lemma keeps_reset_client : respects counter_zero reset_client.
Proof. unfold reset_client, remove_if_exists. respects_steps. Qed.
#[local] Hint Resolve keeps_reset_client : respects_db.

Lemma keeps_get_error_info : respects counter_zero get_error_info.
Proof. unfold get_error_info. respects_steps. Qed.
#[local] Hint Resolve keeps_get_error_info : respects_db.

Lemma keeps_load_state : respects counter_zero (_load_state dumps loads).
Proof. unfold _load_state. respects_steps. Qed.
#[local] Hint Resolve keeps_load_state : respects_db.


(** The three ways [__init__] can go. *)
Lemma init_cases m e :
  let fresh st e' := mkWorld (mkStateManager st 0 0) e' in
  __init__ dumps loads (mkWorld m e) = (Ok tt, fresh UNREGISTERED e) ∨
  (∃ text data st,
     files e !! state_file = Some text ∧ loads text = Some (JObj data) ∧
     of_value (default (JStr "unregistered") (dict_get "state" data)) = Some st ∧
     ((st = ERROR ∨ st = REGISTERING) ∧
      __init__ dumps loads (mkWorld m e)
      = (Ok tt, fresh UNREGISTERED (persisted dumps UNREGISTERED e)) ∨
      st ≠ ERROR ∧ st ≠ REGISTERING ∧
      __init__ dumps loads (mkWorld m e) = (Ok tt, fresh st e))).
Proof.
  intros fresh. unfold __init__, _load_state, try_except, bind, on_os, zoom,
    on_self, modify, exists_, gets, read_text, get_state. simpl.
  case_bool_decide as Hp; simpl; [|by left].
  destruct (files e !! state_file) as [text|] eqn:Ht; simpl; [|by left].
  destruct (loads text) as [[| | | | |data]|] eqn:Hl; simpl; try by left.
  destruct (of_value _) as [st|] eqn:Hv; simpl; [|by left].
  right. exists text, data, st. repeat split; try done.
  destruct st; simpl; try (right; by repeat split).
  - left. split; [by right|]. by rewrite save_state_run.
  - left. split; [by left|]. by rewrite save_state_run.
Qed.

Lemma of_value_value st : of_value (JStr (value st)) = Some st.
Proof. by destruct st. Qed.

Lemma init_loaded m e text data st :
  files e !! state_file = Some text →
  loads text = Some (JObj data) →
  dict_get "state" data = Some (JStr (value st)) →
  __init__ dumps loads (mkWorld m e)
  = (Ok tt,
     if bool_decide (st ∈ [ERROR; REGISTERING]) then
       mkWorld (mkStateManager UNREGISTERED 0 0) (persisted dumps UNREGISTERED e)
     else mkWorld (mkStateManager st 0 0) e).
Proof.
  intros Ht Hl Hd.
  unfold __init__, _load_state, try_except, bind, on_os, zoom,
    on_self, modify, exists_, gets, read_text, get_state. simpl.
  rewrite Ht. rewrite bool_decide_eq_true_2 by done. simpl.
  rewrite Ht. simpl. rewrite Hl. simpl.
  assert (of_value (default (JStr "unregistered") (dict_get "state" data))
          = Some st) as -> by (rewrite Hd; apply of_value_value).
  destruct st; simpl; try done; by rewrite save_state_run.
Qed.

(** X5 (state_manager.py, [__init__] and [_load_state]): a new manager
    always comes up, never in [ERROR] or [REGISTERING] and always with both
    error counters at zero, whatever the state file holds; without a state
    file, or with one that does not hold a JSON object, it comes up
    [UNREGISTERED] and writes nothing. *)
Theorem startup_never_resumes_transient (m : StateManager) (e : Env) :
  ∃ w', __init__ dumps loads (mkWorld m e) = (Ok tt, w') ∧
        state (self w') ≠ ERROR ∧ state (self w') ≠ REGISTERING ∧
        error_start_time (self w') = 0 ∧ error_retry_count (self w') = 0 ∧
        (files e !! state_file = None →
           w' = mkWorld (mkStateManager UNREGISTERED 0 0) e) ∧
        (∀ text, files e !! state_file = Some text →
           (∀ data, loads text ≠ Some (JObj data)) →
           w' = mkWorld (mkStateManager UNREGISTERED 0 0) e).
Proof.
  destruct (init_cases m e) as [E|(text & data & st & Ht & Hl & Hv & [[Hst E]|(H1 & H2 & E)])];
    rewrite E; eexists; (split; [reflexivity|]); simpl;
    repeat split; try done.
  - intros Hn. by rewrite Hn in Ht.
  - intros t Ht' Hno. rewrite Ht in Ht'. injection Ht' as <-.
    by destruct (Hno data).
  - intros Hn. by rewrite Hn in Ht.
  - intros t Ht' Hno. rewrite Ht in Ht'. injection Ht' as <-.
    by destruct (Hno data).
Qed.

(** X6 (state_manager.py, [set_state], [_save_state], [_load_state]): a
    state that was persisted survives a restart, except [ERROR] and
    [REGISTERING], which a restart turns into [UNREGISTERED]; the error
    counters never survive. *)
Theorem restart_round_trip (w : World) (s : ClientState) (m : StateManager)
    (data : list (string * json))
    (Hwritable : state_file ∉ faulty (os w))
    (Hchange : state (self w) ≠ s)
    (Hcodec : loads (dumps (state_record s (clock (os w)))) = Some (JObj data))
    (Hentry : dict_get "state" data = Some (JStr (value s))) :
  let w1 := exec (set_state dumps s) w in
  let w2 := exec (__init__ dumps loads) (mkWorld m (os w1)) in
  state (self w2)
  = (if bool_decide (s ∈ [ERROR; REGISTERING]) then UNREGISTERED else s) ∧
  error_start_time (self w2) = 0 ∧
  error_retry_count (self w2) = 0.
Proof.
  intros w1 w2. unfold w2, w1, exec.
  rewrite (set_state_run dumps w s Hchange). simpl.
  rewrite (init_loaded m _ (dumps (state_record s (clock (os w)))) data s); try done.
  - by case_bool_decide.
  - unfold persisted. rewrite bool_decide_eq_false_2 by done. simpl.
    apply lookup_insert_eq.
Qed.

(** X3 (state_manager.py, [set_state] and [_save_state]): a transition
    always ends normally with the requested state in memory; when the state
    file cannot be written nothing on disk changes, so memory and disk
    disagree from then on. *)
Theorem set_state_survives_disk_failure (w : World) (s : ClientState) :
  ∃ w', set_state dumps s w = (Ok tt, w') ∧
        state (self w') = s ∧
        (state_file ∈ faulty (os w) → os w' = os w) ∧
        (state_file ∉ faulty (os w) → state (self w) ≠ s →
           files (os w') !! state_file
           = Some (dumps (state_record s (clock (os w))))).
Proof.
  destruct (decide (state (self w) = s)) as [E|E].
  - rewrite (set_state_same dumps w s E). eexists. by repeat split.
  - rewrite (set_state_run dumps w s E). eexists. split; [reflexivity|].
    simpl. split; [apply state_entered|]. unfold persisted. split.
    + intros H. by rewrite bool_decide_eq_true_2.
    + intros H _. rewrite bool_decide_eq_false_2 by done. simpl.
      apply lookup_insert_eq.
Qed.

Lemma keeps_on_response tok r :
  respects counter_zero (on_response dumps loads tok r).
Proof. unfold on_response, on_200, on_403. respects_steps. Qed.
#[local] Hint Resolve keeps_on_response : respects_db.

Lemma keeps_register_loop n d tok reqs : ∀ k,
  respects counter_zero (register_loop dumps loads n d tok k reqs).
Proof.
  induction reqs as [|a reqs IH]; intros k; simpl; respects_steps.
Qed.
#[local] Hint Resolve keeps_register_loop : respects_db.

Lemma keeps_register_client n d reqs :
  respects counter_zero (register_client dumps loads n d reqs).
Proof. unfold register_client. respects_steps. Qed.
#[local] Hint Resolve keeps_register_client : respects_db.

Lemma keeps_loop_head : respects counter_zero (loop_head dumps loads).
Proof.
  unfold loop_head, should_enter_sleep_retry_mode, enter_sleep_retry_mode.
  respects_steps.
Qed.
#[local] Hint Resolve keeps_loop_head : respects_db.

Lemma keeps_perform c : respects counter_zero (perform dumps loads c).
Proof.
  destruct c; unfold perform, discard, should_stop_reporting,
    enter_sleep_retry_mode; respects_steps.
Qed.

Lemma keeps_run calls : ∀ w,
  error_retry_count (self w) = 0 →
  error_retry_count (self (run dumps loads calls w)) = 0.
Proof.
  induction calls as [|c calls IH]; intros w H; simpl; [done|].
  apply IH.
  by apply (respects_exec _ (perform dumps loads c) w (keeps_perform c)).
Qed.

(** X4 (state_manager.py, [set_state] and every caller): from the moment
    the manager is built, no sequence of calls on it ever makes
    [error_retry_count] differ from zero, because [set_state] increments it
    only on a transition from [ERROR] to [ERROR], which the guard
    [self.state != new_state] excludes.  The recovery trigger
    [error_retry_count >= 10] therefore never fires. *)
Theorem retry_counter_stays_zero (m : StateManager) (e : Env)
    (calls : list call) :
  let w := run dumps loads calls (exec (__init__ dumps loads) (mkWorld m e)) in
  error_retry_count (self w) = 0 ∧
  (MAX_ERROR_RETRIES <=? error_retry_count (self w)) = false.
Proof.
  intros w.
  assert (error_retry_count (self w) = 0) as ->; [|done].
  apply keeps_run. unfold exec.
  destruct (init_cases m e)
    as [E|(? & ? & ? & _ & _ & _ & [[_ E]|(_ & _ & E)])]; by rewrite E.
Qed.

(** X7 (state_manager.py, [handle_device_deleted_response],
    [reinitialize_device], [_should_auto_recover_from_error],
    [handle_register_response]): whether they succeed or fail, these
    methods end normally or by an exception already handled inside, and they
    change nothing but the four lifecycle files, the three authentication
    keys of [RUNTIME_CONFIG] and the number of UUIDs drawn.  In particular
    they never touch the delete marker, the cache database, the clock or the
    monitoring settings. *)
Theorem lifecycle_methods_frame (w : World) :
  let unchanged w' := frame lifecycle_files auth_keys w w' in
  unchanged (exec (handle_device_deleted_response dumps loads) w) ∧
  unchanged (exec (reinitialize_device dumps loads) w) ∧
  unchanged (exec (should_stop_registration dumps loads) w) ∧
  (∀ d, unchanged (exec (handle_register_response dumps loads d) w)) ∧
  (∀ w', unchanged w' →
     files (os w') !! delete_marker_file = files (os w) !! delete_marker_file ∧
     files (os w') !! ConfigConstants.DB_PATH
       = files (os w) !! ConfigConstants.DB_PATH ∧
     clock (os w') = clock (os w) ∧
     RUNTIME_CONFIG (os w') !! "is_active" = RUNTIME_CONFIG (os w) !! "is_active" ∧
     RUNTIME_CONFIG (os w') !! "monitor_items"
       = RUNTIME_CONFIG (os w) !! "monitor_items" ∧
     RUNTIME_CONFIG (os w') !! "report_interval"
       = RUNTIME_CONFIG (os w) !! "report_interval").
Proof.
  intros unchanged. unfold unchanged.
  split; [apply respects_exec; auto with respects_db nocore|].
  split; [apply respects_exec; auto with respects_db nocore|].
  split; [apply respects_exec; auto with respects_db nocore|].
  split; [intros d; apply respects_exec; auto with respects_db nocore|].
  intros w' (_ & Hc & _ & _ & Hf & Hk).
  repeat split; try done; first [apply Hf | apply Hk];
    unfold lifecycle_files, auth_keys; not_listed.
Qed.

(** X8 (heartbeat.py [should_send_heartbeat] after state_manager.py
    [handle_device_deleted_response]): a deletion followed by
    reinitialisation, successful or not, does not change the heartbeat
    decision, which reads only keys the reinitialisation leaves alone. *)
Theorem heartbeat_decision_survives_reinitialization
    (fromisoformat : string → option Datetime.datetime) (w : World)
    (monitor_config : MonitorConfig.MonitorConfig) (c : Datetime.Clock) :
  let w' := exec (handle_device_deleted_response dumps loads) w in
  Heartbeat.should_send_heartbeat fromisoformat (RUNTIME_CONFIG (os w'))
    monitor_config c
  = Heartbeat.should_send_heartbeat fromisoformat (RUNTIME_CONFIG (os w))
      monitor_config c.
Proof.
  intros w'.
  assert (frame lifecycle_files auth_keys w w') as (_ & _ & _ & _ & _ & Hk)
    by (apply respects_exec; auto with respects_db nocore).
  unfold Heartbeat.should_send_heartbeat, Config.is_server_active,
    Config.is_monitoring_enabled.
  rewrite (Hk "is_active") by (unfold auth_keys; not_listed).
  rewrite (Hk "monitor_items") by (unfold auth_keys; not_listed).
  done.
Qed.

Lemma should_stop_cases w :
  (should_stop_registration dumps loads w = (Ok true, w) ∧
   state (self w) = ERROR ∧
   clock (os w) - error_start_time (self w) < MAX_ERROR_DURATION ∧
   error_retry_count (self w) < MAX_ERROR_RETRIES) ∨
  (∃ w', should_stop_registration dumps loads w = (Ok false, w') ∧
         (state (self w) ≠ ERROR ∧ w' = w ∨
          state (self w) = ERROR ∧
          (MAX_ERROR_DURATION ≤ clock (os w) - error_start_time (self w) ∨
           MAX_ERROR_RETRIES ≤ error_retry_count (self w)))).
Proof.
  unfold should_stop_registration, bind, get_state, gets.
  case_bool_decide as E.
  - rewrite (should_auto_recover_run dumps loads w E).
    destruct (_ || _) eqn:C.
    + right. eexists. split; [reflexivity|]. right. split; [done|].
      apply orb_true_iff in C as [C|C]; [left|right]; lia.
    + left. apply orb_false_iff in C as [C1 C2].
      repeat split; try done; lia.
  - right. exists w. split; [done|]. by left.
Qed.

Lemma get_error_info_run w :
  ∃ info, get_error_info w = (Ok info, w) ∧
    (state (self w) ≠ ERROR → info = [("in_error", JBool false)]) ∧
    (state (self w) = ERROR →
       let d := if 0 <? error_start_time (self w)
                then clock (os w) - error_start_time (self w) else 0 in
       dict_get "in_error" info = Some (JBool true) ∧
       dict_get "error_duration" info = Some (JNum d) ∧
       dict_get "auto_recovery_in" info = Some (JNum (Z.max 0 (300 - d)))).
Proof.
  destruct w as [m e].
  unfold get_error_info, bind, get_state, gets, on_os, zoom, time. simpl.
  case_bool_decide as E; eexists; (split; [reflexivity|]); split; try done.
Qed.

(** X9 (state_manager.py, [get_error_info] against
    [_should_auto_recover_from_error]): in [ERROR] with a recorded start
    time, the countdown [auto_recovery_in] the diagnostics announce is the
    time left to the recovery by duration: when it is zero the next check
    recovers, and when it is positive (and the retry counter is below its
    bound) the next check changes nothing and asks to stop. *)
Theorem error_info_matches_recovery (w : World)
    (Herror : state (self w) = ERROR)
    (Hstarted : 0 < error_start_time (self w)) :
  ∃ info remaining,
    get_error_info w = (Ok info, w) ∧
    dict_get "auto_recovery_in" info = Some (JNum remaining) ∧
    remaining = Z.max 0 (300 - (clock (os w) - error_start_time (self w))) ∧
    (remaining = 0 →
       outcome (should_stop_registration dumps loads) w = Ok false) ∧
    (0 < remaining → error_retry_count (self w) < MAX_ERROR_RETRIES →
       should_stop_registration dumps loads w = (Ok true, w)).
Proof.
  destruct (get_error_info_run w) as (info & E & _ & H).
  destruct (H Herror) as (_ & _ & Hr). clear H.
  assert ((0 <? error_start_time (self w)) = true) as Hs by lia.
  rewrite Hs in Hr.
  eexists info, _. split; [exact E|]. split; [exact Hr|]. split; [done|].
  unfold MAX_ERROR_DURATION, MAX_ERROR_RETRIES in *.
  destruct (should_stop_cases w)
    as [(E1 & _ & H1 & H2)|(w' & E1 & [[H1 _]|(_ & H1)])];
    unfold MAX_ERROR_DURATION, MAX_ERROR_RETRIES in *.
  - split; [lia|]. done.
  - done.
  - unfold outcome. rewrite E1. split; [done|]. lia.
Qed.

Lemma create_marker_run w :
  create_delete_marker w
  = (Ok tt,
     if bool_decide (delete_marker_file ∈ faulty (os w)) then w
     else mkWorld (self w)
            (set_files (<[delete_marker_file :=
                           "deleted_at_" +:+ str_int (clock (os w))]>
                          (files (os w))) (os w))).
Proof.
  destruct w as [m e].
  unfold create_delete_marker, try_except, bind, on_os, zoom, time, gets,
    write_text. simpl.
  by case_bool_decide.
Qed.

Lemma remove_marker_run w :
  remove_delete_marker w
  = (Ok tt,
     if bool_decide (is_Some (files (os w) !! delete_marker_file)) then
       if bool_decide (delete_marker_file ∈ faulty (os w)) then w
       else mkWorld (self w)
              (set_files (delete delete_marker_file (files (os w))) (os w))
     else w).
Proof.
  destruct w as [m e].
  unfold remove_delete_marker, try_except, bind, on_os, zoom, exists_, gets,
    unlink. simpl.
  case_bool_decide as Hp; simpl; [|done].
  case_bool_decide; simpl; [done|].
  destruct Hp as [t Hp]. by rewrite Hp.
Qed.

Lemma check_marker_run w :
  check_delete_marker w
  = (Ok (bool_decide (is_Some (files (os w) !! delete_marker_file))), w).
Proof. by destruct w. Qed.

(** X10 (state_manager.py, [create_delete_marker], [check_delete_marker],
    [remove_delete_marker]): on a writable disk the marker is there after it
    was created and gone after it was removed, and the pair changes no other
    file and nothing of the manager; neither method ever raises. *)
Theorem delete_marker_round_trip (w : World)
    (Hwritable : delete_marker_file ∉ faulty (os w)) :
  let created := exec create_delete_marker w in
  let removed := exec remove_delete_marker created in
  outcome create_delete_marker w = Ok tt ∧
  outcome check_delete_marker created = Ok true ∧
  files (os created) !! delete_marker_file
    = Some ("deleted_at_" +:+ str_int (clock (os w))) ∧
  outcome remove_delete_marker created = Ok tt ∧
  outcome check_delete_marker removed = Ok false ∧
  self removed = self w ∧
  (∀ p, p ≠ delete_marker_file →
        files (os removed) !! p = files (os w) !! p).
Proof.
  intros created removed.
  assert (created
          = mkWorld (self w)
              (set_files (<[delete_marker_file :=
                             "deleted_at_" +:+ str_int (clock (os w))]>
                            (files (os w))) (os w))) as Hc.
  { unfold created, exec. rewrite create_marker_run. simpl.
    by rewrite bool_decide_eq_false_2. }
  assert (removed
          = mkWorld (self w)
              (set_files (delete delete_marker_file (files (os created)))
                 (os created))) as Hr.
  { unfold removed, exec. rewrite remove_marker_run. simpl.
    rewrite Hc. simpl. rewrite lookup_insert_eq.
    rewrite bool_decide_eq_true_2 by done.
    by rewrite bool_decide_eq_false_2. }
  repeat split.
  - unfold outcome. by rewrite create_marker_run.
  - unfold outcome. rewrite check_marker_run. simpl. rewrite Hc. simpl.
    rewrite lookup_insert_eq. by rewrite bool_decide_eq_true_2.
  - rewrite Hc. simpl. apply lookup_insert_eq.
  - unfold outcome. by rewrite remove_marker_run.
  - unfold outcome. rewrite check_marker_run. simpl. rewrite Hr. simpl.
    rewrite lookup_delete_eq.
    rewrite bool_decide_eq_false_2; [done|]. by intros [? ?].
  - by rewrite Hr.
  - intros p Hp. rewrite Hr, Hc. simpl.
    rewrite lookup_delete_ne by done. by rewrite lookup_insert_ne.
Qed.

(** X11 (state_manager.py, module function [check_and_handle_deletion]):
    the function never returns [True]: without a marker it returns [False],
    and with a marker it raises [AttributeError], because it calls a method
    [handle_deletion] that [StateManager] does not have. *)
Theorem check_and_handle_deletion_never_true (m : StateManager) (e : Env) :
  let r := outcome (check_and_handle_deletion dumps loads) (mkWorld m e) in
  r ≠ Ok true ∧
  (is_Some (files e !! delete_marker_file) → r = Raise AttributeError) ∧
  (files e !! delete_marker_file = None → r = Ok false).
Proof.
  intros r.
  assert (∃ st e', __init__ dumps loads (mkWorld m e)
                   = (Ok tt, mkWorld st e') ∧
                   files e' !! delete_marker_file
                   = files e !! delete_marker_file) as (st & e' & E & Hf).
  { destruct (init_cases m e)
      as [E|(? & ? & ? & _ & _ & _ & [[_ E]|(_ & _ & E)])];
      eexists _, _; (split; [exact E|]); try done.
    by apply persisted_facts. }
  assert (r = if bool_decide (is_Some (files e !! delete_marker_file))
              then Raise AttributeError else Ok false) as ->.
  { unfold r, outcome, check_and_handle_deletion, bind. rewrite E.
    unfold check_delete_marker, on_os, zoom, exists_, gets. simpl.
    rewrite Hf. by case_bool_decide. }
  repeat split.
  - by case_bool_decide.
  - intros H. by rewrite bool_decide_eq_true_2.
  - intros H. rewrite bool_decide_eq_false_2; [done|].
    rewrite H. by intros [? ?].
Qed.

(** X13 (main.py, the first lines of the outer loop of [main];
    state_manager.py, [should_enter_sleep_retry_mode]): a pass of the loop
    never enters the sleep-retry mode.  It either waits 5 seconds in [ERROR]
    or sets [REGISTERING], and the test for [REINITIALIZED] or [SLEEP_RETRY]
    that follows reads the state just set. *)
Theorem loop_head_never_enters_sleep_retry (w : World) :
  ∃ h w', loop_head dumps loads w = (Ok h, w') ∧
    h ≠ SleepRetry ∧
    (h = Waited →
       state (self w) = ERROR ∧ self w' = self w ∧
       clock (os w') = clock (os w) + TimingConfig.ERROR_STATE_RETRY_INTERVAL) ∧
    (h = Register → state (self w') = REGISTERING).
Proof.
  unfold loop_head.
  destruct (should_stop_cases w) as [(E & Hst & _)|(w1 & E & _)];
    unfold bind at 1; rewrite E.
  - unfold bind at 1. unfold get_state at 1, gets.
    rewrite bool_decide_eq_true_2 by done.
    destruct (get_error_info_run w) as (info & Ei & _).
    unfold bind. rewrite Ei.
    eexists Waited, _. split; [reflexivity|]. simpl. by repeat split.
  - destruct (set_state_ok dumps w1 REGISTERING) as (w2 & E2).
    pose proof (set_state_state dumps _ _ _ E2) as Hst.
    unfold bind. rewrite E2.
    unfold should_enter_sleep_retry_mode, bind, get_state, gets, ret.
    rewrite Hst. rewrite bool_decide_eq_false_2.
    + eexists Register, _. split; [reflexivity|]. by repeat split.
    + intros H. apply elem_of_cons in H as [H|H]; [done|].
      apply elem_of_cons in H as [H|H]; [done|]. by apply elem_of_nil in H.
Qed.

(** *** After the identifier was rotated *)

#[local] Abbreviation after_rotation :=
  (frame [state_file; reinit_file] auth_keys).

Lemma rotation_set_state s : respects after_rotation (set_state dumps s).
Proof. unfold set_state, _save_state. respects_steps. Qed.
#[local] Hint Resolve rotation_set_state : respects_db.

Lemma rotation_clear_auth : respects after_rotation _clear_auth_info.
Proof.
  intros w r w'. rewrite clear_auth_run. intros [= _ <-].
  repeat split; simpl. intros k Hk.
  rewrite cleared_lookup. by rewrite bool_decide_eq_false_2.
Qed.
#[local] Hint Resolve rotation_clear_auth : respects_db.

Lemma rotation_save_reinit :
  respects after_rotation (_save_reinit_timestamp dumps loads).
Proof.
  unfold _save_reinit_timestamp, _get_reinit_count. respects_steps.
Qed.
#[local] Hint Resolve rotation_save_reinit : respects_db.

Lemma on_os_eta {A} (m : M Env A) w a :
  m (os w) = (Ok a, os w) → on_os m w = (Ok a, w).
Proof. unfold on_os, zoom. intros ->. by destruct w. Qed.


End LifecycleMore.

(** ** Resetting the client *)

Section ResetFacts.
Import Json Py Os StateManager Main.

Lemma remove_if_exists_ok p w :
  ¬ blocked p (os w) → remove_if_exists p w = (Ok tt, without p w).
Proof.
  destruct w as [m e]. unfold blocked, without. simpl. intros Hb.
  unfold remove_if_exists, bind, on_os, zoom, exists_, gets, unlink. simpl.
  case_bool_decide as Hp; simpl.
  - rewrite bool_decide_eq_false_2 by tauto.
    destruct Hp as [t Hp]. by rewrite Hp.
  - assert (files e !! p = None) as Hn.
    { destruct (files e !! p) eqn:E; [|done]. destruct Hp. by eexists. }
    rewrite delete_id by done. by destruct e.
Qed.

Lemma remove_if_exists_blocked p w :
  blocked p (os w) → remove_if_exists p w = (Raise OSError, w).
Proof.
  destruct w as [m e]. intros [Hp Hf]. simpl in *.
  unfold remove_if_exists, bind, on_os, zoom, exists_, gets, unlink. simpl.
  rewrite bool_decide_eq_true_2 by done. simpl.
  by rewrite bool_decide_eq_true_2.
Qed.

Lemma blocked_without q p w :
  p ≠ q → blocked p (os (without q w)) ↔ blocked p (os w).
Proof.
  intros Hne. unfold blocked, without. simpl.
  by rewrite lookup_delete_ne.
Qed.

Lemma remove_marker_cases w :
  remove_delete_marker w
  = (Ok tt, if bool_decide (blocked delete_marker_file (os w)) then w
            else without delete_marker_file w).
Proof.
  rewrite remove_marker_run. f_equal. unfold blocked, without.
  repeat case_bool_decide; try done; try tauto.
  assert (files (os w) !! delete_marker_file = None) as Hn.
  { destruct (files (os w) !! delete_marker_file) eqn:E; [|done].
    exfalso. eauto. }
  rewrite delete_id by done. by destruct w as [m []].
Qed.

(** X12 (state_manager.py, [reset_client]): the reset never raises and
    never touches the error counters.  When none of the state file, the
    identifier file and the cache database is blocked, all three are gone
    afterwards (and the delete marker too, unless it is blocked) and the
    state is [UNREGISTERED]; when one of them is blocked the manager is left
    as it was, although the files before the blocked one are already
    removed.  No other file changes. *)
Theorem reset_client_effect (w : World) :
  let targets := [state_file; client_id_file; ConfigConstants.DB_PATH] in
  ∃ w', reset_client w = (Ok tt, w') ∧
    error_start_time (self w') = error_start_time (self w) ∧
    error_retry_count (self w') = error_retry_count (self w) ∧
    ((∀ p, p ∈ targets → ¬ blocked p (os w)) →
       state (self w') = UNREGISTERED ∧
       (∀ p, p ∈ targets → files (os w') !! p = None) ∧
       (¬ blocked delete_marker_file (os w) →
          files (os w') !! delete_marker_file = None)) ∧
    ((∃ p, p ∈ targets ∧ blocked p (os w)) → self w' = self w) ∧
    (∀ p, p ∉ delete_marker_file :: targets →
          files (os w') !! p = files (os w) !! p).
Proof.
  intros targets.
  assert (∀ p, p ∈ targets →
            p = state_file ∨ p = client_id_file ∨ p = ConfigConstants.DB_PATH)
    as Htargets.
  { intros p Hp. unfold targets in Hp.
    repeat (apply elem_of_cons in Hp as [Hp|Hp]); auto.
    by apply elem_of_nil in Hp. }
  assert (∀ p, p ∉ delete_marker_file :: targets →
            p ≠ delete_marker_file ∧ p ≠ state_file ∧ p ≠ client_id_file ∧
            p ≠ ConfigConstants.DB_PATH) as Hothers.
  { intros p Hp. unfold targets in Hp.
    repeat (apply not_elem_of_cons in Hp as [? Hp]). done. }
  assert (∀ p, p = state_file ∨ p = client_id_file ∨ p = ConfigConstants.DB_PATH →
            p ∈ targets) as Hin.
  { intros p [-> | [-> | ->]]; unfold targets;
      repeat first [apply list_elem_of_here | apply list_elem_of_further]. }
  unfold reset_client, try_except, bind.
  destruct (decide (blocked state_file (os w))) as [B1|B1].
  { rewrite (remove_if_exists_blocked _ _ B1). simpl. exists w.
    refine (conj eq_refl (conj eq_refl (conj eq_refl (conj _ (conj _ _)))));
      try done.
    intros Hnb. destruct (Hnb state_file); auto. }
  rewrite (remove_if_exists_ok _ _ B1).
  destruct (decide (blocked client_id_file (os w))) as [B2|B2].
  { rewrite remove_if_exists_blocked by (by apply blocked_without). simpl.
    eexists.
    refine (conj eq_refl (conj eq_refl (conj eq_refl (conj _ (conj _ _)))));
      simpl; try done.
    - intros Hnb. destruct (Hnb client_id_file); auto.
    - intros p Hp. apply Hothers in Hp as (? & ? & ? & ?).
      by apply lookup_delete_ne. }
  rewrite remove_if_exists_ok by (by rewrite blocked_without).
  destruct (decide (blocked ConfigConstants.DB_PATH (os w))) as [B3|B3].
  { rewrite remove_if_exists_blocked by (by rewrite !blocked_without). simpl.
    eexists.
    refine (conj eq_refl (conj eq_refl (conj eq_refl (conj _ (conj _ _)))));
      simpl; try done.
    - intros Hnb. destruct (Hnb ConfigConstants.DB_PATH); auto.
    - intros p Hp. apply Hothers in Hp as (? & ? & ? & ?).
      by rewrite !lookup_delete_ne. }
  rewrite remove_if_exists_ok by (by rewrite !blocked_without).
  assert (∀ fs : gmap string string, ∀ p, p ∈ targets →
            delete ConfigConstants.DB_PATH
              (delete client_id_file (delete state_file fs)) !! p = None)
    as Hgone.
  { intros fs p Hp. apply Htargets in Hp as [-> | [-> | ->]].
    - rewrite !lookup_delete_ne by done. apply lookup_delete_eq.
    - rewrite lookup_delete_ne by done. apply lookup_delete_eq.
    - apply lookup_delete_eq. }
  rewrite remove_marker_cases.
  assert (blocked delete_marker_file
            (os (without ConfigConstants.DB_PATH
                   (without client_id_file (without state_file w))))
          ↔ blocked delete_marker_file (os w)) as Hmarker
    by (by rewrite !blocked_without).
  destruct (bool_decide (blocked delete_marker_file
            (os (without ConfigConstants.DB_PATH
                   (without client_id_file (without state_file w))))))
    eqn:B4; simpl.
  all: eexists;
    refine (conj eq_refl (conj eq_refl (conj eq_refl (conj _ (conj _ _)))));
    simpl.
  - intros _. split; [done|]. split; [intros p Hp; by apply Hgone|].
    intros Hb. apply bool_decide_eq_true in B4. tauto.
  - intros (p & Hp & Hb). apply Htargets in Hp as [-> | [-> | ->]]; done.
  - intros p Hp. apply Hothers in Hp as (? & ? & ? & ?).
    by rewrite !lookup_delete_ne.
  - intros _. split; [done|]. split.
    + intros p Hp.
      pose proof (Htargets p Hp) as [-> | [-> | ->]];
        (rewrite lookup_delete_ne by done); by apply Hgone.
    + intros _. apply lookup_delete_eq.
  - intros (p & Hp & Hb). apply Htargets in Hp as [-> | [-> | ->]]; done.
  - intros p Hp. apply Hothers in Hp as (? & ? & ? & ?).
    by rewrite !lookup_delete_ne.
Qed.

End ResetFacts.

(** ** What [register_client] returns *)

Section RegistrationMore.
Import Json Py Os StateManager Main.

Variable dumps : json → string.
Variable loads : string → option json.

Lemma on_response_accepted_token tok r w :
  tok ≠ "" → accepted_with tok r →
  ∃ cfg, on_response dumps loads tok r w = (Ok (Return (Some cfg)), w) ∧
         dict_get "status" cfg = Some (JStr "accepted") ∧
         dict_get "auth_token" cfg = Some (JStr tok).
Proof.
  intros Htok (config & -> & Hstatus & Htoken & Hfields & Hitems).
  unfold on_response. change (200 =? 200) with true. cbv iota. unfold on_200.
  rewrite Hstatus, Htoken.
  change (opt_eq_str (Some (JStr "accepted")) "pending") with false.
  change (opt_eq_str (Some (JStr "accepted")) "rejected") with false.
  change (opt_eq_str (Some (JStr "accepted")) "deleted") with false.
  change (opt_eq_str (Some (JStr "accepted")) "accepted") with true.
  change (truthy_opt (Some (JStr tok))) with (negb (String.eqb tok "")).
  change (opt_eq_str (Some (JStr tok)) tok) with (String.eqb tok tok).
  cbv iota.
  apply String.eqb_neq in Htok. rewrite Htok, String.eqb_refl. cbn [negb].
  assert (H1 : missing_in (JObj config) required_fields = Some []).
  { apply missing_in_nil. intros f Hf. apply contains_str_dict. by apply Hfields. }
  rewrite H1.
  destruct (Hfields "monitor_items") as [items Hget]; [set_solver|].
  rewrite Hget. change (default (JObj []) (Some items)) with items.
  assert (H2 : missing_in items required_monitors = Some []).
  { apply missing_in_nil. by apply Hitems. }
  rewrite H2. eexists. repeat split; reflexivity.
Qed.

Lemma on_response_returned tok r w cfg w' :
  tok ≠ "" →
  on_response dumps loads tok r w = (Ok (Return (Some cfg)), w') →
  returned_config tok w w' cfg.
Proof.
  intros Htok E.
  destruct (on_response_other dumps loads tok r w) as [Hacc|(fl & w1 & E1 & H)].
  - destruct (on_response_accepted_token tok r w Htok Hacc) as (c & Ec & H1 & H2).
    rewrite Ec in E. injection E as <- <-. right. right. done.
  - rewrite E1 in E. injection E as -> ->.
    destruct H as [[H ->]|[H Hst]]; [by left|right; by left].
Qed.

Lemma on_response_fallthrough tok r w w' :
  tok ≠ "" →
  on_response dumps loads tok r w = (Ok Fallthrough, w') → w' = w.
Proof.
  intros Htok E.
  destruct (on_response_other dumps loads tok r w) as [Hacc|(fl & w1 & E1 & H)].
  - destruct (on_response_accepted_token tok r w Htok Hacc) as (c & Ec & _).
    rewrite Ec in E. done.
  - rewrite E1 in E. injection E as -> ->. by destruct H.
Qed.

Lemma register_loop_returned n d tok reqs : ∀ k w cfg w',
  tok ≠ "" →
  register_loop dumps loads n d tok k reqs w = (Ok (Returned (Some cfg)), w') →
  returned_config tok w w' cfg.
Proof.
  induction reqs as [|a reqs IH]; intros k w cfg w' Htok; simpl; [done|].
  unfold bind at 1.
  destruct (on_response dumps loads tok (result a) w) as [[[c|]|e] w1] eqn:E;
    [| |done].
  - intros [= -> <-]. by apply on_response_returned in E.
  - apply on_response_fallthrough in E as ->; [|done].
    destruct (_ && _); [done|]. destruct (interrupted a); [done|].
    unfold bind at 1. simpl. intros H. apply IH in H; [|done].
    exact H.
Qed.

Lemma get_client_id_frame e r e' :
  Identity.get_client_id e = (r, e') →
  SERVER_SECRET_KEY e' = SERVER_SECRET_KEY e.
Proof.
  unfold Identity.get_client_id, bind, exists_, gets, read_text, uuid4,
    write_text, ret.
  case_bool_decide as Hp.
  - destruct (files e !! Identity._ID_FILE) as [text|]; [|by intros [= _ <-]].
    destruct (negb _); [by intros [= _ <-]|]. simpl.
    case_bool_decide; by intros [= _ <-].
  - simpl. case_bool_decide; by intros [= _ <-].
Qed.

Lemma get_auth_token_inv e tok e' :
  Identity.get_auth_token e = (Ok tok, e') →
  ∃ cid, Identity.get_client_id e = (Ok cid, e') ∧
         tok = Identity.generate_token (SERVER_SECRET_KEY e') cid.
Proof.
  unfold Identity.get_auth_token. intros H.
  apply bind_ok_inv in H as (cid & e1 & E1 & H).
  unfold bind, gets, ret in H. injection H as <- <-. by exists cid.
Qed.

Lemma on_os_ok_inv {A} (m : M Env A) w a w' :
  on_os m w = (Ok a, w') → self w' = self w ∧ m (os w) = (Ok a, os w').
Proof.
  unfold on_os, zoom. destruct (m (os w)) as [r e1]. by intros [= -> <-].
Qed.


Lemma register_loop_bounded d tok rest reqs : ∀ k w,
  0 ≤ k → reqs ≠ [] → Forall retried reqs →
  register_loop dumps loads (k + Z.of_nat (length reqs)) d tok k
                (reqs ++ rest) w
  = (Ok (Returned None),
     waited ((Z.of_nat (length reqs) - 1) * d) w).
Proof.
  induction reqs as [|a reqs IH]; intros k w Hk Hne Hall; [done|].
  apply Forall_cons in Hall as [Ha Hall].
  cbn [app register_loop]. unfold bind at 1.
  rewrite on_response_retried by done. cbv iota.
  destruct reqs as [|b reqs].
  - change (Z.of_nat (length [a])) with 1.
    assert ((0 <? k + 1) = true) as -> by lia.
    assert ((k + 1 <=? k + 1) = true) as -> by lia. cbn [andb].
    replace ((1 - 1) * d) with 0 by lia. by rewrite waited_0.
  - assert ((k + Z.of_nat (length (a :: b :: reqs)) <=? k + 1) = false) as ->
      by (apply Z.leb_gt; cbn [length]; lia).
    rewrite andb_false_r.
    destruct Ha as [-> _]. unfold bind. simpl on_os.
    change (on_os (sleep d) w) with (Ok tt, waited d w).
    cbv iota beta.
    replace (k + Z.of_nat (length (a :: b :: reqs)))
      with (k + 1 + Z.of_nat (length (b :: reqs))) by (cbn [length]; lia).
    rewrite IH by (done || lia).
    rewrite waited_waited. do 2 f_equal. cbn [length]. lia.
Qed.

(** X19 (main.py, [register_client] with [max_retries > 0]): when every
    request fails in transport or is answered [pending] and no wait is
    interrupted, the function returns [None] after exactly [max_retries]
    requests and [max_retries - 1] waits of [retry_interval] seconds, and
    the manager is left as it was. *)
Theorem register_client_gives_up (max_retries retry_interval : Z)
    (reqs rest : list attempt) (w : World) (cid : string)
    (Hid : files (os w) !! Identity._ID_FILE = Some cid)
    (Hcid : strip cid ≠ "")
    (Hbound : 0 < max_retries)
    (Hcount : Z.of_nat (length reqs) = max_retries)
    (Hall : Forall retried reqs) :
  register_client dumps loads max_retries retry_interval (reqs ++ rest) w
  = (Ok (Returned None), waited ((max_retries - 1) * retry_interval) w).
Proof.
  unfold register_client, bind, on_os, zoom.
  rewrite (get_client_id_present _ _ Hid Hcid).
  destruct w as [m e]. simpl in *.
  rewrite (get_auth_token_present _ _ Hid Hcid).
  pose proof (register_loop_bounded retry_interval
                (Identity.generate_token (SERVER_SECRET_KEY e) (strip cid))
                rest reqs 0 (mkWorld m e)) as H.
  rewrite Z.add_0_l, Hcount in H. apply H; [lia| |done].
  intros ->. simpl in Hcount. lia.
Qed.

(** X20 (main.py, [register_client], the branch for status code 403): a
    403 answer whose body is not a JSON object makes [register_client]
    raise [NameError] and changes nothing: the handler of that branch names
    [json.JSONDecodeError], and [main.py] does not import [json]. *)
Theorem register_client_403_raises_NameError (max_retries retry_interval : Z)
    (body : option json) (halted : bool) (rest : list attempt)
    (w : World) (cid : string)
    (Hid : files (os w) !! Identity._ID_FILE = Some cid)
    (Hcid : strip cid ≠ "")
    (Hbody : ∀ error_data, body ≠ Some (JObj error_data)) :
  register_client dumps loads max_retries retry_interval
    (mkAttempt (Response 403 body) halted :: rest) w
  = (Raise NameError, w).
Proof.
  unfold register_client, bind, on_os, zoom.
  rewrite (get_client_id_present _ _ Hid Hcid).
  destruct w as [m e]. simpl in *.
  rewrite (get_auth_token_present _ _ Hid Hcid).
  unfold bind. simpl.
  destruct body as [[| | | | |error_data]|]; try done.
  by destruct (Hbody error_data).
Qed.

End RegistrationMore.

(** ** The identifier on disk *)

Section IdentityMore.
Import Json Py Os StateManager Main.

Variable dumps : json → string.
Variable loads : string → option json.

#[local] Existing Instance env_frame_refl.
#[local] Existing Instance env_frame_trans.
#[local] Existing Instance frame_refl.
#[local] Existing Instance frame_trans.

(** X1 (identity.py, [get_client_id] and [get_auth_token]): once
    [get_client_id] has returned an identifier without surrounding white
    space, every further call returns the same identifier and changes
    nothing, and [get_auth_token] returns the credential of that
    identifier. *)
Theorem get_client_id_idempotent (e e' : Env) (cid : string)
    (Hrun : Identity.get_client_id e = (Ok cid, e'))
    (Hclean : strip cid = cid)
    (Hnonempty : cid ≠ "") :
  Identity.get_client_id e' = (Ok cid, e') ∧
  Identity.get_auth_token e'
  = (Ok (Identity.generate_token (SERVER_SECRET_KEY e) cid), e').
Proof.
  assert (files e' !! Identity._ID_FILE = Some cid ∨
          ∃ text, files e' !! Identity._ID_FILE = Some text ∧ strip text = cid)
    as Hfile.
  { revert Hrun.
    unfold Identity.get_client_id, bind, exists_, gets, read_text, uuid4,
      write_text, ret.
    case_bool_decide as Hp.
    - destruct (files e !! Identity._ID_FILE) as [text|] eqn:Ht; [|done].
      destruct (negb _) eqn:Hb.
      + intros [= <- <-]. right. by exists text.
      + simpl. case_bool_decide; [done|]. intros [= <- <-]. left. simpl.
        apply lookup_insert_eq.
    - simpl. case_bool_decide; [done|]. intros [= <- <-]. left. simpl.
      apply lookup_insert_eq. }
  pose proof (get_client_id_frame _ _ _ Hrun) as Hkey.
  rewrite <- Hkey.
  assert (∃ text, files e' !! Identity._ID_FILE = Some text ∧
                  strip text = cid) as (text & Hf & Ht).
  { destruct Hfile as [Hf|H]; [by exists cid|done]. }
  assert (strip text ≠ "") as Hne by (by rewrite Ht).
  pose proof (get_client_id_present e' text Hf Hne) as H1.
  pose proof (get_auth_token_present e' text Hf Hne) as H2.
  rewrite Ht in H1, H2. done.
Qed.

End IdentityMore.

(** ** The queue as a whole *)

Section QueueMore.
Import Cache.

Lemma mark_sent_closed (ids : list Z) db :
  mark_sent ids db
  = {| rows := map (λ r, if bool_decide (id r ∈ ids) then set_sent r else r)
                   (rows db);
       seq := seq db |}.
Proof.
  pose proof (rows_mark_sent ids db) as Hr.
  pose proof (seq_mark_sent ids db) as Hs.
  destruct (mark_sent ids db) as [rs s]. simpl in *. by subst.
Qed.

Lemma map_id_mark (ids : list Z) l :
  map id (map (λ r, if bool_decide (id r ∈ ids) then set_sent r else r) l)
  = map id l.
Proof.
  induction l as [|r l IH]; simpl; [done|].
  rewrite IH. by case_bool_decide.
Qed.

Lemma well_formed_ensure_db : well_formed _ensure_db.
Proof. split; simpl; constructor. Qed.

Lemma well_formed_mark_sent ids db :
  well_formed db → well_formed (mark_sent ids db).
Proof.
  intros [Hs Hb]. rewrite mark_sent_closed. split; simpl.
  - by rewrite map_id_mark.
  - apply Forall_forall. intros r Hr.
    apply list_elem_of_fmap in Hr as (r0 & -> & Hr0).
    rewrite Forall_forall in Hb. specialize (Hb r0 Hr0).
    by case_bool_decide.
Qed.

Lemma StronglySorted_filter_map (P : Row → Prop) `{!∀ r, Decision (P r)} l :
  StronglySorted Z.lt (map id l) → StronglySorted Z.lt (map id (filter P l)).
Proof.
  induction l as [|r l IH]; simpl; [done|].
  intros Hs. apply StronglySorted_inv in Hs as [Hs Hall].
  rewrite filter_cons. destruct (decide (P r)); [|by apply IH].
  simpl. constructor; [by apply IH|].
  rewrite Forall_forall in Hall. apply Forall_forall. intros i Hi.
  apply Hall. apply list_elem_of_fmap in Hi as (x & -> & Hx).
  apply list_elem_of_fmap. exists x. split; [done|].
  by apply list_elem_of_filter in Hx as [_ Hx].
Qed.

Lemma well_formed_prune now age db :
  well_formed db → well_formed (prune now age db).
Proof.
  intros [Hs Hb]. split; simpl.
  - by apply StronglySorted_filter_map.
  - apply Forall_forall. intros r Hr.
    apply list_elem_of_filter in Hr as [_ Hr].
    rewrite Forall_forall in Hb. by apply Hb.
Qed.

Lemma sorted_ids_le l :
  StronglySorted Z.lt (map id l) → StronglySorted id_le l.
Proof.
  induction l as [|r l IH]; simpl; intros Hs; [constructor|].
  apply StronglySorted_inv in Hs as [Hs Hall].
  constructor; [by apply IH|].
  rewrite Forall_forall in Hall. apply Forall_forall. intros x Hx.
  unfold id_le. assert (id r < id x); [|lia].
  apply Hall. by apply list_elem_of_fmap_2.
Qed.

Lemma select_unsent_storage_order limit db :
  well_formed db → select_unsent limit db = sql_limit limit (unsent_rows db).
Proof.
  intros [Hs _]. unfold select_unsent, unsent_rows. f_equal.
  apply order_by_id_of_sorted, sorted_ids_le.
  by apply StronglySorted_filter_map.
Qed.

Lemma unsent_after_mark (ids : list Z) l :
  filter (λ r, is_unsent r = true)
         (map (λ r, if bool_decide (id r ∈ ids) then set_sent r else r) l)
  = filter (λ r, id r ∉ ids) (filter (λ r, is_unsent r = true) l).
Proof.
  induction l as [|r l IH]; [done|].
  cbn [map]. rewrite !filter_cons.
  case_bool_decide as Hin.
  - rewrite decide_False by done. rewrite IH.
    destruct (decide (is_unsent r = true)); [|done].
    by rewrite filter_cons, decide_False by tauto.
  - destruct (decide (is_unsent r = true)); [|done].
    by rewrite filter_cons, decide_True, IH by done.
Qed.

Lemma filter_all {A} (P : A → Prop) `{!∀ x, Decision (P x)} (l : list A) :
  (∀ x, x ∈ l → P x) → filter P l = l.
Proof.
  induction l as [|x l IH]; intros Hall; [done|].
  rewrite filter_cons, decide_True by (apply Hall; apply list_elem_of_here).
  rewrite IH; [done|]. intros y Hy. apply Hall. by apply list_elem_of_further.
Qed.

Lemma filter_drop_taken l : ∀ n (seen : list Z),
  NoDup (map id l) → (∀ r, r ∈ l → id r ∉ seen) →
  filter (λ r, id r ∉ seen ++ map id (take n l)) l = drop n l.
Proof.
  induction l as [|x l IH]; intros n seen Hnd Hseen; [by destruct n|].
  destruct n as [|n].
  - cbn [take map drop]. rewrite app_nil_r. by apply filter_all.
  - cbn [take map drop]. rewrite filter_cons, decide_False.
    2:{ intros H. apply H. apply elem_of_app. right. apply list_elem_of_here. }
    simpl in Hnd. apply NoDup_cons in Hnd as [Hx Hnd].
    rewrite (cons_middle (id x)), app_assoc.
    apply IH; [done|]. intros r Hr Hin.
    apply elem_of_app in Hin as [Hin|Hin].
    + apply (Hseen r); [by apply list_elem_of_further|done].
    + apply list_elem_of_singleton in Hin. apply Hx. rewrite <- Hin.
      by apply list_elem_of_fmap_2.
Qed.

Lemma sorted_lt_nodup (l : list Z) : StronglySorted Z.lt l → NoDup l.
Proof.
  induction l as [|x l IH]; intros Hs; [constructor|].
  apply StronglySorted_inv in Hs as [Hs Hall].
  apply NoDup_cons. split; [|by apply IH].
  intros Hin. rewrite Forall_forall in Hall. specialize (Hall x Hin). lia.
Qed.

Section QueuePayload.
Context {Payload : Type} (dumps : Payload → string)
        (loads : string → option Payload).

(** X14 (cache.py, [_ensure_db], [save], [mark_sent], [prune],
    [get_unsent]): the table the methods build keeps its ids strictly
    ascending in storage order, positive and no larger than the
    AUTOINCREMENT counter, through every operation; on such a table the
    order [get_unsent] returns is the order of insertion. *)
Theorem queue_stays_well_formed (db : Db) (Hwf : well_formed db) :
  (∀ now d db', save dumps now d db = Some db' → well_formed db') ∧
  (∀ ids, well_formed (mark_sent ids db)) ∧
  (∀ now max_age_seconds, well_formed (prune now max_age_seconds db)) ∧
  (∀ limit, select_unsent limit db = sql_limit limit (unsent_rows db)) ∧
  NoDup (map id (rows db)).
Proof.
  split; [|split; [|split; [|split]]].
  - intros now d db' Hsave.
    destruct (save_spec dumps now d db db' Hsave) as (i & Hrows & Hseq & Hlt & Hs).
    destruct Hwf as [Hsorted Hbound]. split.
    + rewrite Hrows, map_app. apply StronglySorted_app_2; [|done|].
      * intros x1 x2 H1 H2. simpl in H2.
        apply list_elem_of_singleton in H2 as ->.
        apply list_elem_of_fmap in H1 as (r & -> & Hr). by apply Hlt.
      * simpl. repeat constructor.
    + rewrite Hrows, Hseq. apply Forall_app. split.
      * rewrite Forall_forall in Hbound. apply Forall_forall. intros r Hr.
        specialize (Hbound r Hr). specialize (Hlt r Hr). lia.
      * constructor; [|constructor]. simpl.
        rewrite Forall_forall in Hbound.
        unfold save in Hsave. unfold next_rowid in Hsave.
        pose proof (max_id_nonneg (rows db)).
        destruct (_ <? MAX_ROWID); [|done]. injection Hsave as <-.
        simpl in Hseq. lia.
  - intros ids. by apply well_formed_mark_sent.
  - intros now age. by apply well_formed_prune.
  - intros limit. by apply select_unsent_storage_order.
  - apply sorted_lt_nodup. by destruct Hwf.
Qed.

(** X15 (cache.py, [save] after [prune] and [mark_sent]): an id is never
    handed out twice.  A record saved after rows were pruned or marked gets
    an id above every id the table ever held, also above the ids of rows
    that no longer exist. *)
Theorem ids_are_never_reused (db db' : Db) (ids : list Z)
    (now max_age_seconds later : Z) (d : Payload)
    (Hwf : well_formed db)
    (Hsave : save dumps later d
               (mark_sent ids (prune now max_age_seconds db)) = Some db') :
  ∃ i, rows db'
       = rows (mark_sent ids (prune now max_age_seconds db))
         ++ [mkRow i later (dumps d) 0] ∧
       seq db < i ∧
       ∀ r, r ∈ rows db → id r < i.
Proof.
  destruct (save_spec dumps later d _ db' Hsave) as (i & Hrows & _ & _ & Hs).
  exists i. split; [done|].
  rewrite seq_mark_sent in Hs. simpl in Hs. split; [done|].
  intros r Hr. destruct Hwf as [_ Hb]. rewrite Forall_forall in Hb.
  specialize (Hb r Hr). lia.
Qed.

(** X16 (cache.py, [get_unsent] followed by [mark_sent] of the ids it
    returned, the way a delivered batch is acknowledged): marking the batch that
    [get_unsent] returned removes exactly the first rows of the queue, as
    many as the batch holds; the rest stays unsent, in order, and is what
    the next [get_unsent] draws from. *)
Theorem acknowledged_batch_is_dequeued (db : Db) (limit : Z)
    (res : list (Unsent Payload))
    (Hwf : well_formed db)
    (Hlimit : 0 ≤ limit)
    (Hbatch : get_unsent loads limit db = Some res) :
  let db' := mark_sent (map u_id res) db in
  map u_id res = map id (take (length res) (unsent_rows db)) ∧
  unsent_rows db' = drop (length res) (unsent_rows db) ∧
  well_formed db' ∧
  (∀ limit', select_unsent limit' db'
             = sql_limit limit' (drop (length res) (unsent_rows db))).
Proof.
  intros db'.
  pose proof (get_unsent_ids loads limit db res Hbatch) as Hids.
  rewrite select_unsent_storage_order in Hids by done.
  unfold sql_limit in Hids.
  assert ((limit <? 0) = false) as Hl by lia. rewrite Hl in Hids.
  fold (take (Z.to_nat limit) (unsent_rows db)) in Hids.
  assert (length res = length (take (Z.to_nat limit) (unsent_rows db))) as Hlen.
  { by rewrite <- (length_map u_id), Hids, length_map. }
  assert (take (Z.to_nat limit) (unsent_rows db)
          = take (length res) (unsent_rows db)) as Htake.
  { rewrite Hlen, length_take.
    destruct (Nat.le_ge_cases (Z.to_nat limit) (length (unsent_rows db))).
    - by rewrite Nat.min_l.
    - rewrite Nat.min_r by done. by rewrite !take_ge. }
  rewrite Htake in Hids.
  assert (Hwf' : well_formed db') by (by apply well_formed_mark_sent).
  assert (unsent_rows db' = drop (length res) (unsent_rows db)) as Hrest.
  { unfold db'. unfold unsent_rows at 1. rewrite rows_mark_sent.
    rewrite unsent_after_mark. fold (unsent_rows db). rewrite Hids.
    apply (filter_drop_taken (unsent_rows db) (length res) []).
    - apply sorted_lt_nodup. apply StronglySorted_filter_map. by destruct Hwf.
    - intros r _. apply not_elem_of_nil. }
  split; [done|]. split; [done|]. split; [done|].
  intros limit'. rewrite select_unsent_storage_order by done. by rewrite Hrest.
Qed.

End QueuePayload.

(** X17 (cache.py, [mark_sent] and [prune]): marking and pruning commute,
    and each of them done twice is the same as done once; neither changes
    the AUTOINCREMENT counter. *)
Theorem mark_sent_and_prune_commute (ids : list Z) (now max_age_seconds : Z)
    (db : Db) :
  prune now max_age_seconds (mark_sent ids db)
  = mark_sent ids (prune now max_age_seconds db) ∧
  mark_sent ids (mark_sent ids db) = mark_sent ids db ∧
  prune now max_age_seconds (prune now max_age_seconds db)
  = prune now max_age_seconds db ∧
  seq (prune now max_age_seconds (mark_sent ids db)) = seq db.
Proof.
  set (f := λ r : Row, if bool_decide (id r ∈ ids) then set_sent r else r).
  assert (∀ r, timestamp (f r) = timestamp r) as Hts
    by (intros r; unfold f; by case_bool_decide).
  assert (∀ r, f (f r) = f r) as Hff.
  { intros r. unfold f. destruct (decide (id r ∈ ids)) as [Hin|Hin].
    - rewrite (bool_decide_eq_true_2 _ Hin). simpl.
      by rewrite (bool_decide_eq_true_2 _ Hin).
    - rewrite (bool_decide_eq_false_2 _ Hin).
      by rewrite (bool_decide_eq_false_2 _ Hin). }
  split; [|split; [|split]].
  - rewrite !mark_sent_closed. unfold prune. simpl. f_equal.
    fold f. induction (rows db) as [|r l IH]; [done|].
    cbn [map]. rewrite !filter_cons, Hts.
    destruct (decide _); [|done]. cbn [map]. by rewrite IH.
  - rewrite !mark_sent_closed. simpl. f_equal. fold f.
    rewrite map_map. apply map_ext. intros r. apply Hff.
  - unfold prune. simpl. f_equal.
    apply filter_all. intros r Hr. by apply list_elem_of_filter in Hr as [Hr _].
  - simpl. apply seq_mark_sent.
Qed.

End QueueMore.

(** ** Schedules that do not wrap *)

Section WindowMore.
Import Json Datetime MonitorConfig.

(** X21 (monitor_config.py, [_check_scheduled_time]): a range whose start
    lies after its end, such as 22:00 to 06:00, does not wrap around
    midnight: a schedule with such a range is active at no time of any
    day. *)
Theorem inverted_range_is_never_active
    (fromisoformat : string → option datetime) (c : Clock)
    (sched : list (string * json)) (days : list string)
    (a b : time_of_day) (cd : json)
    (Hsched : schedule_of sched days (Some (a, b)))
    (Hnow : valid_time (hour (local_now c), minute (local_now c)))
    (Hinverted : minutes b < minutes a) :
  is_monitoring_time fromisoformat
    (mkMonitorConfig (JStr "SCHEDULED") (JObj sched) cd) c = false.
Proof.
  unfold is_monitoring_time. simpl.
  destruct (scheduled_iff (mkMonitorConfig (JStr "SCHEDULED") (JObj sched) cd)
              sched days (Some (a, b)) (local_now c) eq_refl Hsched Hnow)
    as (r & -> & Hr).
  simpl. destruct r; [|done].
  destruct Hr as [Hr _]. destruct (Hr eq_refl) as [_ Hrange]. lia.
Qed.

End WindowMore.

(** ** The heartbeat manager and the status report *)

Section HeartbeatMore.
Import Json Py Os Datetime Heartbeat.

Variable fromisoformat : string → option datetime.
Variable isoformat : naive → string.
Variable whole_seconds : Z → Z.
Variable hostname : string.
Variable send_immediate : json → M Reach bool.

#[local] Abbreviation create :=
  (create_heartbeat_data fromisoformat isoformat whole_seconds hostname).
#[local] Abbreviation send :=
  (send_heartbeat fromisoformat isoformat whole_seconds hostname send_immediate).

Lemma on_reach_manager {A} (m : M Reach A) p r p' :
  on_reach m p = (r, p') → manager p' = manager p.
Proof.
  unfold on_reach, zoom. destruct (m (reach p)) as [r1 x]. by intros [= _ <-].
Qed.

Lemma on_env_time p :
  on_env time p = (Ok (clock (StateManager.os (world (reach p)))), p).
Proof. by destruct p as [m [mc [sm e]]]. Qed.

Lemma create_manager reason c_check c p r p' :
  create reason c_check c p = (r, p') →
  manager p'
  = mkHeartbeatManager (last_heartbeat_time (manager p))
                       (heartbeat_count (manager p) + 1).
Proof.
  unfold create_heartbeat_data, bind at 1, on_manager, modify.
  set (p1 := mkProcess _ (reach p)).
  unfold bind at 1. rewrite on_env_time.
  unfold bind at 1.
  destruct (on_env Identity.get_client_id p1) as [[cid|e] p2] eqn:E;
    apply on_reach_manager in E.
  - unfold bind, gets. simpl.
    destruct (MonitorConfig.get_status_info _ _ _ _ _ _); simpl;
      [|by intros [= _ <-]].
    destruct p2 as [m2 [mc2 [sm2 e2]]]. simpl. by intros [= _ <-].
  - by intros [= _ <-].
Qed.

(** X22 (heartbeat.py, [send_heartbeat] and [create_heartbeat_data]): every
    call of [send_heartbeat] raises the sequence counter by exactly one,
    whether the heartbeat is delivered, refused or cannot even be built;
    [last_heartbeat_time] changes only when the sender reports success, and
    then to the time after the send.  The method itself raises nothing; only
    an interrupt from the sender passes through. *)
Theorem heartbeat_bookkeeping (reason : string) (c_check c : Clock)
    (p : Process) :
  let r := send reason c_check c p in
  heartbeat_count (manager (snd r)) = heartbeat_count (manager p) + 1 ∧
  (fst r = Ok true →
     last_heartbeat_time (manager (snd r))
     = clock (StateManager.os (world (reach (snd r))))) ∧
  (fst r ≠ Ok true →
     last_heartbeat_time (manager (snd r)) = last_heartbeat_time (manager p)) ∧
  (∀ e, fst r = Raise e → e = KeyboardInterrupt) ∧
  (∀ n, heartbeat_count
          (manager (Nat.iter n (exec (send reason c_check c)) p))
        = heartbeat_count (manager p) + Z.of_nat n).
Proof.
  assert (Hstep : ∀ q,
    let r := send reason c_check c q in
    heartbeat_count (manager (snd r)) = heartbeat_count (manager q) + 1 ∧
    (fst r = Ok true →
       last_heartbeat_time (manager (snd r))
       = clock (StateManager.os (world (reach (snd r))))) ∧
    (fst r ≠ Ok true →
       last_heartbeat_time (manager (snd r)) = last_heartbeat_time (manager q)) ∧
    (∀ e, fst r = Raise e → e = KeyboardInterrupt)).
  { intros q. cbv zeta.
    destruct (send reason c_check c q) as [res q'] eqn:E. cbn [fst snd].
    revert E. unfold send_heartbeat, try_except. unfold bind at 1.
    destruct (create reason c_check c q) as [[d|e] p1] eqn:E1;
      apply create_manager in E1.
    - unfold bind at 1.
      destruct (on_reach (send_immediate (JObj d)) p1) as [[[]|e] p2] eqn:E2;
        apply on_reach_manager in E2.
      + unfold bind at 1. rewrite on_env_time.
        unfold bind, on_manager, modify, ret.
        intros [= <- <-]. simpl. rewrite E2, E1. simpl.
        repeat split; try done; try congruence.
      + intros [= <- <-]. rewrite E2, E1. simpl. repeat split; try done; try congruence.
      + destruct e; simpl; intros [= <- <-]; rewrite E2, E1; simpl;
          repeat split; try done; try congruence.
    - destruct e; simpl; intros [= <- <-]; rewrite E1; simpl;
        repeat split; try done; try congruence. }
  intros r. destruct (Hstep p) as (H1 & H2 & H3 & H4).
  split; [exact H1|]. split; [exact H2|]. split; [exact H3|]. split; [exact H4|].
  induction n as [|n IH]; [simpl; lia|].
  rewrite Nat.iter_succ. unfold exec at 1.
  destruct (Hstep (Nat.iter n (exec (send reason c_check c)) p)) as (Hn & _).
  rewrite Hn, IH. lia.
Qed.

(** X23 (monitor_config.py, [get_status_info] against
    [is_monitoring_time]): in COUNTDOWN mode with an end time set, the
    status report is consistent when both read the same clock: it always
    carries [remaining_seconds], and a report that says the window is closed
    (end time passed, unparsable or not comparable) gives 0 seconds left. *)
Theorem countdown_status_is_consistent (last : naive)
    (sch : json) (cd : list (string * json)) (c : Clock)
    (Hset : truthy_opt (dict_get "end_time" cd) = true) :
  let self := MonitorConfig.mkMonitorConfigObject
                (MonitorConfig.mkMonitorConfig (JStr "COUNTDOWN") sch (JObj cd))
                last in
  ∃ info n,
    MonitorConfig.get_status_info fromisoformat isoformat whole_seconds
      self c c = Some info ∧
    dict_get "is_monitoring_time" info
      = Some (JBool (MonitorConfig.is_monitoring_time fromisoformat
                       (MonitorConfig.fields self) c)) ∧
    dict_get "remaining_seconds" info = Some (JNum n) ∧
    (MonitorConfig.is_monitoring_time fromisoformat
       (MonitorConfig.fields self) c = false → n = 0).
Proof.
  intros self. unfold MonitorConfig.get_status_info. simpl.
  rewrite Hset. eexists _, _. split; [reflexivity|].
  split; [reflexivity|]. split; [reflexivity|].
  unfold MonitorConfig.is_monitoring_time, MonitorConfig._check_countdown_time.
  simpl. destruct cd as [|kv cd']; [done|].
  cbn [truthy negb]. rewrite Hset. cbn [negb default from_option].
  unfold MonitorConfig.countdown_try, MonitorConfig.remaining_seconds.
  destruct (default JNull (dict_get "end_time" (kv :: cd'))) as [| | |s| |];
    try done.
  destruct (MonitorConfig.endswith_Z s).
  - destruct (fromisoformat (MonitorConfig.replace_Z s)) as [e|]; [|done].
    cbv iota beta. by destruct (lt (now_utc c) e) as [[]|].
  - destruct (fromisoformat s) as [e|]; [|done].
    cbv iota beta. by destruct (lt (now c) e) as [[]|].
Qed.

End HeartbeatMore.

(** ** No identifier yet *)

Section IdentityEdge.
Import Json Py Os StateManager Main.


End IdentityEdge.

(** ** One pass of the main loop *)

Section PassFacts.
Import Json Py Os StateManager Main.

Variable dumps : json → string.
Variable loads : string → option json.

Lemma loop_head_register w w1 :
  loop_head dumps loads w = (Ok Register, w1) →
  state (self w1) = REGISTERING.
Proof.
  unfold loop_head.
  destruct (should_stop_cases dumps loads w) as [(E & Hst & _)|(w0 & E & _)];
    unfold bind at 1; rewrite E.
  - unfold bind at 1. unfold get_state at 1, gets.
    rewrite bool_decide_eq_true_2 by done.
    destruct (get_error_info_run w) as (info & Ei & _).
    unfold bind. rewrite Ei. simpl. done.
  - destruct (set_state_ok dumps w0 REGISTERING) as (w2 & E2).
    pose proof (set_state_state dumps _ _ _ E2) as Hst.
    unfold bind. rewrite E2.
    unfold should_enter_sleep_retry_mode, bind, get_state, gets, ret.
    rewrite Hst. rewrite bool_decide_eq_false_2.
    + by intros [= <-].
    + intros H. apply elem_of_cons in H as [H|H]; [done|].
      apply elem_of_cons in H as [H|H]; [done|]. by apply elem_of_nil in H.
Qed.

(** X25 (main.py, [main]: the outer loop from its first line to the end of
    the registration part): every pass that gets past the error check calls
    [register_client], also for a client that was [REGISTERED] when the
    pass began, because the pass sets [REGISTERING] before it tests for
    [REGISTERED]. *)
Theorem every_pass_registers (requests : list attempt) (w w1 : World)
    (Hhead : loop_head dumps loads w = (Ok Register, w1)) :
  registration_attempt dumps loads requests w1
  = (let! r := register_client dumps loads 0 30 requests in
     match r with
     | Retrying => ret InRegisterClient
     | Returned None | Returned (Some []) =>
         set_state dumps ERROR >>
         on_os (sleep TimingConfig.REGISTER_FAILED_RETRY_INTERVAL) >>
         ret Continue
     | Returned (Some config) =>
         let status := dict_get "status" config in
         if opt_eq_str status "pending" then ret Continue
         else if opt_eq_str status "rejected" then
           on_os (sleep TimingConfig.REGISTER_REJECTED_RETRY_INTERVAL) >>
           ret Continue
         else if opt_eq_str status "deleted" then ret Continue
         else if opt_eq_str status "accepted" then
           set_state dumps REGISTERED >> ret (Accepted config)
         else ret Continue
     end) w1 ∧
  ∃ r w2, registration_attempt dumps loads requests w1 = (r, w2) ∧
          r ≠ Ok Skipped.
Proof.
  apply loop_head_register in Hhead as Hst.
  assert (registration_attempt dumps loads requests w1
          = (let! r := register_client dumps loads 0 30 requests in
     match r with
     | Retrying => ret InRegisterClient
     | Returned None | Returned (Some []) =>
         set_state dumps ERROR >>
         on_os (sleep TimingConfig.REGISTER_FAILED_RETRY_INTERVAL) >>
         ret Continue
     | Returned (Some config) =>
         let status := dict_get "status" config in
         if opt_eq_str status "pending" then ret Continue
         else if opt_eq_str status "rejected" then
           on_os (sleep TimingConfig.REGISTER_REJECTED_RETRY_INTERVAL) >>
           ret Continue
         else if opt_eq_str status "deleted" then ret Continue
         else if opt_eq_str status "accepted" then
           set_state dumps REGISTERED >> ret (Accepted config)
         else ret Continue
     end) w1) as Hrun.
  { unfold registration_attempt. unfold bind at 1. unfold get_state, gets.
    rewrite Hst. by rewrite bool_decide_eq_true_2. }
  split; [exact Hrun|].
  rewrite Hrun. unfold bind at 1.
  destruct (register_client dumps loads 0 30 requests w1) as [[[cfg|]|e] w2];
    [|by eexists _, _|by eexists _, _].
  - assert (∀ w', ∃ r w'', (set_state dumps ERROR >>
              on_os (sleep TimingConfig.REGISTER_FAILED_RETRY_INTERVAL) >>
              ret Continue) w' = (r, w'') ∧ r ≠ Ok Skipped) as Hfail.
    { intros w'. destruct (failed_registration dumps w') as (w'' & -> & _).
      by eexists _, _. }
    destruct cfg as [cfg|]; [|apply Hfail].
    destruct cfg as [|kv cfg]; [apply Hfail|].
    cbv zeta.
    destruct (opt_eq_str _ "pending"); [by eexists _, _|].
    destruct (opt_eq_str _ "rejected"); [by eexists _, _|].
    destruct (opt_eq_str _ "deleted"); [by eexists _, _|].
    destruct (opt_eq_str _ "accepted"); [|by eexists _, _].
    unfold bind. destruct (set_state_ok dumps w2 REGISTERED) as (w3 & ->).
    by eexists _, _.
Qed.

End PassFacts.

(** ** Concrete runs of the further properties *)

Section FurtherRuns.
Import Json Py Os StateManager Main Sample.

Lemma get_client_id_idempotent_witness :
  let e := set_files ∅ sample_env in
  ∃ e', Identity.get_client_id e
        = (Ok "7c9e6679-7425-40de-944b-e07fc1f90ae7", e') ∧
        Identity.get_client_id e'
        = (Ok "7c9e6679-7425-40de-944b-e07fc1f90ae7", e').
Proof.
  eexists. split; [reflexivity|].
  eapply (get_client_id_idempotent (set_files ∅ sample_env)).
  - reflexivity.
  - reflexivity.
  - discriminate.
Defined.


Lemma restart_round_trip_witness :
  let w := sample_world REGISTERING 0 0 in
  let w1 := exec (set_state state_dumps REGISTERED) w in
  let w2 := exec (__init__ state_dumps state_loads)
                 (mkWorld (mkStateManager UNREGISTERED 0 0) (os w1)) in
  (state_file ∉ faulty (os w)) ∧
  (state_loads (state_dumps (state_record REGISTERED (clock (os w))))
   = Some (JObj [("state", JStr "registered")])) ∧
  state (self w2) = REGISTERED.
Proof.
  split; [apply not_elem_of_empty|]. split; [reflexivity|].
  apply (restart_round_trip state_dumps state_loads
           (sample_world REGISTERING 0 0) REGISTERED
           (mkStateManager UNREGISTERED 0 0) [("state", JStr "registered")]).
  - apply not_elem_of_empty.
  - discriminate.
  - reflexivity.
  - reflexivity.
Defined.

Lemma error_info_matches_recovery_witness :
  let w := sample_world ERROR (1700000000 - 100) 0 in
  (state (self w) = ERROR) ∧ (0 < error_start_time (self w)) ∧
  ∃ info, get_error_info w = (Ok info, w) ∧
          dict_get "auto_recovery_in" info = Some (JNum 200).
Proof.
  split; [reflexivity|]. split; [reflexivity|].
  destruct (error_info_matches_recovery sample_dumps sample_loads
              (sample_world ERROR (1700000000 - 100) 0) eq_refl eq_refl)
    as (info & remaining & E & Hr & -> & _).
  exists info. split; [exact E|exact Hr].
Defined.

Lemma delete_marker_round_trip_witness :
  let w := sample_world REGISTERED 0 0 in
  (delete_marker_file ∉ faulty (os w)) ∧
  outcome check_delete_marker (exec create_delete_marker w) = Ok true ∧
  files (os (exec create_delete_marker w)) !! delete_marker_file
  = Some "deleted_at_1700000000".
Proof.
  split; [apply not_elem_of_empty|].
  destruct (delete_marker_round_trip (sample_world REGISTERED 0 0))
    as (_ & H1 & H2 & _); [apply not_elem_of_empty|].
  split; [exact H1|exact H2].
Defined.


Lemma register_client_gives_up_witness :
  let w := sample_world REGISTERING 0 0 in
  Forall retried [transport_failure; transport_failure; transport_failure] ∧
  register_client sample_dumps sample_loads 3 30
    [transport_failure; transport_failure; transport_failure;
     mkAttempt sample_accept false] w
  = (Ok (Returned None), waited 60 w).
Proof.
  assert (retried transport_failure) as Hr by (split; [reflexivity|by left]).
  split; [by repeat constructor|].
  apply (register_client_gives_up sample_dumps sample_loads 3 30
           [transport_failure; transport_failure; transport_failure]
           [mkAttempt sample_accept false] (sample_world REGISTERING 0 0)
           "0f8fad5b-d9cb-469f-a165-70867728950e").
  - reflexivity.
  - discriminate.
  - reflexivity.
  - reflexivity.
  - by repeat constructor.
Defined.

Lemma register_client_403_raises_NameError_witness :
  let w := sample_world REGISTERING 0 0 in
  register_client sample_dumps sample_loads 0 30
    [mkAttempt (Response 403 None) false] w
  = (Raise NameError, w).
Proof.
  apply (register_client_403_raises_NameError sample_dumps sample_loads 0 30
           None false [] (sample_world REGISTERING 0 0)
           "0f8fad5b-d9cb-469f-a165-70867728950e").
  - reflexivity.
  - discriminate.
  - discriminate.
Defined.

End FurtherRuns.

Section FurtherQueueRuns.
Import Json Cache Sample.

Lemma sample_queue_well_formed : well_formed sample_queue.
Proof.
  split; simpl.
  - repeat constructor; lia.
  - repeat constructor; simpl; lia.
Qed.

Lemma queue_stays_well_formed_witness :
  well_formed sample_queue ∧
  well_formed (mark_sent [1; 2] (prune 86500 86400 sample_queue)).
Proof.
  split; [exact sample_queue_well_formed|].
  apply (queue_stays_well_formed (Payload:=string) Datatypes.id).
  apply (queue_stays_well_formed (Payload:=string) Datatypes.id).
  exact sample_queue_well_formed.
Defined.

Lemma ids_are_never_reused_witness :
  ∃ db', save (Payload:=string) Datatypes.id 86600 "d"
           (mark_sent [3] (prune 86503 86400 sample_queue)) = Some db' ∧
         rows (prune 86503 86400 sample_queue) = [] ∧
         ∃ i, rows db' = [mkRow i 86600 "d" 0] ∧ 3 < i.
Proof.
  eexists. split; [reflexivity|]. split; [reflexivity|].
  destruct (ids_are_never_reused (Payload:=string) Datatypes.id sample_queue
              _ [3] 86503 86400 86600 "d" sample_queue_well_formed eq_refl)
    as (i & Hrows & Hseq & _).
  exists i. split; [exact Hrows|exact Hseq].
Defined.

Lemma acknowledged_batch_is_dequeued_witness :
  get_unsent Some 2 sample_queue
  = Some [mkUnsent 1 100 "a"; mkUnsent 2 101 "b"] ∧
  unsent_rows (mark_sent [1; 2] sample_queue) = [mkRow 3 102 "c" 0].
Proof.
  split; [reflexivity|].
  apply (acknowledged_batch_is_dequeued (Payload:=string) Some sample_queue 2
           [mkUnsent 1 100 "a"; mkUnsent 2 101 "b"]
           sample_queue_well_formed).
  - lia.
  - reflexivity.
Defined.

End FurtherQueueRuns.

Section FurtherWindowRuns.
Import Json Datetime MonitorConfig Sample.

Lemma inverted_range_is_never_active_witness :
  schedule_of overnight [] (Some ((22, 0), (6, 0))) ∧
  is_monitoring_time (λ _, None)
    (mkMonitorConfig (JStr "SCHEDULED") (JObj overnight) (JObj []))
    (mkClock (mkNaive 730123 23 30 0 0) (mkNaive 730123 15 30 0 0))
  = false.
Proof.
  assert (schedule_of overnight [] (Some ((22, 0), (6, 0)))) as Hs.
  { split; [by left|]. unfold valid_time. simpl. repeat split; lia. }
  split; [exact Hs|].
  apply (inverted_range_is_never_active (λ _, None) _ overnight []
           (22, 0) (6, 0) (JObj []) Hs).
  - unfold valid_time. simpl. lia.
  - unfold minutes. simpl. lia.
Defined.

Lemma countdown_status_is_consistent_witness :
  ∃ info,
    get_status_info (λ _, None) (λ _, "2000-01-04T09:00:00") (λ us, us / 1000000)
      (mkMonitorConfigObject
         (mkMonitorConfig (JStr "COUNTDOWN") (JObj [])
            (JObj [("end_time", JStr "soon")]))
         (mkNaive 730123 9 0 0 0))
      tuesday_10 tuesday_10 = Some info ∧
    dict_get "remaining_seconds" info = Some (JNum 0).
Proof.
  destruct (countdown_status_is_consistent (λ _, None)
              (λ _, "2000-01-04T09:00:00") (λ us, us / 1000000)
              (mkNaive 730123 9 0 0 0) (JObj [])
              [("end_time", JStr "soon")] tuesday_10 eq_refl)
    as (info & n & E & _ & Hn & Hzero).
  exists info. split; [exact E|]. rewrite Hn. by rewrite Hzero.
Defined.

End FurtherWindowRuns.

Section IdentityEdgeRuns.
Import Json Py Os StateManager Sample.


End IdentityEdgeRuns.

Section PassRuns.
Import Json Py Os StateManager Main Sample.

Lemma every_pass_registers_witness :
  let w := sample_world REGISTERED 0 0 in
  ∃ w1 cfg w2,
    loop_head sample_dumps sample_loads w = (Ok Register, w1) ∧
    registration_attempt sample_dumps sample_loads
      [mkAttempt sample_accept false] w1
    = (Ok (Accepted cfg), w2).
Proof.
  eexists _, _, _. split; [vm_compute; reflexivity|].
  match goal with
  | |- registration_attempt ?d ?l ?reqs ?w1 = _ =>
      destruct (every_pass_registers d l reqs (sample_world REGISTERED 0 0) w1)
        as [Hrun _]; [vm_compute; reflexivity|rewrite Hrun]
  end.
  vm_compute. reflexivity.
Defined.

End PassRuns.
